(** * Heater controller: gaussmeter channel, sample decoder, command
      dispatcher and scheduler loop

    Shallow embedding of [device_models.py] (class [GM3]) and of
    [pid_controller_server.py] ([process_command], [main]), with the
    properties of the natural-language specification stated over it.

    Conventions.
    - Python [bytes] are [list byte]; Python [str] is [string], a character
      being a code point below 256.
    - Python [int] is [Z].  Python [float] is idealised as an exact rational
      ([Q]): rounding to binary64 is not represented.
    - Exceptions are values of [exn]; a computation that may raise returns
      [res]. *)

From Stdlib Require Import ZArith QArith Ascii String List Lia DecimalString.
From Stdlib.Strings Require Import Byte.
From stdpp Require Import base option list strings gmap.

Local Open Scope string_scope.
Local Open Scope list_scope.
Local Open Scope Z_scope.

(** ** Exceptions and results *)

Inductive exn : Type :=
  | ValueError
  | UnboundLocalError
  | IndexError
  | KeyError
  | TypeError
  | AttributeError
  | BlockingIOError
  | OtherError (tag : string).

Inductive res (A : Type) : Type :=
  | Ok (a : A)
  | Raise (e : exn).
Arguments Ok {A} a.
Arguments Raise {A} e.

(** [res] is a monad; stdpp's [x ← m; k] sequences fallible steps and
    stops at the first exception. *)
#[global] Instance res_bind : MBind res := fun A B k m =>
  match m with
  | Ok a => k a
  | Raise e => Raise e
  end.
#[global] Instance res_ret : MRet res := fun A a => Ok a.

Fixpoint res_mapM {A B} (f : A -> res B) (l : list A) : res (list B) :=
  match l with
  | [] => Ok []
  | x :: l' =>
      match f x with
      | Ok y =>
          match res_mapM f l' with
          | Ok ys => Ok (y :: ys)
          | Raise e => Raise e
          end
      | Raise e => Raise e
      end
  end.

#[global] Instance byte_eq_decision : EqDecision byte := Byte.byte_eq_dec.

(** ** Python built-ins used by the decoder and the channel *)

Module Py.

(** A byte as a number, and the byte of a number below 256. *)
Definition byte_Z (b : byte) : Z := Z.of_N (Byte.to_N b).

Definition Z_byte (z : Z) : byte :=
  match Byte.of_N (Z.to_N (z mod 256)) with
  | Some b => b
  | None => x00
  end.

(** [bytes.hex()]: two lowercase hexadecimal characters per byte. *)
Definition hex_digit (n : N) : ascii :=
  if (n <? 10)%N then ascii_of_N (48 + n) else ascii_of_N (87 + n).

Fixpoint hex (bs : list byte) : string :=
  match bs with
  | [] => EmptyString
  | b :: bs' =>
      let n := Byte.to_N b in
      String (hex_digit (n / 16)) (String (hex_digit (n mod 16)) (hex bs'))
  end.

(** [s[a:b]] for [0 <= a]: the slice is clipped to the string. *)
Definition slice (s : string) (a b : nat) : string :=
  String.substring a (b - a) s.

(** Value of one base-16 digit, either case. *)
Definition hex_val (c : ascii) : option Z :=
  let n := Z.of_N (N_of_ascii c) in
  if (48 <=? n) && (n <=? 57) then Some (n - 48)
  else if (97 <=? n) && (n <=? 102) then Some (n - 87)
  else if (65 <=? n) && (n <=? 70) then Some (n - 55)
  else None.

Fixpoint int16_digits (acc : Z) (s : string) : option Z :=
  match s with
  | EmptyString => Some acc
  | String c s' =>
      match hex_val c with
      | Some d => int16_digits (acc * 16 + d) s'
      | None => None
      end
  end.

(** [int(s, 16)] on a string of hexadecimal digits.  The empty string and
    any other character raise [ValueError].  (Signs, the [0x] prefix,
    underscores and surrounding blanks, which [int] also accepts, never
    occur in the output of [hex] and are not represented.) *)
Definition int16 (s : string) : res Z :=
  match s with
  | EmptyString => Raise ValueError
  | _ =>
      match int16_digits 0 s with
      | Some z => Ok z
      | None => Raise ValueError
      end
  end.

(** [bytes.fromhex(s)] on a string of hexadecimal digit pairs (blanks
    between pairs, which [fromhex] skips, are not represented). *)
Fixpoint fromhex (s : string) : res (list byte) :=
  match s with
  | EmptyString => Ok []
  | String c1 (String c2 s') =>
      match hex_val c1, hex_val c2 with
      | Some h, Some l =>
          match fromhex s' with
          | Ok bs => Ok (Z_byte (h * 16 + l) :: bs)
          | Raise e => Raise e
          end
      | _, _ => Raise ValueError
      end
  | String _ EmptyString => Raise ValueError
  end.

(** [s * n] on strings. *)
Fixpoint str_mul (s : string) (n : nat) : string :=
  match n with
  | O => EmptyString
  | S n' => s ++ str_mul s n'
  end.

End Py.

(** ** Fixed-point sample decoder ([GM3.get_instantenous_data], the part
       after the query) *)

Module Decoder.

(** The locals [sign], [digits] and the exponent [byte_2 & 0x07] of one
    pass through the loop body. *)
Definition section_fields (query_string : string) (measurable_i : nat)
  : res (Z * Z * Z) :=
  let section_i := (measurable_i * 12)%nat in
  byte_2 ←
    Py.int16 (Py.slice query_string (section_i + 2) (section_i + 4));
  bytes_3456 ←
    Py.int16 (Py.slice query_string (section_i + 4) (section_i + 12));
  let sign := if Z.land byte_2 8 =? 0 then 1 else -1 in
  let digits := bytes_3456 in
  Ok (sign, digits, Z.land byte_2 7).

(** [sign * digits * magnitude] with [magnitude = 10 ** (-1 * exponent)]. *)
Definition reading_value (f : Z * Z * Z) : Q :=
  let '(sign, digits, exponent) := f in
  let magnitude := Qpower (inject_Z 10) (-1 * exponent) in
  Qmult (inject_Z (sign * digits)) magnitude.

(** The decoding loop over [range(number_of_measurables)], with
    [number_of_measurables = int(len(query_string) / 2 / 6)]: the two true
    divisions followed by [int] are the integer quotient (exactly so for
    any length below 2^53). *)
Definition decode (query_bytes : list byte) : res (list Q) :=
  let query_string := Py.hex query_bytes in
  let number_of_measurables := (String.length query_string / 2 / 6)%nat in
  res_mapM
    (fun measurable_i =>
       f ← section_fields query_string measurable_i;
       Ok (reading_value f))
    (seq 0 number_of_measurables).

(** *** The specification's reading of a buffer *)

(** The consecutive complete 6-byte sections of a buffer. *)
Fixpoint sections_from (k : nat) (buf : list byte) : list (list byte) :=
  match k with
  | O => []
  | S k' => take 6 buf :: sections_from k' (drop 6 buf)
  end.

Definition sections (buf : list byte) : list (list byte) :=
  sections_from (length buf / 6) buf.

(** Sign from bit 4 (mask [0x08]) of byte 2, exponent from its low three
    bits, digits from bytes 3-6, big-endian. *)
Definition spec_fields (sec : list byte) : Z * Z * Z :=
  match sec with
  | [_; b2; b3; b4; b5; b6] =>
      (if Z.testbit (Py.byte_Z b2) 3 then -1 else 1,
       Py.byte_Z b3 * 2 ^ 24 + Py.byte_Z b4 * 2 ^ 16 + Py.byte_Z b5 * 2 ^ 8
       + Py.byte_Z b6,
       Z.land (Py.byte_Z b2) 7)
  | _ => (1, 0, 0)
  end.

Definition spec_value (sec : list byte) : Q :=
  let '(sign, digits, exponent) := spec_fields sec in
  Qmult (inject_Z (sign * digits)) (Qpower (inject_Z 10) (- exponent)).

(** The specification's re-encoding of recovered fields (the code has no
    encoder): sign bit into bit 4 of byte 2, exponent into its low three
    bits, digits big-endian into bytes 3-6; nothing else is set. *)
Definition spec_encode (f : Z * Z * Z) : list byte :=
  let '(sign, digits, exponent) := f in
  [ x00;
    Py.Z_byte (Z.lor (if sign <? 0 then 8 else 0) (Z.land exponent 7));
    Py.Z_byte (Z.shiftr digits 24);
    Py.Z_byte (Z.shiftr digits 16);
    Py.Z_byte (Z.shiftr digits 8);
    Py.Z_byte digits ].

End Decoder.

(** ** Framed device channel ([GM3.query], [GM3.get_instantenous_data]) *)

Module Channel.

(** The byte stream a [GM3] object is opened on: [serial.Serial.write] and
    [serial.Serial.read(size)].  A read returns at most [size] bytes
    (fewer after a timeout); either call may raise. *)
Class Transport (T : Type) : Type := {
  write : list byte -> T -> res unit * T;
  read : nat -> T -> res (list byte) * T
}.

(** What a call did on the stream, in call order. *)
Inductive io : Type :=
  | Wrote (data : list byte)
  | Read (size : nat) (got : list byte).

(** How a call ends: it returns, raises, or is still looping when the
    iteration budget of the model is spent. *)
Inductive outcome (A : Type) : Type :=
  | Returned (a : A)
  | Raised (e : exn)
  | OutOfFuel.
Arguments Returned {A} a.
Arguments Raised {A} e.
Arguments OutOfFuel {A}.

(** The state a query runs in: the module-level global [error_count], the
    stream of [self], and the record of the calls made on it. *)
Record state (T : Type) : Type := State {
  error_count : nat;
  port : T;
  io_log : list io
}.
Arguments State {T} _ _ _.
Arguments error_count {T} _.
Arguments port {T} _.
Arguments io_log {T} _.

Definition M (T A : Type) : Type := state T -> outcome A * state T.

#[global] Instance M_ret {T} : MRet (M T) := fun A a s => (Returned a, s).
#[global] Instance M_bind {T} : MBind (M T) := fun A B k m s =>
  match m s with
  | (Returned a, s') => k a s'
  | (Raised e, s') => (Raised e, s')
  | (OutOfFuel, s') => (OutOfFuel, s')
  end.

Definition raise {T A} (e : exn) : M T A := fun s => (Raised e, s).
Definition out_of_fuel {T A} : M T A := fun s => (OutOfFuel, s).

Definition lift {T A} (r : res A) : M T A :=
  match r with
  | Ok a => mret a
  | Raise e => raise e
  end.

Section Query.
Context {T : Type} `{Transport T}.

(** [self.write(data)] *)
Definition self_write (data : list byte) : M T unit := fun s =>
  let '(r, p) := write data (port s) in
  lift r (State (error_count s) p (io_log s ++ [Wrote data])).

(** [self.read(size)] *)
Definition self_read (size : nat) : M T (list byte) := fun s =>
  let '(r, p) := read size (port s) in
  let got := match r with Ok d => d | Raise _ => [] end in
  lift r (State (error_count s) p (io_log s ++ [Read size got])).

(** [error_count += 1] *)
Definition incr_error_count : M T unit := fun s =>
  (Returned tt, State (S (error_count s)) (port s) (io_log s)).

(** [qry_dict]: command as it appears in the manual, or its hex
    identifier with or without [0x], to the hex identifier. *)
Definition qry_dict : gmap string string :=
  list_to_map
    [ ("ID_METER_PROP", "01"); ("ID_METER_SETT", "02");
      ("STREAM_DATA", "03"); ("RESET_TIME", "04");
      ("01", "01"); ("02", "02"); ("03", "03"); ("04", "04");
      ("0x01", "01"); ("0x02", "02"); ("0x03", "03"); ("0x04", "04") ].

(** [read_length_dict]: reply length in bytes. *)
Definition read_length_dict : gmap string nat :=
  list_to_map
    [ ("01", 20%nat); ("02", 20%nat); ("03", 30%nat); ("04", 31%nat) ].

(** The first loop,
    [while ack != bytes.fromhex('08'): write; r = read; ack = read(1);
     if ack != bytes.fromhex('08'): error_count += 1].
    [r] starts as [None] and [ack] as a value different from the
    marker; [fuel] bounds the number of passes. *)
Fixpoint ack_loop (fuel : nat) (qry : string) (read_length : nat)
    (r : option (list byte)) (ack : list byte)
  : M T (option (list byte) * list byte) :=
  if decide (ack = [x08]) then mret (r, ack)
  else
    match fuel with
    | O => out_of_fuel
    | S fuel' =>
        frame ← lift (Py.fromhex (Py.str_mul qry 6));
        _ ← self_write frame;
        r' ← self_read read_length;
        ack' ← self_read 1;
        _ ← (if decide (ack' = [x08]) then mret tt else incr_error_count);
        ack_loop fuel' qry read_length (Some r') ack'
    end.

(** The second loop,
    [while ack != bytes.fromhex('07'): write('08' * 6); r += read;
     ack = read(1)]. *)
Fixpoint continue_loop (fuel : nat) (read_length : nat)
    (r : option (list byte)) (ack : list byte) : M T (option (list byte)) :=
  if decide (ack = [x07]) then mret r
  else
    match fuel with
    | O => out_of_fuel
    | S fuel' =>
        frame ← lift (Py.fromhex (Py.str_mul "08" 6));
        _ ← self_write frame;
        more ← self_read read_length;
        r' ← match r with
             | Some data => mret (Some (data ++ more))
             | None => raise TypeError
             end;
        ack' ← self_read 1;
        continue_loop fuel' read_length r' ack'
    end.

(** [GM3.query(command)].  The result is [None] only if the first loop
    made no pass, which its initial [ack] excludes.  Each of the two
    loops may make up to [fuel] passes. *)
Definition query (fuel : nat) (command : string) : M T (option (list byte)) :=
  match qry_dict !! command with
  | None => raise ValueError
  | Some qry =>
      match read_length_dict !! qry with
      | None => raise KeyError
      | Some read_length =>
          '(r, ack) ← ack_loop fuel qry read_length None [];
          if decide (qry = "03" \/ qry = "04") then mret r
          else continue_loop fuel read_length r ack
      end
  end.

(** [GM3.get_instantenous_data()]: a stream query, then the decoder. *)
Definition get_instantenous_data (fuel : nat) : M T (list Q) :=
  query_bytes ← query fuel "STREAM_DATA";
  match query_bytes with
  | Some bs => lift (Decoder.decode bs)
  | None => raise AttributeError
  end.

(** *** Behaviours of the device end of the stream *)

(** From stream state [p], the device answers [n] transmissions of
    [frame] with an acknowledgment other than [0x08] and the next one
    with [0x08]; [r] is the data read on that last attempt and [p'] the
    stream state after it. *)
Inductive nacks_then_ack (frame : list byte) (len : nat)
  : nat -> T -> list byte -> T -> Prop :=
  | nta_ack p p1 r p2 p3 :
      write frame p = (Ok tt, p1) ->
      read len p1 = (Ok r, p2) ->
      read 1 p2 = (Ok [x08], p3) ->
      nacks_then_ack frame len 0 p r p3
  | nta_nack n p p1 r0 p2 a p3 r p' :
      write frame p = (Ok tt, p1) ->
      read len p1 = (Ok r0, p2) ->
      read 1 p2 = (Ok a, p3) ->
      a <> [x08] ->
      nacks_then_ack frame len n p3 r p' ->
      nacks_then_ack frame len (S n) p r p'.

(** From stream state [p], the device answers [n] continuation frames
    with an acknowledgment other than [0x07] and the next one with
    [0x07]; [rs] is all the data read, in order. *)
Inductive continues_then_done (len : nat)
  : nat -> T -> list byte -> T -> Prop :=
  | ctd_done p p1 r p2 p3 :
      write (repeat x08 6) p = (Ok tt, p1) ->
      read len p1 = (Ok r, p2) ->
      read 1 p2 = (Ok [x07], p3) ->
      continues_then_done len 0 p r p3
  | ctd_more n p p1 r p2 a p3 rs p' :
      write (repeat x08 6) p = (Ok tt, p1) ->
      read len p1 = (Ok r, p2) ->
      read 1 p2 = (Ok a, p3) ->
      a <> [x07] ->
      continues_then_done len n p3 rs p' ->
      continues_then_done len (S n) p (r ++ rs) p'.

(** The log [l] is [k] exchanges, each one transmission of [frame]
    followed by a read of [len] bytes and a read of one byte. *)
Fixpoint exchanges (frame : list byte) (len : nat) (k : nat) (l : list io)
  : Prop :=
  match k with
  | O => l = []
  | S k' =>
      exists d a l',
        l = Wrote frame :: Read len d :: Read 1 a :: l' /\
        exchanges frame len k' l'
  end.

(** *** What holds of a call whatever the device does *)

(** A computation leaves [error_count] at least as large as it found it. *)
Definition nondecreasing {A} (m : M T A) : Prop :=
  forall s, (error_count s <= error_count (m s).2)%nat.

(** A call on the stream that belongs to the protocol for opcode [op] with
    reply length [len]: a request or continuation frame written, or a read
    of [len] bytes or of one byte. *)
Definition framed (op : byte) (len : nat) (e : io) : Prop :=
  match e with
  | Wrote data => data = repeat op 6 \/ data = repeat x08 6
  | Read size _ => size = len \/ size = 1%nat
  end.

(** A computation only appends to the log, and only calls that satisfy
    [ok]. *)
Definition logs {A} (ok : io -> Prop) (m : M T A) : Prop :=
  forall s, exists lg, io_log (m s).2 = io_log s ++ lg /\ Forall ok lg.

End Query.

(** *** Several channel objects in one process *)

(** [error_count] is one module-level variable; every [GM3] object has a
    stream of its own. *)
Record process (T : Type) : Type := Process {
  shared_error_count : nat;
  gm3s : list T
}.
Arguments Process {T} _ _.
Arguments shared_error_count {T} _.
Arguments gm3s {T} _.

(** [gm3s[self].query(command)] *)
Definition query_on {T} `{Transport T} (self : nat) (fuel : nat)
    (command : string) (w : process T)
  : outcome (option (list byte)) * process T :=
  match gm3s w !! self with
  | None => (Raised AttributeError, w)
  | Some p =>
      let '(o, s) := query fuel command (State (shared_error_count w) p []) in
      (o, Process (error_count s) (<[self := port s]> (gm3s w)))
  end.

(** A sequence of query calls, each on some object. *)
Fixpoint run_queries {T} `{Transport T} (calls : list (nat * nat * string))
    (w : process T) : process T :=
  match calls with
  | [] => w
  | (self, fuel, command) :: rest =>
      run_queries rest (query_on self fuel command w).2
  end.

(** *** A scripted device *)

(** A stream whose reads are answered from a fixed script, one entry per
    call, clipped to the requested size; an exhausted script reads as a
    timeout (no bytes).  Writes are accepted and dropped. *)
Definition script : Type := list (list byte).

#[global] Instance script_transport : Transport script := {
  write _ p := (Ok tt, p);
  read size p :=
    match p with
    | [] => (Ok [], [])
    | d :: p' => (Ok (take size d), p')
    end
}.

End Channel.

(** ** Command dispatcher and scheduler loop ([pid_controller_server.py]) *)

Module Server.

(** *** String helpers *)

(** [str.isspace] for one character (code points below 256). *)
Definition is_space (c : ascii) : bool :=
  let n := nat_of_ascii c in
  ((9 <=? n) && (n <=? 13) || (28 <=? n) && (n <=? 32)
   || (n =? 133) || (n =? 160))%nat.

(** [s.split()]: the maximal runs of non-blank characters. *)
Fixpoint split_go (s : string) (tok : string) : list string :=
  match s with
  | EmptyString => if String.eqb tok "" then [] else [tok]
  | String c s' =>
      if is_space c
      then (if String.eqb tok "" then split_go s' ""
            else tok :: split_go s' "")
      else split_go s' (tok ++ String c "")
  end.

Definition split (s : string) : list string := split_go s "".

(** [s[-1]]; [None] stands for the [IndexError] on an empty string. *)
Fixpoint last_char (s : string) : option ascii :=
  match s with
  | EmptyString => None
  | String c EmptyString => Some c
  | String _ s' => last_char s'
  end.

Definition CR : ascii := ascii_of_nat 13.

(** A line as it arrives on the wire: the text and a carriage return. *)
Definition line (text : string) : string := text ++ String CR "".

(** *** Values and the heater assembly *)

(** The Python values that travel through the dispatcher.  [bool] is the
    [int] 0 or 1, as in Python; [VObj] is an object known by its name
    only (the power supply, the DAQ, the PID function). *)
Inductive pyval : Type :=
  | VNone
  | VInt (z : Z)
  | VFloat (q : Q)
  | VStr (s : string)
  | VObj (name : string).

(** Truth value of a value in an [if]. *)
Definition truthy (v : pyval) : bool :=
  match v with
  | VNone => false
  | VInt z => negb (z =? 0)
  | VFloat q => negb (Qeq_bool q 0)
  | VStr s => negb (String.eqb s "")
  | VObj _ => true
  end.

(** A value as a number, for arithmetic and comparison. *)
Definition as_number (v : pyval) : res Q :=
  match v with
  | VInt z => Ok (inject_Z z)
  | VFloat q => Ok q
  | _ => Raise TypeError
  end.

(** Modelled from the spec: the class [HeaterAssembly] ([device_type.py])
    is not among the sources.  Following the specification's ControlState,
    a plain structure of fields, the assembly is the store of its
    attributes by name; reading an attribute returns the stored value and
    assigning one replaces it.  Its two methods called here,
    [configure_power_supply] and [update_supply], are collaborators. *)
Abbreviation assembly := (gmap string pyval).

(** The collaborators of the dispatcher and the loop: the built-ins
    [float(s)], [int(s)], [int(v)], [str(v)] and the two assembly methods.
    A method may change the assembly and may raise. *)
Class Collaborators : Type := {
  py_float : string -> option Q;
  py_int : string -> option Z;
  py_int_of : pyval -> res Z;
  py_str : pyval -> string;
  configure_power_supply : assembly -> res unit * assembly;
  update_supply : assembly -> res unit * assembly
}.

(** Computations over the assembly that may raise. *)
Definition P (A : Type) : Type := assembly -> res A * assembly.

#[global] Instance P_ret : MRet P := fun A a asm => (Ok a, asm).
#[global] Instance P_bind : MBind P := fun A B k m asm =>
  match m asm with
  | (Ok a, asm') => k a asm'
  | (Raise e, asm') => (Raise e, asm')
  end.

Definition throw {A} (e : exn) : P A := fun asm => (Raise e, asm).

Definition of_res {A} (r : res A) : P A :=
  match r with
  | Ok a => mret a
  | Raise e => throw e
  end.

(** [asm.name] *)
Definition get (name : string) : P pyval := fun asm =>
  match asm !! name with
  | Some v => (Ok v, asm)
  | None => (Raise AttributeError, asm)
  end.

(** [asm.name = v] *)
Definition set (name : string) (v : pyval) : P unit := fun asm =>
  (Ok tt, <[name := v]> asm).

(** Reading the local [s], unbound when the line did not split in two. *)
Definition use (s : option string) : P string :=
  match s with
  | Some a => mret a
  | None => throw UnboundLocalError
  end.

Section Dispatch.
Context `{Collaborators}.

(** [float(s)] and [int(s)]: [ValueError] when the text does not parse. *)
Definition float (a : string) : P pyval :=
  match py_float a with
  | Some q => mret (VFloat q)
  | None => throw ValueError
  end.

Definition int (a : string) : P pyval :=
  match py_int a with
  | Some z => mret (VInt z)
  | None => throw ValueError
  end.

Definition str (a : string) : P pyval := mret (VStr a).

(** The recurring branch
    [if s == '?': return asm.getter  else: asm.setter = conv(s)]. *)
Definition read_or_write (s : option string) (getter setter : string)
    (conv : string -> P pyval) : P pyval :=
  a ← use s;
  if String.eqb a "?" then get getter
  else (v ← conv a; _ ← set setter v; mret VNone).

(** The [if]/[elif] chain of [process_command] on the first token [f]. *)
Definition dispatch (cmd f : string) (s : option string) : P pyval :=
  if String.eqb f "PS:IDN" then get "power_supply"
  else if String.eqb f "PS:RSET" then
    _ ← set "supply_set_voltage" (VInt 0);
    _ ← set "supply_set_current" (VInt 0);
    vmax ← get "MAX_voltage_limit";
    _ ← set "supply_voltage_limit" vmax;
    cmax ← get "MAX_current_limit";
    _ ← set "supply_current_limit" cmax;
    _ ← set "supply_channel_state" (VStr "ON");
    mret VNone
  else if String.eqb f "PS:STOP" then
    _ ← set "supply_channel_state" (VStr "OFF");
    _ ← set "supply_set_voltage" (VInt 0);
    _ ← set "supply_set_current" (VInt 0);
    mret VNone
  else if String.eqb f "PS:REDY" then
    _ ← configure_power_supply; mret VNone
  else if String.eqb f "PS:VOLT" then
    read_or_write s "supply_actual_voltage" "supply_set_voltage" float
  else if String.eqb f "PS:VSET" then
    read_or_write s "supply_set_voltage" "supply_set_voltage" float
  else if String.eqb f "PS:AMPS" then
    read_or_write s "supply_actual_current" "supply_set_current" float
  else if String.eqb f "PS:ASET" then
    read_or_write s "supply_set_current" "supply_set_current" float
  else if String.eqb f "PS:VLIM" then
    read_or_write s "supply_voltage_limit" "supply_voltage_limit" float
  else if String.eqb f "PS:ALIM" then
    read_or_write s "supply_current_limit" "supply_current_limit" float
  else if String.eqb f "PS:CHIO" then
    a ← use s;
    if String.eqb a "?" then
      v ← get "supply_channel_state";
      z ← of_res (py_int_of v);
      mret (VInt z)
    else (v ← int a; _ ← set "supply_channel_state" v; mret VNone)
  else if String.eqb f "PS:CHAN" then
    read_or_write s "supply_channel" "supply_channel" int
  else if String.eqb f "DQ:IDN" then get "daq"
  else if String.eqb f "DQ:TEMP" then get "temp"
  else if String.eqb f "DQ:CHAN" then
    read_or_write s "daq_channel" "daq_channel" int
  else if String.eqb f "DQ:TCTY" then
    read_or_write s "thermocouple_type" "thermocouple_type" str
  else if String.eqb f "DQ:UNIT" then
    read_or_write s "temp_units" "temp_units" str
  else if String.eqb f "PD:IDN" then get "pid_function"
  else if String.eqb f "PD:KPRO" then
    read_or_write s "pid_kp" "pid_kp" float
  else if String.eqb f "PD:KINT" then
    read_or_write s "pid_ki" "pid_ki" float
  else if String.eqb f "PD:KDER" then
    read_or_write s "pid_kd" "pid_kd" float
  else if String.eqb f "PD:SETP" then
    read_or_write s "set_temperature" "set_temperature" float
  else if String.eqb f "PD:SAMP" then
    read_or_write s "sample_time" "sample_time" float
  else if String.eqb f "PD:REGT" then
    a ← use s;
    if String.eqb a "?" then get "pid_regulating"
    else
      v ← int a;
      if (match v with VInt 1 => true | _ => false end) then
        _ ← configure_power_supply;
        v' ← int a; _ ← set "pid_regulating" v'; mret VNone
      else (v' ← int a; _ ← set "pid_regulating" v'; mret VNone)
  else mret (VStr ("ERROR: bad command" ++ cmd)).

(** [process_command(cmd, asm)] *)
Definition process_command (cmd : string) : P pyval :=
  match last_char cmd with
  | None => throw IndexError
  | Some c =>
      if negb (Ascii.eqb c CR) then throw ValueError
      else
        match split cmd with
        | [f; s] => dispatch cmd f (Some s)
        | f :: _ => dispatch cmd f None
        | [] => throw IndexError
        end
  end.

(** *** The loop of [main] *)

(** What the loop owns besides the assembly: the timer origin [t0], the
    lines written to the connection and the values printed. *)
Record loop_state : Type := Loop {
  asm : assembly;
  t0 : Q;
  sent : list string;
  printed : list pyval
}.

(** How one pass ends: the loop goes on, leaves through [break], or an
    exception leaves [main]. *)
Inductive pass : Type :=
  | Continue (st : loop_state)
  | Break (st : loop_state)
  | Crash (e : exn) (st : loop_state).

Definition with_asm (st : loop_state) (a : assembly) : loop_state :=
  Loop a (t0 st) (sent st) (printed st).

(** The first statement of the loop body:
    [if assembly.pid_regulating:
         if time.time() - t0 >= assembly.sample_time:
             assembly.update_supply(); print(assembly.temp); t0 = time.time()
     else: assembly.supply_set_voltage = 0].
    [now] is the clock read in the comparison, [now'] the one stored in
    [t0]. *)
Definition control_step (now now' : Q) (st : loop_state)
  : res unit * loop_state :=
  match get "pid_regulating" (asm st) with
  | (Raise e, a) => (Raise e, with_asm st a)
  | (Ok flag, a) =>
      if truthy flag then
        match (v ← get "sample_time"; of_res (as_number v)) a with
        | (Raise e, a1) => (Raise e, with_asm st a1)
        | (Ok period, a1) =>
            if Qle_bool period (now - t0 st) then
              match update_supply a1 with
              | (Raise e, a2) => (Raise e, with_asm st a2)
              | (Ok _, a2) =>
                  match get "temp" a2 with
                  | (Raise e, a3) => (Raise e, with_asm st a3)
                  | (Ok temp, a3) =>
                      (Ok tt, Loop a3 now' (sent st) (printed st ++ [temp]))
                  end
              end
            else (Ok tt, with_asm st a1)
        end
      else
        (Ok tt, with_asm st (<["supply_set_voltage" := VInt 0]> a))
  end.

(** The [try] block: [rx] is what [conn.recv(1024).decode('utf-8')]
    gives, [Raise BlockingIOError] when nothing is buffered.  Only
    [BlockingIOError] is caught.  [sendall] is taken to succeed. *)
Definition command_step (rx : res string) (st : loop_state) : pass :=
  match rx with
  | Raise BlockingIOError => Continue st
  | Raise e => Crash e st
  | Ok data =>
      if String.eqb data "" then
        Break (Loop (asm st) (t0 st) (sent st)
                 (printed st ++ [VStr "Disconnected by"]))
      else
        match process_command data (asm st) with
        | (Ok out, a) =>
            match out with
            | VNone => Continue (with_asm st a)
            | _ =>
                Continue (Loop a (t0 st)
                            (sent st ++ [(py_str out ++ String CR "")%string])
                            (printed st))
            end
        | (Raise BlockingIOError, a) => Continue (with_asm st a)
        | (Raise e, a) => Crash e (with_asm st a)
        end
  end.

(** One pass of [while True]. *)
Definition iteration (now now' : Q) (rx : res string) (st : loop_state)
  : pass :=
  match control_step now now' st with
  | (Raise e, st1) => Crash e st1
  | (Ok _, st1) => command_step rx st1
  end.

(** The loop over the successive clock readings and receive results;
    when they are used up the loop is still running. *)
Fixpoint main_loop (inputs : list (Q * Q * res string)) (st : loop_state)
  : pass :=
  match inputs with
  | [] => Continue st
  | (now, now', rx) :: rest =>
      match iteration now now' rx st with
      | Continue st' => main_loop rest st'
      | Break st' => Break st'
      | Crash e st' => Crash e st'
      end
  end.

End Dispatch.

(** The fields whose branch reads the argument [s]. *)
Definition float_fields : list string :=
  [ "PS:VOLT"; "PS:VSET"; "PS:AMPS"; "PS:ASET"; "PS:VLIM"; "PS:ALIM";
    "PD:KPRO"; "PD:KINT"; "PD:KDER"; "PD:SETP"; "PD:SAMP" ].

Definition int_fields : list string :=
  [ "PS:CHIO"; "PS:CHAN"; "DQ:CHAN"; "PD:REGT" ].

Definition str_fields : list string := [ "DQ:TCTY"; "DQ:UNIT" ].

Definition argument_fields : list string :=
  float_fields ++ int_fields ++ str_fields.

(** Every first token the chain of [process_command] tests for. *)
Definition known_fields : list string :=
  [ "PS:IDN"; "PS:RSET"; "PS:STOP"; "PS:REDY"; "DQ:IDN"; "DQ:TEMP"; "PD:IDN" ]
  ++ argument_fields.

(** *** Stand-in collaborators used to exercise the theorems *)

Fixpoint digits10 (acc : Z) (s : string) : option Z :=
  match s with
  | EmptyString => Some acc
  | String c s' =>
      let n := Z.of_nat (nat_of_ascii c) in
      if (48 <=? n) && (n <=? 57) then digits10 (acc * 10 + (n - 48)) s'
      else None
  end.

(** Unsigned decimal integers only. *)
Definition parse_decimal (s : string) : option Z :=
  match s with
  | EmptyString => None
  | _ => digits10 0 s
  end.

(** A power supply that answers every method call ([ok = true]) or fails
    every one with a socket timeout ([ok = false]); numbers are unsigned
    decimal integers; the controller output is 12. *)
Definition bench (ok : bool) : Collaborators := {|
  py_float a := inject_Z <$> parse_decimal a;
  py_int a := parse_decimal a;
  py_int_of v := match v with VInt z => Ok z | _ => Raise ValueError end;
  py_str v := match v with VStr a => a | _ => "<value>" end;
  configure_power_supply a :=
    if ok then (Ok tt, a) else (Raise (OtherError "timeout"), a);
  update_supply a :=
    if ok then (Ok tt, <["supply_set_voltage" := VInt 12]> a)
    else (Raise (OtherError "timeout"), a)
|}.

Definition bench_asm (regulating : Z) : assembly :=
  list_to_map
    [ ("pid_regulating", VInt regulating); ("sample_time", VInt 1);
      ("temp", VInt 20); ("supply_set_voltage", VInt 5) ].

End Server.

(** ** The remaining gaussmeter methods ([GM3.command],
       [GM3.get_instantenous_data_t0]) *)

Module Gaussmeter.
Import Channel.

Section Methods.
Context {T : Type} `{Transport T}.

(** [cmd_dict] of [GM3.command]. *)
Definition cmd_dict : gmap string string :=
  list_to_map [ ("KILL_ALL_PROCESS", "FF"); ("FF", "FF"); ("0xFF", "FF") ].

(** [GM3.command(command)]: one frame written, nothing read, [None]
    returned. *)
Definition command (name : string) : M T unit :=
  match cmd_dict !! name with
  | None => raise ValueError
  | Some cmd =>
      frame ← lift (Py.fromhex (Py.str_mul cmd 6));
      _ ← self_write frame;
      mret tt
  end.

(** [GM3.get_instantenous_data_t0()]: the body of
    [get_instantenous_data] over the reply to [RESET_TIME]. *)
Definition get_instantenous_data_t0 (fuel : nat) : M T (list Q) :=
  query_bytes ← query fuel "RESET_TIME";
  match query_bytes with
  | Some bs => lift (Decoder.decode bs)
  | None => raise AttributeError
  end.

(** From every stream state satisfying [Inv], the device answers a
    transmission of [frame] with data and an acknowledgment other than
    [marker], and is again in a state satisfying [Inv]: it never gives the
    awaited acknowledgment. *)
Definition never_answers (marker frame : list byte) (len : nat)
    (Inv : T -> Prop) : Prop :=
  forall p, Inv p ->
    exists p1 r p2 a p3,
      write frame p = (Ok tt, p1) /\
      read len p1 = (Ok r, p2) /\
      read 1 p2 = (Ok a, p3) /\
      a <> marker /\
      Inv p3.

End Methods.

(** The names [query] accepts and the names [command] accepts. *)
Definition query_names : list string :=
  [ "ID_METER_PROP"; "ID_METER_SETT"; "STREAM_DATA"; "RESET_TIME";
    "01"; "02"; "03"; "04"; "0x01"; "0x02"; "0x03"; "0x04" ].

Definition command_names : list string := [ "KILL_ALL_PROCESS"; "FF"; "0xFF" ].

(** A stream whose writes fail: the link is down. *)
Inductive dead_link : Type := Dead.

#[global] Instance dead_transport : Transport dead_link := {
  write _ p := (Raise (OtherError "port closed"), p);
  read _ p := (Raise (OtherError "port closed"), p)
}.

End Gaussmeter.

(** ** Vocabulary for the further properties of the dispatcher *)

Module Commands.
Import Server.

(** A string of blanks only ([str.isspace] on every character). *)
Fixpoint blank (s : string) : bool :=
  match s with
  | EmptyString => true
  | String c s' => is_space c && blank s'
  end.

(** The fields whose branch never reads the argument. *)
Definition plain_fields : list string :=
  [ "PS:IDN"; "PS:RSET"; "PS:STOP"; "PS:REDY"; "DQ:IDN"; "DQ:TEMP"; "PD:IDN" ].




(** The state a pass ends in. *)
Definition final (p : pass) : loop_state :=
  match p with
  | Continue st => st
  | Break st => st
  | Crash _ st => st
  end.

(** A power supply whose configuration call finds the socket not ready. *)
Definition busy_bench : Collaborators := {|
  py_float a := inject_Z <$> parse_decimal a;
  py_int a := parse_decimal a;
  py_int_of v := match v with VInt z => Ok z | _ => Raise ValueError end;
  py_str v := match v with VStr a => a | _ => "<value>" end;
  configure_power_supply a := (Raise BlockingIOError, a);
  update_supply a := (Ok tt, a)
|}.

End Commands.

(** ** Power supply ([SPD3303X]) and picomotor controller ([Model8742]) *)

(** Computations over a state [S] that may raise. *)
Definition SE (S A : Type) : Type := S -> res A * S.

#[global] Instance SE_ret {S} : MRet (SE S) := fun A a s => (Ok a, s).
#[global] Instance SE_bind {S} : MBind (SE S) := fun A B k m s =>
  match m s with
  | (Ok a, s') => k a s'
  | (Raise e, s') => (Raise e, s')
  end.

Definition SE_raise {S A} (e : exn) : SE S A := fun s => (Raise e, s).

(** Reading a component of the state. *)
Definition SE_gets {S A} (f : S -> A) : SE S A := fun s => (Ok (f s), s).

Definition SE_lift {S A} (r : res A) : SE S A :=
  match r with
  | Ok a => mret a
  | Raise e => SE_raise e
  end.

Module Supply.

(** *** Python built-ins used by the power supply *)

(** [l[i]]: a negative index counts from the end; out of range raises
    [IndexError]. *)
Definition py_position {A} (l : list A) (i : Z) : option nat :=
  let n := Z.of_nat (length l) in
  if (0 <=? i) && (i <? n) then Some (Z.to_nat i)
  else if (- n <=? i) && (i <? 0) then Some (Z.to_nat (n + i))
  else None.

Definition py_index {A} (l : list A) (i : Z) : res A :=
  match py_position l i with
  | Some k =>
      match l !! k with
      | Some x => Ok x
      | None => Raise IndexError
      end
  | None => Raise IndexError
  end.

(** [l[i] = x] *)
Definition py_setitem {A} (l : list A) (i : Z) (x : A) : res (list A) :=
  match py_position l i with
  | Some k => Ok (<[k := x]> l)
  | None => Raise IndexError
  end.

(** [str(n)] for an [int]. *)
Definition str_int (n : Z) : string := NilZero.string_of_int (Z.to_int n).

(** Rounding to the nearest integer, ties to the even one. *)
Definition round_half_even (q : Q) : Z :=
  let n := Qnum q in
  let d := Zpos (Qden q) in
  let fl := n / d in
  let r := n mod d in
  match 2 * r ?= d with
  | Lt => fl
  | Gt => fl + 1
  | Eq => if Z.even fl then fl else fl + 1
  end.

(** [round(x, 3)] *)
Definition round3 (x : Q) : Q :=
  Qmake (round_half_even (Qmult x (inject_Z 1000))) 1000.

(** [s.strip()] *)
Fixpoint lstrip (s : string) : string :=
  match s with
  | EmptyString => EmptyString
  | String c s' => if Server.is_space c then lstrip s' else s
  end.

Fixpoint rstrip (s : string) : string :=
  match s with
  | EmptyString => EmptyString
  | String c s' =>
      match rstrip s' with
      | EmptyString => if Server.is_space c then EmptyString else String c ""
      | t => String c t
      end
  end.

Definition strip (s : string) : string := rstrip (lstrip s).

(** *** The instrument *)

(** What went over the socket, in order. *)
Inductive wire : Type :=
  | Asked (qry : string)
  | Commanded (cmd : string).

(** The parts of the power supply that are not in [device_models.py]: the
    socket exchange of the base class [SocketEthernetDevice], as text
    ([self._query(qry.encode('utf-8'))] with the reply decoded from UTF-8,
    and [self._command(cmd.encode('utf-8'))]); the base class
    [PowerSupply]'s [check_channel_syntax]; and the built-ins [str(x)] and
    [float(s)] on floating-point numbers. *)
Class Instrument (D : Type) : Type := {
  _query : string -> D -> res string * D;
  _command : string -> D -> res unit * D;
  check_channel_syntax : Z -> res unit;
  str_num : Q -> string;
  float_of : string -> option Q
}.

(** The object: the socket, the software limits kept by the base class
    (entry 0 for channel 1 and so on), the physical maxima, and what was
    sent and printed. *)
Record spd (D : Type) : Type := Spd {
  link : D;
  _channel_voltage_limits : list Q;
  _channel_current_limits : list Q;
  _MAX_voltage_limit : Q;
  _MAX_current_limit : Q;
  sent : list wire;
  console : list string
}.
Arguments Spd {D} _ _ _ _ _ _ _.
Arguments link {D} _.
Arguments _channel_voltage_limits {D} _.
Arguments _channel_current_limits {D} _.
Arguments _MAX_voltage_limit {D} _.
Arguments _MAX_current_limit {D} _.
Arguments sent {D} _.
Arguments console {D} _.

Section Methods.
Context {D : Type} `{Instrument D}.

(** [SPD3303X._query_(qry)] *)
Definition _query_ (qry : string) : SE (spd D) string := fun s =>
  let '(r, d) := _query qry (link s) in
  let s' := Spd d (_channel_voltage_limits s) (_channel_current_limits s)
              (_MAX_voltage_limit s) (_MAX_current_limit s)
              (sent s ++ [Asked qry]) (console s) in
  match r with
  | Ok out => (Ok (strip out), s')
  | Raise e => (Raise e, s')
  end.

(** [SPD3303X._command_(cmd)] *)
Definition _command_ (cmd : string) : SE (spd D) unit := fun s =>
  let '(r, d) := _command cmd (link s) in
  (r, Spd d (_channel_voltage_limits s) (_channel_current_limits s)
        (_MAX_voltage_limit s) (_MAX_current_limit s)
        (sent s ++ [Commanded cmd]) (console s)).

(** [print(text)] *)
Definition print (text : string) : SE (spd D) unit := fun s =>
  (Ok tt, Spd (link s) (_channel_voltage_limits s) (_channel_current_limits s)
            (_MAX_voltage_limit s) (_MAX_current_limit s)
            (sent s) (console s ++ [text])).

(** [float(text)] *)
Definition float (text : string) : SE (spd D) Q :=
  match float_of text with
  | Some q => mret q
  | None => SE_raise ValueError
  end.

Definition get_set_voltage (channel : Z) : SE (spd D) Q :=
  _ ← SE_lift (check_channel_syntax channel);
  let qry := ("CH" ++ str_int channel ++ ":voltage?")%string in
  text ← _query_ qry;
  float text.

Definition get_actual_voltage (channel : Z) : SE (spd D) Q :=
  _ ← SE_lift (check_channel_syntax channel);
  let qry := ("measure:voltage? " ++ "CH" ++ str_int channel)%string in
  text ← _query_ qry;
  float text.


Definition get_actual_current (channel : Z) : SE (spd D) Q :=
  _ ← SE_lift (check_channel_syntax channel);
  let qry := ("measure:current? " ++ "CH" ++ str_int channel)%string in
  text ← _query_ qry;
  float text.

Definition get_voltage_limit (channel : Z) : SE (spd D) Q :=
  _ ← SE_lift (check_channel_syntax channel);
  limits ← SE_gets _channel_voltage_limits;
  SE_lift (py_index limits (channel - 1)).

Definition get_current_limit (channel : Z) : SE (spd D) Q :=
  _ ← SE_lift (check_channel_syntax channel);
  limits ← SE_gets _channel_current_limits;
  SE_lift (py_index limits (channel - 1)).

Definition set_set_voltage (channel : Z) (volts : Q) : SE (spd D) unit :=
  _ ← SE_lift (check_channel_syntax channel);
  let volts := round3 volts in
  limit ← get_voltage_limit channel;
  let chan := ("CH" ++ str_int channel)%string in
  if Qle_bool volts limit then
    let cmd := (chan ++ ":voltage " ++ str_num volts)%string in
    _command_ cmd
  else SE_raise ValueError.

Definition set_set_current (channel : Z) (amps : Q) : SE (spd D) unit :=
  _ ← SE_lift (check_channel_syntax channel);
  let amps := round3 amps in
  limit ← get_current_limit channel;
  let chan := ("CH" ++ str_int channel)%string in
  if Qle_bool amps limit then
    let cmd := (chan ++ ":current " ++ str_num amps)%string in
    _command_ cmd
  else SE_raise ValueError.

(** The property [ch1_set_voltage] and [ch1_set_current]. *)
Definition ch1_set_voltage : SE (spd D) Q := get_set_voltage 1.

Definition store_voltage_limit (channel : Z) (volts : Q) : SE (spd D) unit :=
  fun s =>
    match py_setitem (_channel_voltage_limits s) (channel - 1) volts with
    | Ok l =>
        (Ok tt, Spd (link s) l (_channel_current_limits s)
                  (_MAX_voltage_limit s) (_MAX_current_limit s)
                  (sent s) (console s))
    | Raise e => (Raise e, s)
    end.


Definition set_channel_voltage_limit (channel : Z) (volts : Q)
  : SE (spd D) unit :=
  _ ← SE_lift (check_channel_syntax channel);
  vmax ← SE_gets _MAX_voltage_limit;
  if negb (Qle_bool volts vmax) || Qle_bool volts 0 then
    print ("Voltage limit not set. New voltage limit is not allowed by "
           ++ "the power supply.")%string
  else
    present ← ch1_set_voltage;
    if negb (Qle_bool present volts) then
      print ("Voltage limit not set. New voltage limit is lower than "
             ++ "present channel set voltage.")%string
    else store_voltage_limit channel volts.



(** Two states of the object that differ at most in the socket and in the
    record of what was sent. *)
Definition same_settings (s s' : spd D) : Prop :=
  _channel_voltage_limits s' = _channel_voltage_limits s /\
  _channel_current_limits s' = _channel_current_limits s /\
  _MAX_voltage_limit s' = _MAX_voltage_limit s /\
  _MAX_current_limit s' = _MAX_current_limit s /\
  console s' = console s.

End Methods.

(** *** A simulated instrument *)

(** A two-channel supply that reports a fixed set voltage and current for
    every channel and accepts every command; numbers print as their
    numerator and denominator. *)
Record sim : Type := Sim { sim_volts : Z; sim_amps : Z }.

#[global] Instance sim_instrument : Instrument sim := {
  _query qry d :=
    (Ok (" " ++ str_int (if String.eqb qry "CH1:current?"
                         then sim_amps d else sim_volts d) ++ " ")%string, d);
  _command _ d := (Ok tt, d);
  check_channel_syntax ch :=
    if (1 <=? ch) && (ch <=? 2) then Ok tt else Raise ValueError;
  str_num q := (str_int (Qnum q) ++ "/" ++ str_int (Zpos (Qden q)))%string;
  float_of text := inject_Z <$> Server.parse_decimal text
}.

Definition sim_supply : spd sim :=
  Spd (Sim 5 1) [inject_Z 30; inject_Z 10] [Qmake 3 2; Qmake 3 2]
    (inject_Z 32) (Qmake 33 10) [] [].

End Supply.

(** ** Power supply status word ([SPD3303X.system_status],
       [SPD3303X.get_channel_state]) *)

Module Status.
Import Supply.

(** *** Python built-ins *)

(** The digits of [int(text, 16)]: hexadecimal digits, single underscores
    allowed between them only. *)
Fixpoint hex_body (acc : Z) (after_underscore : bool) (s : string)
  : option Z :=
  match s with
  | EmptyString => if after_underscore then None else Some acc
  | String c s' =>
      if Ascii.eqb c "_" then
        (if after_underscore then None else hex_body acc true s')
      else
        match Py.hex_val c with
        | Some d => hex_body (acc * 16 + d) false s'
        | None => None
        end
  end.

Definition hex_number (s : string) : option Z :=
  match s with
  | EmptyString => None
  | String c _ => if Ascii.eqb c "_" then None else hex_body 0 false s
  end.

(** After the sign: an optional [0x] or [0X], then an optional single
    underscore, then the digits. *)
Definition hex_unsigned (s : string) : option Z :=
  match s with
  | String "0" (String x rest) =>
      if Ascii.eqb x "x" || Ascii.eqb x "X" then
        match rest with
        | String "_" rest' => hex_number rest'
        | _ => hex_number rest
        end
      else hex_number s
  | _ => hex_number s
  end.

(** [int(text, 16)] on a string: blanks around the number are skipped, a
    sign may come first; anything else raises [ValueError]. *)
Definition int16_text (text : string) : res Z :=
  let t := strip text in
  let r :=
    match t with
    | String "-" t' => Z.opp <$> hex_unsigned t'
    | String "+" t' => hex_unsigned t'
    | _ => hex_unsigned t
    end in
  match r with
  | Some z => Ok z
  | None => Raise ValueError
  end.

(** The binary digits of a positive number, most significant first. *)
Fixpoint bin_pos (p : positive) : list ascii :=
  match p with
  | xH => ["1"%char]
  | xO p' => bin_pos p' ++ ["0"%char]
  | xI p' => bin_pos p' ++ ["1"%char]
  end.

(** [format(n, 'b')] *)
Definition bin (n : Z) : list ascii :=
  match n with
  | Z0 => ["0"%char]
  | Zpos p => bin_pos p
  | Zneg p => "-"%char :: bin_pos p
  end.

(** [f'{n:0>10b}']: right-aligned in a field of 10, filled with ['0']. *)
Definition format_0_10b (n : Z) : string :=
  let digits := bin n in
  string_of_list_ascii (replicate (10 - length digits) "0"%char ++ digits).

(** The character of one binary digit. *)
Definition bit_char (b : bool) : ascii := if b then "1"%char else "0"%char.

(** [int(c)] for a string of one character. *)
Definition int_char (c : ascii) : res Z :=
  let n := Z.of_nat (nat_of_ascii c) in
  if (48 <=? n) && (n <=? 57) then Ok (n - 48) else Raise ValueError.

(** [text[i]] *)
Definition str_index (text : string) (i : Z) : res ascii :=
  py_index (list_ascii_of_string text) i.

Section Methods.
Context {D : Type} `{Instrument D}.

(** The property [system_status]. *)
Definition system_status : SE (spd D) string :=
  let qry := "system:status?" in
  reply_hex_str ← _query_ qry;
  n ← SE_lift (int16_text reply_hex_str);
  mret (format_0_10b n).

(** [get_channel_state(channel)] *)
Definition get_channel_state (channel : Z) : SE (spd D) bool :=
  _ ← SE_lift (check_channel_syntax channel);
  status ← system_status;
  c ← SE_lift (str_index status (-4 - channel));
  one_or_zero ← SE_lift (int_char c);
  mret (negb (one_or_zero =? 0)).

End Methods.

(** An instrument of six channels that answers every query with a fixed
    text. *)
Record echo : Type := Echo { echo_reply : string }.

#[global] Instance echo_instrument : Instrument echo := {
  _query _ d := (Ok (echo_reply d), d);
  _command _ d := (Ok tt, d);
  check_channel_syntax ch :=
    if (1 <=? ch) && (ch <=? 6) then Ok tt else Raise ValueError;
  str_num q := str_int (Qnum q);
  float_of text := inject_Z <$> Server.parse_decimal text
}.

Definition echo_supply (reply : string) : spd echo :=
  Spd (Echo reply) [] [] (inject_Z 32) (Qmake 33 10) [] [].

End Status.

(** ** Picomotor controller ([Model8742]) *)

Module Picomotor.

(** [text.encode('utf-8')] for code points below 256: one byte below 128,
    two bytes from 128 on. *)
Fixpoint encode_utf8 (text : string) : list byte :=
  match text with
  | EmptyString => []
  | String c rest =>
      let n := Z.of_nat (nat_of_ascii c) in
      if n <? 128 then Py.Z_byte n :: encode_utf8 rest
      else Py.Z_byte (Z.lor 192 (Z.shiftr n 6))
           :: Py.Z_byte (Z.lor 128 (Z.land n 63)) :: encode_utf8 rest
  end.

(** The argument of [_query_] and [_command_]: a [str] or a [bytes]. *)
Inductive text_or_bytes : Type :=
  | Str (text : string)
  | Bytes (data : list byte).

(** [qry += '\r']: concatenating a [str] to a [bytes] raises [TypeError]. *)
Definition add_cr (qry : text_or_bytes) : res string :=
  match qry with
  | Str text => Ok (text ++ String Server.CR "")%string
  | Bytes _ => Raise TypeError
  end.

(** [Model8742._query_(qry)].  The method calls itself, not the socket
    method [_query] of the base class; [depth] bounds the nesting of calls
    and [None] stands for a call still nested at that depth.  A [str], which
    the nested call would return, has no [decode]. *)
Fixpoint _query_ (depth : nat) (qry : text_or_bytes) : option (res string) :=
  match add_cr qry with
  | Raise e => Some (Raise e)
  | Ok qry' =>
      match depth with
      | O => None
      | S depth' =>
          match _query_ depth' (Bytes (encode_utf8 qry')) with
          | None => None
          | Some (Raise e) => Some (Raise e)
          | Some (Ok reply) => Some (Raise AttributeError)
          end
      end
  end.

(** [Model8742._command_(cmd)], which calls itself likewise and returns
    what the nested call returns. *)
Fixpoint _command_ (depth : nat) (cmd : text_or_bytes) : option (res unit) :=
  match add_cr cmd with
  | Raise e => Some (Raise e)
  | Ok cmd' =>
      match depth with
      | O => None
      | S depth' => _command_ depth' (Bytes (encode_utf8 cmd'))
      end
  end.

(** The property [idn]. *)
Definition idn (depth : nat) : option (res string) :=
  _query_ depth (Str "*IDN?").

End Picomotor.

(** * Properties of the sample decoder *)

Module DecoderFacts.
Import Decoder.

Lemma byte_Z_range (b : byte) : 0 <= Py.byte_Z b < 256.
Proof.
  unfold Py.byte_Z. pose proof (Byte.to_N_bounded b) as H. lia.
Qed.

Lemma Z_byte_of_byte (b : byte) : Py.Z_byte (Py.byte_Z b) = b.
Proof. destruct b; reflexivity. Qed.

Lemma Z_byte_mod (z : Z) (b : byte) :
  z mod 256 = Py.byte_Z b -> Py.Z_byte z = b.
Proof.
  intros H. rewrite <- (Z_byte_of_byte b). unfold Py.Z_byte. rewrite H.
  rewrite (Z.mod_small (Py.byte_Z b)) by apply byte_Z_range. reflexivity.
Qed.

(** The two characters [hex] writes for a byte read back as its high and
    low nibble. *)
Lemma hex_val_nibbles (b : byte) :
  Py.hex_val (Py.hex_digit (Byte.to_N b / 16)) = Some (Py.byte_Z b / 16) /\
  Py.hex_val (Py.hex_digit (Byte.to_N b mod 16)) = Some (Py.byte_Z b mod 16).
Proof. destruct b; split; reflexivity. Qed.

Lemma int16_digits_hex_cons (acc : Z) (b : byte) (l : list byte) :
  Py.int16_digits acc (Py.hex (b :: l)) =
  Py.int16_digits (acc * 256 + Py.byte_Z b) (Py.hex l).
Proof.
  destruct (hex_val_nibbles b) as [Hhi Hlo].
  cbn [Py.hex Py.int16_digits]. rewrite Hhi, Hlo. f_equal.
  pose proof (Z.div_mod (Py.byte_Z b) 16). lia.
Qed.

Lemma hex_length (l : list byte) :
  String.length (Py.hex l) = (2 * length l)%nat.
Proof. induction l as [|b l IH]; cbn [Py.hex String.length length]; lia. Qed.

Lemma substring_hex_skip (a m : nat) (buf : list byte) :
  String.substring (2 * a) m (Py.hex buf) =
  String.substring 0 m (Py.hex (drop a buf)).
Proof.
  revert buf. induction a as [|a IH]; intros buf; [reflexivity|].
  replace (2 * S a)%nat with (S (S (2 * a))) by lia.
  destruct buf as [|b buf].
  - destruct m; reflexivity.
  - cbn [Py.hex String.substring drop]. apply IH.
Qed.

Lemma substring_hex_take (k : nat) (l : list byte) :
  String.substring 0 (2 * k) (Py.hex l) = Py.hex (take k l).
Proof.
  revert l. induction k as [|k IH]; intros l.
  - destruct l; reflexivity.
  - replace (2 * S k)%nat with (S (S (2 * k))) by lia.
    destruct l as [|b l]; [reflexivity|].
    cbn [Py.hex String.substring take]. rewrite IH. reflexivity.
Qed.

(** Slicing the hexadecimal text at even offsets is slicing the bytes. *)
Lemma slice_hex (a b : nat) (buf : list byte) :
  Py.slice (Py.hex buf) (2 * a) (2 * b) = Py.hex (take (b - a) (drop a buf)).
Proof.
  unfold Py.slice. rewrite substring_hex_skip.
  replace (2 * b - 2 * a)%nat with (2 * (b - a))%nat by lia.
  apply substring_hex_take.
Qed.

Lemma int16_hex_1 (b : byte) : Py.int16 (Py.hex [b]) = Ok (Py.byte_Z b).
Proof.
  unfold Py.int16.
  rewrite int16_digits_hex_cons. cbn [Py.hex Py.int16_digits].
  reflexivity.
Qed.

Lemma int16_hex_4 (b3 b4 b5 b6 : byte) :
  Py.int16 (Py.hex [b3; b4; b5; b6]) =
  Ok (Py.byte_Z b3 * 2 ^ 24 + Py.byte_Z b4 * 2 ^ 16 + Py.byte_Z b5 * 2 ^ 8
      + Py.byte_Z b6).
Proof.
  unfold Py.int16.
  rewrite !int16_digits_hex_cons. cbn [Py.hex Py.int16_digits].
  f_equal. lia.
Qed.

Lemma sign_mask_testbit (b : byte) :
  (if Z.land (Py.byte_Z b) 8 =? 0 then 1 else -1) =
  (if Z.testbit (Py.byte_Z b) 3 then -1 else 1).
Proof. destruct b; reflexivity. Qed.

(** One pass of the loop body on section [i] of a buffer that holds it
    whole computes the fields the specification names. *)
Lemma section_fields_hex (buf : list byte) (i : nat) :
  (6 * i + 6 <= length buf)%nat ->
  section_fields (Py.hex buf) i = Ok (spec_fields (take 6 (drop (6 * i) buf))).
Proof.
  intros Hlen.
  pose proof (take_drop 6 (drop (6 * i) buf)) as Hsplit.
  assert (Hl : length (take 6 (drop (6 * i) buf)) = 6%nat).
  { rewrite length_take, length_drop. lia. }
  destruct (take 6 (drop (6 * i) buf))
    as [|b1 [|b2 [|b3 [|b4 [|b5 [|b6 [|b7 t]]]]]]]; try discriminate Hl.
  unfold section_fields.
  replace (i * 12 + 2)%nat with (2 * (6 * i + 1))%nat by lia.
  replace (i * 12 + 4)%nat with (2 * (6 * i + 2))%nat by lia.
  replace (i * 12 + 12)%nat with (2 * (6 * i + 6))%nat by lia.
  rewrite !slice_hex.
  replace (6 * i + 2 - (6 * i + 1))%nat with 1%nat by lia.
  replace (6 * i + 6 - (6 * i + 2))%nat with 4%nat by lia.
  rewrite <- !drop_drop, <- Hsplit. cbn [app drop take].
  rewrite int16_hex_1, int16_hex_4. cbn [mbind res_bind].
  unfold spec_fields. rewrite sign_mask_testbit. reflexivity.
Qed.

Lemma magnitude_eq (e : Z) :
  Qpower (inject_Z 10) (-1 * e) = Qpower (inject_Z 10) (- e).
Proof. replace (-1 * e) with (- e) by lia. reflexivity. Qed.

Lemma reading_value_spec (sec : list byte) :
  reading_value (spec_fields sec) = spec_value sec.
Proof.
  unfold reading_value, spec_value.
  destruct (spec_fields sec) as [[sign digits] exponent].
  rewrite magnitude_eq. reflexivity.
Qed.

Lemma decode_loop (buf : list byte) (n a : nat) :
  (6 * (a + n) <= length buf)%nat ->
  res_mapM
    (fun measurable_i =>
       f ← section_fields (Py.hex buf) measurable_i; Ok (reading_value f))
    (seq a n)
  = Ok (map spec_value (sections_from n (drop (6 * a) buf))).
Proof.
  revert a. induction n as [|n IH]; intros a Hlen; [reflexivity|].
  cbn [seq res_mapM sections_from map].
  rewrite section_fields_hex by lia. cbn [mbind res_bind].
  rewrite IH by lia. rewrite reading_value_spec.
  rewrite drop_drop. replace (6 * a + 6)%nat with (6 * S a)%nat by lia.
  reflexivity.
Qed.

(** The decoder never raises: it returns the readings of the complete
    sections of the buffer, in order. *)
Lemma decode_sections (buf : list byte) :
  decode buf = Ok (map spec_value (sections buf)).
Proof.
  unfold decode, sections. rewrite hex_length.
  replace (2 * length buf / 2)%nat with (length buf).
  2:{ rewrite Nat.mul_comm, Nat.div_mul; lia. }
  rewrite decode_loop; [reflexivity|].
  pose proof (Nat.div_mod_eq (length buf) 6). lia.
Qed.

Lemma sections_from_length (k : nat) (buf : list byte) :
  length (sections_from k buf) = k.
Proof. revert buf. induction k; intros; cbn; auto. Qed.

Lemma sections_from_concat (k : nat) (buf : list byte) :
  length buf = (6 * k)%nat -> concat (sections_from k buf) = buf.
Proof.
  revert buf. induction k as [|k IH]; intros buf H.
  - destruct buf; [reflexivity | discriminate].
  - cbn [sections_from concat]. rewrite IH.
    + apply take_drop.
    + rewrite length_drop. lia.
Qed.

Lemma sections_from_all_6 (k : nat) (buf : list byte) :
  (6 * k <= length buf)%nat ->
  Forall (fun sec => length sec = 6%nat) (sections_from k buf).
Proof.
  revert buf. induction k as [|k IH]; intros buf H; cbn [sections_from].
  - constructor.
  - constructor.
    + rewrite length_take. lia.
    + apply IH. rewrite length_drop. lia.
Qed.

(** C1. For every buffer whose length is a multiple of 6 the decoder
    splits it into its consecutive 6-byte sections (they concatenate back
    to the buffer) and returns, for each section in order, the value
    sign * digits * 10^(-exponent) with the sign taken from bit 4 (mask
    0x08) of byte 2, the exponent from its low three bits and the digits
    from bytes 3-6 read big-endian; the section 00 08 00 00 27 10 decodes
    to -10000. *)
Theorem C1_decode_multiple_of_6 (buf : list byte) (n : nat) :
  length buf = (6 * n)%nat ->
  concat (sections buf) = buf /\
  Forall (fun sec => length sec = 6%nat) (sections buf) /\
  length (sections buf) = n /\
  decode buf = Ok (map spec_value (sections buf)) /\
  decode [x00; x08; x00; x00; x27; x10] = Ok [inject_Z (-10000)].
Proof.
  intros Hlen.
  assert (Hn : (length buf / 6)%nat = n).
  { rewrite Hlen, Nat.mul_comm. apply Nat.div_mul. lia. }
  unfold sections. rewrite Hn. repeat split.
  - apply sections_from_concat, Hlen.
  - apply sections_from_all_6. lia.
  - apply sections_from_length.
  - rewrite decode_sections. unfold sections. rewrite Hn. reflexivity.
Qed.

Lemma C1_decode_multiple_of_6_witness :
  let buf := [x00; x08; x00; x00; x27; x10; x00; x03; x00; x00; x04; xd2] in
  decode buf = Ok (map spec_value (sections buf)) /\
  map spec_value (sections buf) = [inject_Z (-10000); Qmake 1234 1000].
Proof.
  split.
  - apply (C1_decode_multiple_of_6 _ 2). reflexivity.
  - reflexivity.
Defined.

(** C4 fails on the code: a 7-byte buffer is not rejected; the decoder
    returns the reading of its one complete section. *)
Lemma C4_counterexample_7_bytes :
  let buf := [x00; x08; x00; x00; x27; x10; xff] in
  (length buf mod 6)%nat <> 0%nat /\
  decode buf = Ok [inject_Z (-10000)].
Proof. split; [vm_compute; discriminate | reflexivity]. Qed.

Lemma sections_from_take (k m : nat) (buf : list byte) :
  (6 * k <= m)%nat -> sections_from k (take m buf) = sections_from k buf.
Proof.
  revert m buf. induction k as [|k IH]; intros m buf H; [reflexivity|].
  cbn [sections_from]. rewrite take_take, Nat.min_l by lia.
  rewrite skipn_firstn_comm, IH by lia. reflexivity.
Qed.

(** C4, amended. For every buffer whose length is not a multiple of 6 the
    decoder raises no error: it returns the readings of the
    [length / 6] leading complete sections and ignores the remaining
    bytes. *)
Theorem C4_decode_ignores_remainder (buf : list byte) :
  (length buf mod 6)%nat <> 0%nat ->
  decode buf = Ok (map spec_value (sections buf)) /\
  length (sections buf) = (length buf / 6)%nat /\
  decode buf = decode (take (6 * (length buf / 6)) buf).
Proof.
  intros _. rewrite !decode_sections. repeat split.
  - apply sections_from_length.
  - f_equal. f_equal. unfold sections.
    pose proof (Nat.div_mod_eq (length buf) 6) as Hdm.
    rewrite length_take, Nat.min_l by lia.
    rewrite (Nat.mul_comm 6), Nat.div_mul by lia.
    symmetry. apply sections_from_take. lia.
Qed.

Lemma C4_decode_ignores_remainder_witness :
  let buf := [x00; x08; x00; x00; x27; x10; xff; xff] in
  decode buf = Ok (map spec_value (sections buf)) /\
  length (sections buf) = 1%nat /\
  decode buf = decode [x00; x08; x00; x00; x27; x10].
Proof.
  apply (C4_decode_ignores_remainder
           [x00; x08; x00; x00; x27; x10; xff; xff]).
  vm_compute. discriminate.
Defined.

(** *** Re-encoding the recovered fields *)

Lemma encode_byte_2 (b2 : byte) :
  Py.Z_byte (Z.lor (if (if Z.testbit (Py.byte_Z b2) 3 then -1 else 1) <? 0
                 then 8 else 0)
                (Z.land (Z.land (Py.byte_Z b2) 7) 7))
  = Py.Z_byte (Z.land (Py.byte_Z b2) 15).
Proof. destruct b2; reflexivity. Qed.

Lemma encode_digits (b3 b4 b5 b6 : byte) :
  let d := Py.byte_Z b3 * 2 ^ 24 + Py.byte_Z b4 * 2 ^ 16 + Py.byte_Z b5 * 2 ^ 8
           + Py.byte_Z b6 in
  Py.Z_byte (Z.shiftr d 24) = b3 /\ Py.Z_byte (Z.shiftr d 16) = b4 /\
  Py.Z_byte (Z.shiftr d 8) = b5 /\ Py.Z_byte d = b6.
Proof.
  intros d. subst d.
  pose proof (byte_Z_range b3). pose proof (byte_Z_range b4).
  pose proof (byte_Z_range b5). pose proof (byte_Z_range b6).
  rewrite !Z.shiftr_div_pow2 by lia.
  change (2 ^ 24) with 16777216. change (2 ^ 16) with 65536.
  change (2 ^ 8) with 256.
  repeat split; apply Z_byte_mod; Z.div_mod_to_equations; lia.
Qed.

(** What re-encoding gives back: byte 1 cleared, the low four bits of
    byte 2, and bytes 3-6 unchanged. *)
Lemma encode_spec_fields (b1 b2 b3 b4 b5 b6 : byte) :
  spec_encode (spec_fields [b1; b2; b3; b4; b5; b6]) =
  [x00; Py.Z_byte (Z.land (Py.byte_Z b2) 15); b3; b4; b5; b6].
Proof.
  unfold spec_fields, spec_encode.
  destruct (encode_digits b3 b4 b5 b6) as (H3 & H4 & H5 & H6).
  cbv zeta in H3, H4, H5, H6.
  rewrite encode_byte_2, H3, H4, H5, H6. reflexivity.
Qed.

Lemma low_nibble_fixed (b2 : byte) :
  Py.Z_byte (Z.land (Py.byte_Z b2) 15) = b2 <-> Z.land (Py.byte_Z b2) 240 = 0.
Proof. destruct b2; split; intros H; solve [reflexivity | discriminate H]. Qed.

(** C8 fails on the code: the decoder does not read byte 1 (nor the
    high four bits of byte 2), so a section with byte 1 = 01 is decoded
    to fields that re-encode to a different section. *)
Lemma C8_counterexample_byte_1 :
  let sec := [x01; x08; x00; x00; x27; x10] in
  section_fields (Py.hex sec) 0 = Ok (-1, 10000, 0) /\
  spec_encode (-1, 10000, 0) = [x00; x08; x00; x00; x27; x10] /\
  spec_encode (-1, 10000, 0) <> sec.
Proof.
  cbv zeta. split; [reflexivity | split; [reflexivity | discriminate]].
Qed.

(** C8, amended. For every 6-byte section, re-encoding the sign, exponent
    and digits the decoder recovers reproduces bytes 3-6 and the low
    four bits of byte 2 exactly; it reproduces the whole section exactly
    when byte 1 and the high four bits of byte 2, which the decoder does
    not read, are zero. *)
Theorem C8_reencode_section (b1 b2 b3 b4 b5 b6 : byte) :
  let sec := [b1; b2; b3; b4; b5; b6] in
  exists f, section_fields (Py.hex sec) 0 = Ok f /\
    spec_encode f =
      [x00; Py.Z_byte (Z.land (Py.byte_Z b2) 15); b3; b4; b5; b6] /\
    (spec_encode f = sec <-> b1 = x00 /\ Z.land (Py.byte_Z b2) 240 = 0).
Proof.
  intros sec. subst sec.
  exists (spec_fields [b1; b2; b3; b4; b5; b6]).
  rewrite (section_fields_hex [b1; b2; b3; b4; b5; b6] 0) by (cbn; lia).
  rewrite encode_spec_fields.
  split; [reflexivity|]. split; [reflexivity|]. split.
  - intros H. injection H as H1 H2. subst b1. split; [reflexivity|].
    apply low_nibble_fixed, H2.
  - intros [-> H2]. apply low_nibble_fixed in H2. rewrite H2. reflexivity.
Qed.

End DecoderFacts.

(** * Properties of the framed device channel *)

Module ChannelFacts.
Import Channel.

(** The four hex identifiers, their opcode byte and reply length. *)
Lemma qry_dict_range (command qry : string) :
  qry_dict !! command = Some qry ->
  qry = "01" \/ qry = "02" \/ qry = "03" \/ qry = "04".
Proof.
  intros Hq. apply elem_of_list_to_map_2 in Hq.
  repeat (apply elem_of_cons in Hq as [Hq|Hq];
          [injection Hq as _ ->; tauto|]).
  apply elem_of_nil in Hq. destruct Hq.
Qed.

Lemma qry_table (qry : string) :
  qry = "01" \/ qry = "02" \/ qry = "03" \/ qry = "04" ->
  exists (len : nat) (op : byte),
    read_length_dict !! qry = Some len /\
    Py.fromhex qry = Ok [op] /\
    Py.fromhex (Py.str_mul qry 6) = Ok (repeat op 6) /\
    (qry = "01" -> len = 20%nat /\ op = x01) /\
    (qry = "02" -> len = 20%nat /\ op = x02) /\
    (qry = "03" -> len = 30%nat /\ op = x03) /\
    (qry = "04" -> len = 31%nat /\ op = x04).
Proof.
  intros [-> | [-> | [-> | ->]]];
    [exists 20%nat, x01 | exists 20%nat, x02
    | exists 30%nat, x03 | exists 31%nat, x04];
    (split; [reflexivity|]); (split; [reflexivity|]);
    (split; [reflexivity|]); repeat apply conj; intros Hq;
    first [discriminate Hq | split; reflexivity].
Qed.

Lemma continue_frame : Py.fromhex (Py.str_mul "08" 6) = Ok (repeat x08 6).
Proof. reflexivity. Qed.

Section Runs.
Context {T : Type} `{Transport T}.

Lemma self_write_ok (data : list byte) (c : nat) (p p1 : T) (lg : list io) :
  write data p = (Ok tt, p1) ->
  self_write data (State c p lg) =
    (Returned tt, State c p1 (lg ++ [Wrote data])).
Proof. intros Hw. unfold self_write. cbn [port]. rewrite Hw. reflexivity. Qed.

Lemma self_read_ok (size : nat) (d : list byte) (c : nat) (p p1 : T)
    (lg : list io) :
  read size p = (Ok d, p1) ->
  self_read size (State c p lg) =
    (Returned d, State c p1 (lg ++ [Read size d])).
Proof. intros Hr. unfold self_read. cbn [port]. rewrite Hr. reflexivity. Qed.

(** One pass of the first loop. *)
Lemma ack_loop_pass (fuel : nat) (qry : string) (len : nat)
    (frame r a ack : list byte) (ro : option (list byte))
    (c : nat) (p p1 p2 p3 : T) (lg : list io) :
  ack <> [x08] ->
  Py.fromhex (Py.str_mul qry 6) = Ok frame ->
  write frame p = (Ok tt, p1) ->
  read len p1 = (Ok r, p2) ->
  read 1 p2 = (Ok a, p3) ->
  ack_loop (S fuel) qry len ro ack (State c p lg) =
  ack_loop fuel qry len (Some r) a
    (State (if decide (a = [x08]) then c else S c) p3
           (lg ++ [Wrote frame; Read len r; Read 1 a])).
Proof.
  intros Hack Hframe Hw Hr Ha.
  cbn [ack_loop]. destruct (decide (ack = [x08])) as [|_]; [contradiction|].
  unfold mbind, M_bind. rewrite Hframe. cbn [lift mret M_ret].
  rewrite (self_write_ok _ _ _ _ _ Hw), (self_read_ok _ _ _ _ _ _ Hr),
    (self_read_ok _ _ _ _ _ _ Ha).
  rewrite <- !app_assoc. cbn [app].
  destruct (decide (a = [x08])); reflexivity.
Qed.

(** One pass of the second loop. *)
Lemma continue_loop_pass (fuel : nat) (len : nat)
    (r0 r a ack : list byte) (c : nat) (p p1 p2 p3 : T) (lg : list io) :
  ack <> [x07] ->
  write (repeat x08 6) p = (Ok tt, p1) ->
  read len p1 = (Ok r, p2) ->
  read 1 p2 = (Ok a, p3) ->
  continue_loop (S fuel) len (Some r0) ack (State c p lg) =
  continue_loop fuel len (Some (r0 ++ r)) a
    (State c p3 (lg ++ [Wrote (repeat x08 6); Read len r; Read 1 a])).
Proof.
  intros Hack Hw Hr Ha.
  cbn [continue_loop].
  destruct (decide (ack = [x07])) as [|_]; [contradiction|].
  unfold mbind, M_bind. rewrite continue_frame. cbn [lift mret M_ret].
  rewrite (self_write_ok _ _ _ _ _ Hw), (self_read_ok _ _ _ _ _ _ Hr),
    (self_read_ok _ _ _ _ _ _ Ha).
  rewrite <- !app_assoc. reflexivity.
Qed.

Lemma ack_loop_exit (fuel : nat) (qry : string) (len : nat)
    (ro : option (list byte)) (s : state T) :
  ack_loop fuel qry len ro [x08] s = (Returned (ro, [x08]), s).
Proof. destruct fuel; reflexivity. Qed.

Lemma continue_loop_exit (fuel : nat) (len : nat)
    (ro : option (list byte)) (s : state T) :
  continue_loop fuel len ro [x07] s = (Returned ro, s).
Proof. destruct fuel; reflexivity. Qed.

(** The first loop against a device that acknowledges on attempt
    [n + 1]: it returns that attempt's data after [n + 1] exchanges,
    with the counter raised by [n]. *)
Lemma ack_loop_run (frame : list byte) (len n : nat) (p : T)
    (r : list byte) (p' : T) :
  nacks_then_ack frame len n p r p' ->
  forall (qry : string) (fuel c : nat) (lg : list io)
         (ro : option (list byte)) (ack : list byte),
    Py.fromhex (Py.str_mul qry 6) = Ok frame ->
    ack <> [x08] ->
    (n < fuel)%nat ->
    exists lg',
      ack_loop fuel qry len ro ack (State c p lg) =
        (Returned (Some r, [x08]), State (c + n) p' (lg ++ lg')) /\
      exchanges frame len (S n) lg'.
Proof.
  induction 1 as [p p1 r p2 p3 Hw Hr Ha
                 | n p p1 r0 p2 a p3 r p' Hw Hr Ha Hne _ IH];
    intros qry fuel c lg ro ack Hframe Hack Hfuel.
  - destruct fuel as [|fuel]; [lia|].
    rewrite (ack_loop_pass _ _ _ _ _ _ _ _ _ _ _ _ _ _ Hack Hframe Hw Hr Ha).
    rewrite ack_loop_exit. rewrite decide_True by reflexivity.
    rewrite Nat.add_0_r. eexists. split; [reflexivity|].
    cbn. eauto.
  - destruct fuel as [|fuel]; [lia|].
    rewrite (ack_loop_pass _ _ _ _ _ _ _ _ _ _ _ _ _ _ Hack Hframe Hw Hr Ha).
    rewrite decide_False by exact Hne.
    destruct (IH qry fuel (S c)
                (lg ++ [Wrote frame; Read len r0; Read 1 a]) (Some r0) a
                Hframe Hne ltac:(lia)) as (lg' & Hrun & Hex).
    exists ([Wrote frame; Read len r0; Read 1 a] ++ lg').
    split.
    + rewrite Hrun. rewrite <- app_assoc.
      replace (S c + n)%nat with (c + S n)%nat by lia. reflexivity.
    + cbn [app]. cbn [exchanges]. eauto.
Qed.

(** The second loop against a device that completes on continuation
    [m + 1]. *)
Lemma continue_loop_run (len m : nat) (p : T) (rs : list byte) (p' : T) :
  continues_then_done len m p rs p' ->
  forall (fuel c : nat) (lg : list io) (r0 ack : list byte),
    ack <> [x07] ->
    (m < fuel)%nat ->
    exists lg',
      continue_loop fuel len (Some r0) ack (State c p lg) =
        (Returned (Some (r0 ++ rs)), State c p' (lg ++ lg')) /\
      exchanges (repeat x08 6) len (S m) lg'.
Proof.
  induction 1 as [p p1 r p2 p3 Hw Hr Ha
                 | m p p1 r p2 a p3 rs p' Hw Hr Ha Hne _ IH];
    intros fuel c lg r0 ack Hack Hfuel.
  - destruct fuel as [|fuel]; [lia|].
    rewrite (continue_loop_pass _ _ _ _ _ _ _ _ _ _ _ _ Hack Hw Hr Ha).
    rewrite continue_loop_exit. eexists. split; [reflexivity|].
    cbn. eauto.
  - destruct fuel as [|fuel]; [lia|].
    rewrite (continue_loop_pass _ _ _ _ _ _ _ _ _ _ _ _ Hack Hw Hr Ha).
    destruct (IH fuel c
                (lg ++ [Wrote (repeat x08 6); Read len r; Read 1 a])
                (r0 ++ r) a Hne ltac:(lia)) as (lg' & Hrun & Hex).
    exists ([Wrote (repeat x08 6); Read len r; Read 1 a] ++ lg').
    split.
    + rewrite Hrun. rewrite <- !app_assoc. reflexivity.
    + cbn [app]. cbn [exchanges]. eauto.
Qed.

(** [query] on an accepted command, against a device that acknowledges
    on attempt [N + 1] and, for a multi-frame opcode, completes on
    continuation [M + 1]. *)
Lemma query_run (command qry : string) (len : nat) (op : byte)
    (N : nat) (p : T) (r : list byte) (p1 : T)
    (fuel c : nat) (lg : list io) :
  qry_dict !! command = Some qry ->
  read_length_dict !! qry = Some len ->
  Py.fromhex (Py.str_mul qry 6) = Ok (repeat op 6) ->
  nacks_then_ack (repeat op 6) len N p r p1 ->
  (N < fuel)%nat ->
  (qry = "03" \/ qry = "04" ->
   exists lg1,
     query fuel command (State c p lg) =
       (Returned (Some r), State (c + N) p1 (lg ++ lg1)) /\
     exchanges (repeat op 6) len (S N) lg1) /\
  (~ (qry = "03" \/ qry = "04") ->
   forall (M : nat) (rs : list byte) (p2 : T),
     continues_then_done len M p1 rs p2 ->
     (M < fuel)%nat ->
     exists lg1 lg2,
       query fuel command (State c p lg) =
         (Returned (Some (r ++ rs)), State (c + N) p2 (lg ++ lg1 ++ lg2)) /\
       exchanges (repeat op 6) len (S N) lg1 /\
       exchanges (repeat x08 6) len (S M) lg2).
Proof.
  intros Hq Hlen Hframe Hdev Hfuel.
  assert (Hnil : ([] : list byte) <> [x08]) by discriminate.
  destruct (ack_loop_run _ _ _ _ _ _ Hdev qry fuel c lg None [] Hframe
              Hnil Hfuel) as (lg1 & Hrun & Hex).
  unfold query. rewrite Hq, Hlen. unfold mbind, M_bind. rewrite Hrun.
  split.
  - intros Hs. rewrite decide_True by exact Hs. eauto.
  - intros Hm M rs p2 Hcont HM. rewrite decide_False by exact Hm.
    assert (H78 : [x08] <> [x07]) by discriminate.
    destruct (continue_loop_run _ _ _ _ _ Hcont fuel (c + N)%nat
                (lg ++ lg1) r [x08] H78 HM) as (lg2 & Hrun2 & Hex2).
    exists lg1, lg2. rewrite Hrun2, <- app_assoc. auto.
Qed.

(** *** The counter never goes down *)

Lemma nondecreasing_bind {A B} (m : M T A) (k : A -> M T B) :
  nondecreasing m -> (forall a, nondecreasing (k a)) ->
  nondecreasing (m ≫= k).
Proof.
  intros Hm Hk s. unfold mbind, M_bind. specialize (Hm s).
  destruct (m s) as [[a| e |] s']; cbn [snd] in *; [|exact Hm|exact Hm].
  specialize (Hk a s'). lia.
Qed.

Lemma nondecreasing_lift {A} (r : res A) : nondecreasing (lift r : M T A).
Proof. intros s. destruct r; cbn; lia. Qed.

Lemma nondecreasing_write (data : list byte) : nondecreasing (self_write data).
Proof.
  intros s. unfold self_write. destruct (write data (port s)) as [[[]|e] p];
    cbn; lia.
Qed.

Lemma nondecreasing_read (size : nat) : nondecreasing (self_read size).
Proof.
  intros s. unfold self_read. destruct (read size (port s)) as [[d|e] p];
    cbn; lia.
Qed.

Lemma nondecreasing_ack_loop (fuel : nat) (qry : string) (len : nat)
    (ro : option (list byte)) (ack : list byte) :
  nondecreasing (ack_loop fuel qry len ro ack).
Proof.
  revert ro ack. induction fuel as [|fuel IH]; intros ro ack;
    cbn [ack_loop]; destruct (decide (ack = [x08])); try (intros s; cbn; lia).
  apply nondecreasing_bind; [apply nondecreasing_lift|]. intros frame.
  apply nondecreasing_bind; [apply nondecreasing_write|]. intros _.
  apply nondecreasing_bind; [apply nondecreasing_read|]. intros r'.
  apply nondecreasing_bind; [apply nondecreasing_read|]. intros ack'.
  apply nondecreasing_bind; [|intros _; apply IH].
  destruct (decide (ack' = [x08])); intros s; cbn; lia.
Qed.

Lemma nondecreasing_continue_loop (fuel : nat) (len : nat)
    (ro : option (list byte)) (ack : list byte) :
  nondecreasing (continue_loop fuel len ro ack).
Proof.
  revert ro ack. induction fuel as [|fuel IH]; intros ro ack;
    cbn [continue_loop]; destruct (decide (ack = [x07]));
    try (intros s; cbn; lia).
  apply nondecreasing_bind; [apply nondecreasing_lift|]. intros frame.
  apply nondecreasing_bind; [apply nondecreasing_write|]. intros _.
  apply nondecreasing_bind; [apply nondecreasing_read|]. intros more.
  apply nondecreasing_bind; [destruct ro; intros s; cbn; lia|]. intros r'.
  apply nondecreasing_bind; [apply nondecreasing_read|]. intros ack'.
  apply IH.
Qed.

(** Whatever the device does and however the call ends, [query] leaves
    [error_count] at least as large as it found it. *)
Lemma nondecreasing_query (fuel : nat) (command : string) :
  nondecreasing (query fuel command).
Proof.
  unfold query. destruct (qry_dict !! command) as [qry|];
    [|intros s; cbn; lia].
  destruct (read_length_dict !! qry) as [len|]; [|intros s; cbn; lia].
  apply nondecreasing_bind; [apply nondecreasing_ack_loop|].
  intros [r ack]. destruct (decide (qry = "03" \/ qry = "04"));
    [intros s; cbn; lia | apply nondecreasing_continue_loop].
Qed.

Lemma query_on_nondecreasing (self fuel : nat) (command : string)
    (w : process T) :
  (shared_error_count w <=
   shared_error_count (query_on self fuel command w).2)%nat.
Proof.
  unfold query_on. destruct (gm3s w !! self) as [p|]; [|cbn; lia].
  pose proof (nondecreasing_query fuel command
                (State (shared_error_count w) p [])) as Hq.
  destruct (query fuel command (State (shared_error_count w) p []))
    as [o s]. cbn in *. exact Hq.
Qed.

Lemma run_queries_nondecreasing (calls : list (nat * nat * string))
    (w : process T) :
  (shared_error_count w <= shared_error_count (run_queries calls w))%nat.
Proof.
  revert w. induction calls as [|[[self fuel] command] rest IH]; intros w;
    cbn [run_queries]; [lia|].
  pose proof (query_on_nondecreasing self fuel command w).
  specialize (IH (query_on self fuel command w).2). lia.
Qed.

(** *** Every call on the stream belongs to the protocol *)

Lemma logs_bind {A B} (ok : io -> Prop) (m : M T A) (k : A -> M T B) :
  logs ok m -> (forall a, logs ok (k a)) -> logs ok (m ≫= k).
Proof.
  intros Hm Hk s. unfold mbind, M_bind. destruct (Hm s) as (lg & Hlg & Hok).
  destruct (m s) as [[a| e |] s']; cbn [snd] in *; [|eauto|eauto].
  destruct (Hk a s') as (lg' & Hlg' & Hok').
  exists (lg ++ lg'). rewrite Hlg', Hlg, app_assoc. split; [reflexivity|].
  apply Forall_app; auto.
Qed.

Lemma logs_pure {A} (ok : io -> Prop) (m : M T A) :
  (forall s, (m s).2 = s) -> logs ok m.
Proof.
  intros Hm s. exists []. rewrite Hm, app_nil_r.
  split; [reflexivity|constructor].
Qed.

Lemma logs_lift {A} (ok : io -> Prop) (r : res A) : logs ok (lift r : M T A).
Proof. apply logs_pure. intros s. destruct r; reflexivity. Qed.

Lemma logs_bind_ok {A B} (ok : io -> Prop) (a : A) (k : A -> M T B) :
  logs ok (k a) -> logs ok (lift (Ok a) ≫= k).
Proof. intros Hk s. exact (Hk s). Qed.

Lemma logs_write (ok : io -> Prop) (data : list byte) :
  ok (Wrote data) -> logs ok (self_write data).
Proof.
  intros Hok s. unfold self_write.
  destruct (write data (port s)) as [[[]|e] p];
    (eexists; split; [reflexivity|]); repeat constructor; exact Hok.
Qed.

Lemma logs_read (ok : io -> Prop) (size : nat) :
  (forall got, ok (Read size got)) -> logs ok (self_read size).
Proof.
  intros Hok s. unfold self_read.
  destruct (read size (port s)) as [[d|e] p];
    (eexists; split; [reflexivity|]); repeat constructor; apply Hok.
Qed.

Lemma logs_ack_loop (op : byte) (len fuel : nat) (qry : string)
    (ro : option (list byte)) (ack : list byte) :
  Py.fromhex (Py.str_mul qry 6) = Ok (repeat op 6) ->
  logs (framed op len) (ack_loop fuel qry len ro ack).
Proof.
  intros Hframe. revert ro ack. induction fuel as [|fuel IH]; intros ro ack;
    cbn [ack_loop]; destruct (decide (ack = [x08]));
    try (apply logs_pure; reflexivity).
  rewrite Hframe. apply logs_bind_ok.
  apply logs_bind; [apply logs_write; left; reflexivity|]. intros _.
  apply logs_bind; [apply logs_read; intros; left; reflexivity|]. intros r'.
  apply logs_bind; [apply logs_read; intros; right; reflexivity|]. intros ack'.
  apply logs_bind; [|intros _; apply IH].
  destruct (decide (ack' = [x08])); [apply logs_pure; reflexivity|].
  intros s. exists []. rewrite app_nil_r. split; [reflexivity|constructor].
Qed.

Lemma logs_continue_loop (op : byte) (len fuel : nat)
    (ro : option (list byte)) (ack : list byte) :
  logs (framed op len) (continue_loop fuel len ro ack).
Proof.
  revert ro ack. induction fuel as [|fuel IH]; intros ro ack;
    cbn [continue_loop]; destruct (decide (ack = [x07]));
    try (apply logs_pure; reflexivity).
  rewrite continue_frame. apply logs_bind_ok.
  apply logs_bind; [apply logs_write; right; reflexivity|]. intros _.
  apply logs_bind; [apply logs_read; intros; left; reflexivity|]. intros more.
  apply logs_bind; [destruct ro; apply logs_pure; reflexivity|]. intros r'.
  apply logs_bind; [apply logs_read; intros; right; reflexivity|]. intros ack'.
  apply IH.
Qed.

(** Whatever the device does and however the call ends, [query] only
    writes the request frame or the continuation frame and only reads the
    table's length or one byte. *)
Lemma logs_query (command qry : string) (op : byte) (len fuel : nat) :
  qry_dict !! command = Some qry ->
  read_length_dict !! qry = Some len ->
  Py.fromhex (Py.str_mul qry 6) = Ok (repeat op 6) ->
  logs (framed op len) (query fuel command).
Proof.
  intros Hq Hlen Hframe. unfold query. rewrite Hq, Hlen.
  apply logs_bind; [apply logs_ack_loop, Hframe|].
  intros [r ack]. destruct (decide (qry = "03" \/ qry = "04"));
    [apply logs_pure; reflexivity | apply logs_continue_loop].
Qed.

(** A stream query on object [self] whose device acknowledges on attempt
    [N + 1] adds [N] to the shared counter and touches no other
    object. *)
Lemma query_on_stream (self fuel N : nat) (w : process T) (p : T)
    (r : list byte) (p1 : T) :
  gm3s w !! self = Some p ->
  nacks_then_ack (repeat x03 6) 30 N p r p1 ->
  (N < fuel)%nat ->
  query_on self fuel "STREAM_DATA" w =
    (Returned (Some r),
     Process (shared_error_count w + N) (<[self := p1]> (gm3s w))).
Proof.
  intros Hp Hdev Hfuel. unfold query_on. rewrite Hp.
  destruct (query_run "STREAM_DATA" "03" 30 x03 N p r p1 fuel
              (shared_error_count w) [] eq_refl eq_refl eq_refl Hdev Hfuel)
    as [Hs _].
  destruct (Hs (or_introl eq_refl)) as (lg1 & Hrun & _).
  rewrite Hrun. reflexivity.
Qed.

End Runs.

(** *** Scripted devices used to exercise the theorems *)

Lemma script_nack_ack (d0 a d1 : list byte) (frame : list byte) (len : nat)
    (rest : script) :
  a <> [x08] -> (length a <= 1)%nat ->
  nacks_then_ack frame len 1 (d0 :: a :: d1 :: [x08] :: rest)
    (take len d1) rest.
Proof.
  intros Ha Hl.
  eapply nta_nack with (a := a); [reflexivity | reflexivity | | exact Ha |].
  - cbn. rewrite take_ge by exact Hl. reflexivity.
  - eapply nta_ack; reflexivity.
Qed.

Lemma script_ack (d : list byte) (frame : list byte) (len : nat)
    (rest : script) :
  nacks_then_ack frame len 0 (d :: [x08] :: rest) (take len d) rest.
Proof. eapply nta_ack; reflexivity. Qed.

Lemma script_done (d : list byte) (len : nat) (rest : script) :
  continues_then_done len 0 (d :: [x07] :: rest) (take len d) rest.
Proof. eapply ctd_done; reflexivity. Qed.

(** C2 fails on the code for the identity opcode: the device acknowledges
    the first attempt with payload 41, yet [query] goes on to the
    continuation exchange and returns 41 42, whatever the iteration
    budget. *)
Lemma C2_counterexample_identity :
  let p : script := [[x41]; [x08]; [x42]; [x07]] in
  qry_dict !! "ID_METER_PROP" = Some "01" /\
  nacks_then_ack (repeat x01 6) 20 0 p [x41] [[x42]; [x07]] /\
  query 1 "ID_METER_PROP" (State 0 p []) =
    (Returned (Some [x41; x42]),
     State 0 []
       [Wrote (repeat x01 6); Read 20 [x41]; Read 1 [x08];
        Wrote (repeat x08 6); Read 20 [x42]; Read 1 [x07]]) /\
  forall fuel, (query fuel "ID_METER_PROP" (State 0 p [])).1
               <> Returned (Some [x41]).
Proof.
  cbv zeta. split; [reflexivity|].
  split; [apply (script_ack [x41])|].
  split; [reflexivity|].
  intros [|fuel]; [vm_compute; discriminate|].
  destruct (query_run (T := script) "ID_METER_PROP" "01" 20 x01 0
              [[x41]; [x08]; [x42]; [x07]] [x41] [[x42]; [x07]]
              (S fuel) 0 [] eq_refl eq_refl eq_refl
              (script_ack [x41] _ _ _) ltac:(lia)) as [_ Hm].
  destruct (Hm ltac:(intros [E|E]; discriminate E) 0%nat [x42] []
              (script_done [x42] _ _) ltac:(lia)) as (lg1 & lg2 & Hrun & _).
  rewrite Hrun. cbn. discriminate.
Qed.

(** C2, amended. For every command of the channel's table and every
    device that answers the first N attempts with an acknowledgment other
    than 0x08 and the next with 0x08: [query] transmits the same request
    frame on each of the N + 1 attempts and raises the failed-attempt
    counter by exactly N; for the stream and reset opcodes (03, 04) it
    then returns the payload read on the successful attempt; for the
    identity and settings opcodes (01, 02) it goes on to the continuation
    exchange and, once the device completes it, returns that payload
    followed by the continuation data. *)
Theorem C2_query_retry {T : Type} `{Transport T} (command qry : string) :
  qry_dict !! command = Some qry ->
  exists (len : nat) (op : byte),
    read_length_dict !! qry = Some len /\
    Py.fromhex qry = Ok [op] /\
    forall (N : nat) (p : T) (r : list byte) (p1 : T)
           (fuel c : nat) (lg : list io),
      nacks_then_ack (repeat op 6) len N p r p1 ->
      (N < fuel)%nat ->
      (qry = "03" \/ qry = "04" ->
       exists lg1,
         query fuel command (State c p lg) =
           (Returned (Some r), State (c + N) p1 (lg ++ lg1)) /\
         exchanges (repeat op 6) len (S N) lg1) /\
      (qry = "01" \/ qry = "02" ->
       forall (M : nat) (rs : list byte) (p2 : T),
         continues_then_done len M p1 rs p2 ->
         (M < fuel)%nat ->
         exists lg1 lg2,
           query fuel command (State c p lg) =
             (Returned (Some (r ++ rs)),
              State (c + N) p2 (lg ++ lg1 ++ lg2)) /\
           exchanges (repeat op 6) len (S N) lg1).
Proof.
  intros Hq.
  destruct (qry_table qry (qry_dict_range _ _ Hq))
    as (len & op & Hlen & Hop & Hframe & _).
  exists len, op. split; [exact Hlen|]. split; [exact Hop|].
  intros N p r p1 fuel c lg Hdev Hfuel.
  destruct (query_run command qry len op N p r p1 fuel c lg
              Hq Hlen Hframe Hdev Hfuel) as [Hs Hm].
  split; [exact Hs|].
  intros H12 M rs p2 Hcont HM.
  destruct (Hm ltac:(intros [E|E]; destruct H12 as [E'|E'];
                     rewrite E in E'; discriminate E') M rs p2 Hcont HM)
    as (lg1 & lg2 & Hrun & Hex & _).
  eauto.
Qed.

Lemma C2_query_retry_witness :
  exists lg1,
    query 2 "STREAM_DATA"
      (State 5 ([[x11]; [x00]; [x22]; [x08]] : script) []) =
      (Returned (Some [x22]), State 6 [] lg1).
Proof.
  destruct (C2_query_retry (T := script) "STREAM_DATA" "03" eq_refl)
    as (len & op & Hlen & Hop & Hrun).
  assert (len = 30%nat) as -> by (vm_compute in Hlen; congruence).
  assert (op = x03) as -> by (vm_compute in Hop; congruence).
  destruct (Hrun 1%nat [[x11]; [x00]; [x22]; [x08]] [x22] [] 2%nat 5%nat []
              (script_nack_ack [x11] [x00] [x22] _ 30 []
                 ltac:(discriminate) ltac:(cbn; lia))
              ltac:(lia)) as [Hs _].
  destruct (Hs (or_introl eq_refl)) as (lg1 & Hq & _).
  exists lg1. exact Hq.
Defined.

(** C3. For every accepted command the request is the opcode byte
    repeated 6 times; each attempt reads the table's number of data bytes
    (identity 20, settings 20, stream 30, reset 31) and then one
    acknowledgment byte; for the multi-frame opcodes (identity and
    settings) the channel then transmits 0x08 repeated 6 times and reads
    again, appending the data, until the acknowledgment is 0x07.  Stated
    twice over: whatever the device does, every call [query] makes on the
    stream is one of these writes and reads; and against a device that
    acknowledges on attempt N + 1 (and completes on continuation M + 1)
    the calls are exactly these exchanges, in this order. *)
Theorem C3_query_framing {T : Type} `{Transport T} (command qry : string) :
  qry_dict !! command = Some qry ->
  exists (len : nat) (op : byte),
    Py.fromhex qry = Ok [op] /\
    read_length_dict !! qry = Some len /\
    ((qry = "01" /\ len = 20%nat /\ op = x01) \/
     (qry = "02" /\ len = 20%nat /\ op = x02) \/
     (qry = "03" /\ len = 30%nat /\ op = x03) \/
     (qry = "04" /\ len = 31%nat /\ op = x04)) /\
    (forall fuel, logs (framed op len) (query fuel command)) /\
    forall (N : nat) (p : T) (r : list byte) (p1 : T)
           (fuel c : nat) (lg : list io),
      nacks_then_ack (repeat op 6) len N p r p1 ->
      (N < fuel)%nat ->
      (qry = "03" \/ qry = "04" ->
       exists lg1,
         (query fuel command (State c p lg)).1 = Returned (Some r) /\
         io_log (query fuel command (State c p lg)).2 = lg ++ lg1 /\
         exchanges (repeat op 6) len (S N) lg1) /\
      (qry = "01" \/ qry = "02" ->
       forall (M : nat) (rs : list byte) (p2 : T),
         continues_then_done len M p1 rs p2 ->
         (M < fuel)%nat ->
         exists lg1 lg2,
           (query fuel command (State c p lg)).1 = Returned (Some (r ++ rs)) /\
           io_log (query fuel command (State c p lg)).2 = lg ++ lg1 ++ lg2 /\
           exchanges (repeat op 6) len (S N) lg1 /\
           exchanges (repeat x08 6) len (S M) lg2).
Proof.
  intros Hq. pose proof (qry_dict_range _ _ Hq) as Hrange.
  destruct (qry_table qry Hrange)
    as (len & op & Hlen & Hop & Hframe & H1 & H2 & H3 & H4).
  exists len, op. split; [exact Hop|]. split; [exact Hlen|]. split.
  { destruct Hrange as [E|[E|[E|E]]];
      [left; destruct (H1 E) | right; left; destruct (H2 E)
      | right; right; left; destruct (H3 E)
      | right; right; right; destruct (H4 E)]; auto. }
  split.
  { intros fuel. apply (logs_query command qry op len fuel Hq Hlen Hframe). }
  intros N p r p1 fuel c lg Hdev Hfuel.
  destruct (query_run command qry len op N p r p1 fuel c lg
              Hq Hlen Hframe Hdev Hfuel) as [Hs Hm].
  split.
  - intros H34. destruct (Hs H34) as (lg1 & Hrun & Hex).
    exists lg1. rewrite Hrun. auto.
  - intros H12 M rs p2 Hcont HM.
    destruct (Hm ltac:(intros [E|E]; destruct H12 as [E'|E'];
                       rewrite E in E'; discriminate E') M rs p2 Hcont HM)
      as (lg1 & lg2 & Hrun & Hex1 & Hex2).
    exists lg1, lg2. rewrite Hrun. auto.
Qed.

Lemma C3_query_framing_witness :
  exists lg1 lg2,
    (query 3 "ID_METER_SETT"
       (State 0 ([[x41]; [x08]; [x42]; [x07]] : script) [])).1
      = Returned (Some [x41; x42]) /\
    exchanges (repeat x02 6) 20 1 lg1 /\
    exchanges (repeat x08 6) 20 1 lg2.
Proof.
  destruct (C3_query_framing (T := script) "ID_METER_SETT" "02" eq_refl)
    as (len & op & Hop & Hlen & _ & _ & Hrun).
  assert (len = 20%nat) as -> by (vm_compute in Hlen; congruence).
  assert (op = x02) as -> by (vm_compute in Hop; congruence).
  destruct (Hrun 0%nat [[x41]; [x08]; [x42]; [x07]] [x41] [[x42]; [x07]]
              3%nat 0%nat [] (script_ack [x41] _ 20 _) ltac:(lia))
    as [_ Hm].
  destruct (Hm (or_intror eq_refl) 0%nat [x42] []
              (script_done [x42] 20 []) ltac:(lia))
    as (lg1 & lg2 & Hres & _ & Hex1 & Hex2).
  exists lg1, lg2. auto.
Defined.

(** C10. The failed-acknowledgment counter is one variable shared by all
    channel objects and all calls: over any sequence of query calls, on
    whatever objects, with whatever devices and however each call ends,
    its value never decreases; and failures add up across objects: two
    stream queries on two different objects whose devices fail N1 and N2
    acknowledgments leave it N1 + N2 higher. *)
Theorem C10_error_count_shared {T : Type} `{Transport T}
    (calls : list (nat * nat * string)) (w : process T) :
  (shared_error_count w <= shared_error_count (run_queries calls w))%nat /\
  forall (i j f1 f2 N1 N2 : nat) (pi pj pi' pj' : T) (ri rj : list byte),
    i <> j ->
    gm3s w !! i = Some pi ->
    gm3s w !! j = Some pj ->
    nacks_then_ack (repeat x03 6) 30 N1 pi ri pi' ->
    nacks_then_ack (repeat x03 6) 30 N2 pj rj pj' ->
    (N1 < f1)%nat -> (N2 < f2)%nat ->
    shared_error_count
      (run_queries [(i, f1, "STREAM_DATA"); (j, f2, "STREAM_DATA")] w)
    = (shared_error_count w + N1 + N2)%nat.
Proof.
  split; [apply run_queries_nondecreasing|].
  intros i j f1 f2 N1 N2 pi pj pi' pj' ri rj Hij Hi Hj Hd1 Hd2 Hf1 Hf2.
  cbn [run_queries].
  rewrite (query_on_stream i f1 N1 w pi ri pi' Hi Hd1 Hf1). cbn [snd].
  rewrite (query_on_stream j f2 N2 _ pj rj pj');
    [reflexivity| |exact Hd2|exact Hf2].
  cbn [gm3s]. rewrite list_lookup_insert_ne by exact Hij. exact Hj.
Qed.

Lemma C10_error_count_shared_witness :
  let w : process script :=
    Process 4 [[[x11]; [x00]; [x22]; [x08]]; [[x33]; [x08]]] in
  shared_error_count
    (run_queries [(0, 2, "STREAM_DATA"); (1, 1, "STREAM_DATA")]%nat w)
  = 5%nat.
Proof.
  cbv zeta.
  apply (proj2 (C10_error_count_shared []
                  (Process 4 [[[x11]; [x00]; [x22]; [x08]]; [[x33]; [x08]]]))
           0%nat 1%nat 2%nat 1%nat 1%nat 0%nat
           [[x11]; [x00]; [x22]; [x08]] [[x33]; [x08]] [] []
           [x22] [x33]).
  - discriminate.
  - reflexivity.
  - reflexivity.
  - apply (script_nack_ack [x11] [x00] [x22]); [discriminate | cbn; lia].
  - apply (script_ack [x33]).
  - lia.
  - lia.
Defined.

End ChannelFacts.

(** * Properties of the command dispatcher and of the scheduler loop *)

Module ServerFacts.
Import Server.

(** Unfolds one branch of the dispatcher down to its primitive steps. *)
Ltac run_branch :=
  unfold dispatch; simpl;
  unfold read_or_write, use, float, int, str, throw, of_res, get, set;
  unfold mbind, P_bind, mret, P_ret; simpl.

Section Facts.
Context `{Collaborators}.

Lemma process_command_two (cmd f a : string) (asm0 : assembly) :
  last_char cmd = Some CR -> split cmd = [f; a] ->
  process_command cmd asm0 = dispatch cmd f (Some a) asm0.
Proof. intros Hl Hs. unfold process_command. rewrite Hl, Hs. reflexivity. Qed.

Lemma process_command_one (cmd f : string) (asm0 : assembly) :
  last_char cmd = Some CR -> split cmd = [f] ->
  process_command cmd asm0 = dispatch cmd f None asm0.
Proof. intros Hl Hs. unfold process_command. rewrite Hl, Hs. reflexivity. Qed.

(** Every branch that reads [s] raises when [s] is unbound. *)
Lemma dispatch_unbound (cmd f : string) (asm0 : assembly) :
  f ∈ argument_fields ->
  dispatch cmd f None asm0 = (Raise UnboundLocalError, asm0).
Proof.
  intros Hf. unfold argument_fields, float_fields, int_fields, str_fields in Hf.
  cbn [app] in Hf.
  repeat (apply elem_of_cons in Hf as [->|Hf]; [reflexivity|]).
  apply elem_of_nil in Hf. destruct Hf.
Qed.

(** A write whose argument does not parse raises [ValueError] before
    any attribute is assigned. *)
Lemma dispatch_bad_number (cmd f a : string) (asm0 : assembly) :
  a <> "?" ->
  (f ∈ float_fields /\ py_float a = None) \/
  (f ∈ int_fields /\ py_int a = None) ->
  dispatch cmd f (Some a) asm0 = (Raise ValueError, asm0).
Proof.
  intros Ha Hf. apply String.eqb_neq in Ha.
  destruct Hf as [[Hf Hp]|[Hf Hp]].
  - unfold float_fields in Hf.
    repeat (apply elem_of_cons in Hf as [->|Hf];
            [run_branch; rewrite Ha, Hp; reflexivity|]).
    apply elem_of_nil in Hf. destruct Hf.
  - unfold int_fields in Hf.
    repeat (apply elem_of_cons in Hf as [->|Hf];
            [run_branch; rewrite Ha, Hp; reflexivity|]).
    apply elem_of_nil in Hf. destruct Hf.
Qed.

(** A first token outside the chain is answered with the error string. *)
Lemma dispatch_unknown (cmd f : string) (s : option string) (asm0 : assembly) :
  f ∉ known_fields ->
  dispatch cmd f s asm0 = (Ok (VStr ("ERROR: bad command" ++ cmd)), asm0).
Proof.
  intros Hf.
  assert (Hne : forall g, g ∈ known_fields -> String.eqb f g = false).
  { intros g Hg. apply String.eqb_neq. intros ->. contradiction. }
  unfold dispatch.
  rewrite !Hne by (unfold known_fields, argument_fields, float_fields,
                     int_fields, str_fields; cbn [app]; repeat constructor).
  reflexivity.
Qed.

(** [PD:REGT z] with [z] other than 1 stores [z] in the flag. *)
Lemma dispatch_regt_off (cmd a : string) (z : Z) (asm0 : assembly) :
  a <> "?" -> py_int a = Some z -> z <> 1 ->
  dispatch cmd "PD:REGT" (Some a) asm0 =
    (Ok VNone, <["pid_regulating" := VInt z]> asm0).
Proof.
  intros Ha Hp Hz. apply String.eqb_neq in Ha.
  run_branch. rewrite Ha, Hp. simpl.
  destruct z as [|[]|]; try reflexivity. contradiction.
Qed.

(** The control part of a pass when the flag is false. *)
Lemma control_step_off (now now' : Q) (st : loop_state) (flag : pyval) :
  asm st !! "pid_regulating" = Some flag ->
  truthy flag = false ->
  control_step now now' st =
    (Ok tt, with_asm st (<["supply_set_voltage" := VInt 0]> (asm st))).
Proof.
  intros Hflag Hfalse. unfold control_step, get.
  rewrite Hflag, Hfalse. reflexivity.
Qed.

(** The control part of a pass when the flag is true, the period has
    elapsed and the control step raises. *)
Lemma control_step_raises (now now' : Q) (st : loop_state)
    (flag v : pyval) (period : Q) (e : exn) (a' : assembly) :
  asm st !! "pid_regulating" = Some flag ->
  truthy flag = true ->
  asm st !! "sample_time" = Some v ->
  as_number v = Ok period ->
  Qle_bool period (now - t0 st) = true ->
  update_supply (asm st) = (Raise e, a') ->
  control_step now now' st = (Raise e, with_asm st a').
Proof.
  intros Hflag Htrue Hv Hnum Hdue Hup. unfold control_step, get.
  rewrite Hflag, Htrue. unfold mbind, P_bind. rewrite Hv.
  unfold of_res. rewrite Hnum. cbn [mret P_ret]. rewrite Hdue, Hup.
  reflexivity.
Qed.

Lemma control_step_ok (now now' : Q) (st : loop_state)
    (flag v temp : pyval) (period : Q) (a' : assembly) :
  asm st !! "pid_regulating" = Some flag ->
  truthy flag = true ->
  asm st !! "sample_time" = Some v ->
  as_number v = Ok period ->
  Qle_bool period (now - t0 st) = true ->
  update_supply (asm st) = (Ok tt, a') ->
  a' !! "temp" = Some temp ->
  control_step now now' st =
    (Ok tt, Loop a' now' (sent st) (printed st ++ [temp])).
Proof.
  intros Hflag Htrue Hv Hnum Hdue Hup Htemp. unfold control_step, get.
  rewrite Hflag, Htrue. unfold mbind, P_bind. rewrite Hv.
  unfold of_res. rewrite Hnum. cbn [mret P_ret]. rewrite Hdue, Hup, Htemp.
  reflexivity.
Qed.

(** With the flag false and nothing arriving, every pass leaves the set
    voltage at zero and the flag as it was. *)
Lemma idle_run_off (inputs : list (Q * Q * res string)) (st : loop_state)
    (flag : pyval) :
  asm st !! "pid_regulating" = Some flag ->
  truthy flag = false ->
  Forall (fun i => i.2 = Raise BlockingIOError) inputs ->
  inputs <> [] ->
  exists st',
    main_loop inputs st = Continue st' /\
    asm st' !! "supply_set_voltage" = Some (VInt 0) /\
    asm st' !! "pid_regulating" = Some flag.
Proof.
  intros Hflag Hfalse Hall. revert st Hflag.
  induction Hall as [|[[now now'] rx] rest Hrx Hrest IH];
    intros st Hflag Hne; [contradiction|].
  cbn [snd] in Hrx. subst rx. cbn [main_loop]. unfold iteration.
  rewrite (control_step_off now now' st flag Hflag Hfalse).
  cbn [command_step].
  set (st1 := with_asm st (<["supply_set_voltage" := VInt 0]> (asm st))).
  assert (Hflag1 : asm st1 !! "pid_regulating" = Some flag).
  { unfold st1, with_asm. cbn [asm].
    rewrite lookup_insert_ne by discriminate. exact Hflag. }
  destruct rest as [|i rest].
  - exists st1. cbn [main_loop]. split; [reflexivity|]. split; [|exact Hflag1].
    unfold st1, with_asm. cbn [asm]. apply lookup_insert_eq.
  - apply (IH st1 Hflag1). discriminate.
Qed.

End Facts.

Lemma with_asm_same (st : loop_state) :
  with_asm st (asm st) = st.
Proof. destruct st; reflexivity. Qed.

Lemma last_char_nonempty (s : string) (c : ascii) :
  last_char s = Some c -> String.eqb s "" = false.
Proof. destruct s; [discriminate | reflexivity]. Qed.

(** C5 fails on the code: a write whose argument does not parse raises
    [ValueError], which the loop does not catch; nothing is written to
    the connection and the next command is never handled. *)
Lemma C5_counterexample_bad_float :
  let st := Loop (bench_asm 0) 0%Q [] [] in
  py_float (Collaborators := bench true) "abc" = None /\
  exists st',
    main_loop (H := bench true)
      [ (0%Q, 0%Q, Ok (line "PS:VSET abc"));
        (1%Q, 1%Q, Ok (line "PS:VSET ?")) ] st
    = Crash ValueError st' /\
    sent st' = [].
Proof. cbv zeta. split; [reflexivity|]. eexists. split; reflexivity. Qed.

(** C5, amended. An exception raised while a command is handled, other
    than [BlockingIOError], is not caught by the loop: the pass ends with
    that exception and the loop with it.  In particular a write command
    whose argument fails numeric parsing raises [ValueError] before
    anything is assigned; nothing is reported on the wire and no later
    pass runs.  A command handled without an exception leaves the loop
    running, its result, if any, written back with a carriage return. *)
Theorem C5_command_error_ends_loop `{Collaborators}
    (data f a : string) (st : loop_state) :
  last_char data = Some CR ->
  split data = [f; a] ->
  a <> "?" ->
  (f ∈ float_fields /\ py_float a = None) \/
  (f ∈ int_fields /\ py_int a = None) ->
  process_command data (asm st) = (Raise ValueError, asm st) /\
  command_step (Ok data) st = Crash ValueError st /\
  (forall now now' st0 rest,
      control_step now now' st0 = (Ok tt, st) ->
      main_loop ((now, now', Ok data) :: rest) st0 = Crash ValueError st) /\
  (forall data' e a',
      data' <> "" ->
      process_command data' (asm st) = (Raise e, a') ->
      e <> BlockingIOError ->
      command_step (Ok data') st = Crash e (with_asm st a')) /\
  (forall data' f' rest',
      last_char data' = Some CR ->
      split data' = f' :: rest' ->
      f' ∉ known_fields ->
      command_step (Ok data') st =
        Continue (Loop (asm st) (t0 st)
                    (sent st ++
                     [(py_str (VStr ("ERROR: bad command" ++ data'))
                       ++ String CR "")%string])
                    (printed st))) /\
  (forall data' out a',
      data' <> "" ->
      process_command data' (asm st) = (Ok out, a') ->
      exists st',
        command_step (Ok data') st = Continue st' /\
        asm st' = a' /\
        sent st' =
          match out with
          | VNone => sent st
          | _ => sent st ++ [(py_str out ++ String CR "")%string]
          end).
Proof.
  intros Hl Hs Ha Hf.
  assert (Hpc : process_command data (asm st) = (Raise ValueError, asm st)).
  { rewrite (process_command_two data f a _ Hl Hs).
    apply dispatch_bad_number; assumption. }
  assert (Hcs : command_step (Ok data) st = Crash ValueError st).
  { unfold command_step. rewrite (last_char_nonempty _ _ Hl), Hpc.
    rewrite with_asm_same. reflexivity. }
  split; [exact Hpc|]. split; [exact Hcs|]. split; [|split; [|split]].
  - intros now now' st0 rest Hctl. cbn [main_loop]. unfold iteration.
    rewrite Hctl, Hcs. reflexivity.
  - intros data' e a' Hne Hp He. unfold command_step.
    apply String.eqb_neq in Hne. rewrite Hne, Hp.
    destruct e; try reflexivity. contradiction.
  - intros data' f' rest' Hl' Hs' Hf'. unfold command_step.
    rewrite (last_char_nonempty _ _ Hl'). unfold process_command.
    rewrite Hl', Hs'.
    replace (Ascii.eqb CR CR) with true by reflexivity. cbn [negb].
    destruct rest' as [|a1 [|a2 rest']]; rewrite dispatch_unknown by exact Hf';
      reflexivity.
  - intros data' out a' Hne Hp. unfold command_step.
    apply String.eqb_neq in Hne. rewrite Hne, Hp.
    destruct out; eexists; (split; [reflexivity|]); split; reflexivity.
Qed.

Lemma C5_command_error_ends_loop_witness :
  command_step (H := bench true) (Ok (line "PD:SETP 25,5"))
    (Loop (bench_asm 1) 0%Q [] [])
  = Crash ValueError (Loop (bench_asm 1) 0%Q [] []).
Proof.
  refine (proj1 (proj2 (C5_command_error_ends_loop (H := bench true)
                          (line "PD:SETP 25,5") "PD:SETP" "25,5"
                          (Loop (bench_asm 1) 0%Q [] [])
                          eq_refl eq_refl _ _))).
  - discriminate.
  - left. split; [|reflexivity].
    unfold float_fields. repeat constructor.
Defined.

(** C6. While the regulating flag is false, every pass of the loop sets
    the supply set voltage to zero without calling the controller,
    whatever the controller would output; after [PD:REGT 0] the flag is
    false, so the next pass does so; and with nothing arriving the
    voltage stays zero pass after pass. *)
Theorem C6_regulation_off_forces_zero `{Collaborators}
    (st : loop_state) (flag : pyval) :
  asm st !! "pid_regulating" = Some flag ->
  truthy flag = false ->
  (forall now now' rx,
      exists st1,
        control_step now now' st = (Ok tt, st1) /\
        asm st1 = <["supply_set_voltage" := VInt 0]> (asm st) /\
        asm st1 !! "supply_set_voltage" = Some (VInt 0) /\
        iteration now now' rx st = command_step rx st1) /\
  (forall inputs,
      Forall (fun i => i.2 = Raise BlockingIOError) inputs ->
      inputs <> [] ->
      exists st',
        main_loop inputs st = Continue st' /\
        asm st' !! "supply_set_voltage" = Some (VInt 0) /\
        asm st' !! "pid_regulating" = Some flag) /\
  (forall st0 cmd a now now',
      last_char cmd = Some CR ->
      split cmd = ["PD:REGT"; a] ->
      a <> "?" ->
      py_int a = Some 0 ->
      exists st1 st2,
        command_step (Ok cmd) st0 = Continue st1 /\
        asm st1 !! "pid_regulating" = Some (VInt 0) /\
        control_step now now' st1 = (Ok tt, st2) /\
        asm st2 !! "supply_set_voltage" = Some (VInt 0)).
Proof.
  intros Hflag Hfalse. split; [|split].
  - intros now now' rx. eexists. split; [|split; [|split]].
    + apply (control_step_off now now' st flag Hflag Hfalse).
    + reflexivity.
    + cbn [with_asm asm]. apply lookup_insert_eq.
    + unfold iteration.
      rewrite (control_step_off now now' st flag Hflag Hfalse). reflexivity.
  - intros inputs Hall Hne.
    exact (idle_run_off inputs st flag Hflag Hfalse Hall Hne).
  - intros st0 cmd a now now' Hl Hs Ha Hp.
    assert (Hpc : process_command cmd (asm st0) =
                  (Ok VNone, <["pid_regulating" := VInt 0]> (asm st0))).
    { rewrite (process_command_two cmd "PD:REGT" a _ Hl Hs).
      apply dispatch_regt_off; [exact Ha | exact Hp | discriminate]. }
    set (st1 := with_asm st0 (<["pid_regulating" := VInt 0]> (asm st0))).
    assert (Hflag1 : asm st1 !! "pid_regulating" = Some (VInt 0)).
    { unfold st1. cbn [with_asm asm]. apply lookup_insert_eq. }
    exists st1, (with_asm st1 (<["supply_set_voltage" := VInt 0]> (asm st1))).
    split; [|split; [exact Hflag1|split]].
    + unfold command_step. rewrite (last_char_nonempty _ _ Hl), Hpc.
      reflexivity.
    + apply (control_step_off now now' st1 (VInt 0) Hflag1). reflexivity.
    + cbn [with_asm asm]. apply lookup_insert_eq.
Qed.

Lemma C6_regulation_off_forces_zero_witness :
  exists st',
    main_loop (H := bench true)
      [ (5%Q, 5%Q, Raise BlockingIOError); (9%Q, 9%Q, Raise BlockingIOError) ]
      (Loop (bench_asm 0) 0%Q [] [])
    = Continue st' /\
    asm st' !! "supply_set_voltage" = Some (VInt 0) /\
    asm st' !! "pid_regulating" = Some (VInt 0).
Proof.
  refine (proj1 (proj2 (C6_regulation_off_forces_zero (H := bench true)
                          (Loop (bench_asm 0) 0%Q [] []) (VInt 0)
                          eq_refl eq_refl)) _ _ _).
  - repeat constructor.
  - discriminate.
Defined.

(** C7 fails on the code: with regulation on and the period elapsed, a
    control step whose device call fails ends the loop with that
    exception; nothing is printed and the second pass never runs. *)
Lemma C7_counterexample_device_failure :
  let st := Loop (bench_asm 1) 0%Q [] [] in
  update_supply (Collaborators := bench false) (asm st)
    = (Raise (OtherError "timeout"), asm st) /\
  main_loop (H := bench false)
    [ (5%Q, 5%Q, Raise BlockingIOError); (9%Q, 9%Q, Raise BlockingIOError) ] st
  = Crash (OtherError "timeout") st.
Proof. cbv zeta. split; reflexivity. Qed.

(** C7, amended. In a pass where regulation is on and the sample period
    has elapsed, a device call that fails inside the control step is not
    caught by the loop: nothing is printed or sent, the exception ends
    that pass and the loop, and no later tick runs.  When the control
    step succeeds the temperature is printed, the timer restarts and the
    pass goes on to the command check. *)
Theorem C7_control_step_failure_ends_loop `{Collaborators}
    (now now' : Q) (st : loop_state) (flag v : pyval) (period : Q) :
  asm st !! "pid_regulating" = Some flag ->
  truthy flag = true ->
  asm st !! "sample_time" = Some v ->
  as_number v = Ok period ->
  Qle_bool period (now - t0 st) = true ->
  (forall e a' rx rest,
      update_supply (asm st) = (Raise e, a') ->
      iteration now now' rx st = Crash e (with_asm st a') /\
      main_loop ((now, now', rx) :: rest) st = Crash e (with_asm st a') /\
      printed (with_asm st a') = printed st /\
      sent (with_asm st a') = sent st) /\
  (forall a' temp rx,
      update_supply (asm st) = (Ok tt, a') ->
      a' !! "temp" = Some temp ->
      iteration now now' rx st =
        command_step rx (Loop a' now' (sent st) (printed st ++ [temp]))).
Proof.
  intros Hflag Htrue Hv Hnum Hdue. split.
  - intros e a' rx rest Hup.
    pose proof (control_step_raises now now' st flag v period e a'
                  Hflag Htrue Hv Hnum Hdue Hup) as Hctl.
    assert (Hit : iteration now now' rx st = Crash e (with_asm st a')).
    { unfold iteration. rewrite Hctl. reflexivity. }
    split; [exact Hit|]. split; [|split; reflexivity].
    cbn [main_loop]. rewrite Hit. reflexivity.
  - intros a' temp rx Hup Htemp. unfold iteration.
    rewrite (control_step_ok now now' st flag v temp period a'
               Hflag Htrue Hv Hnum Hdue Hup Htemp).
    reflexivity.
Qed.

Lemma C7_control_step_failure_ends_loop_witness :
  iteration (H := bench false) 5%Q 5%Q (Ok (line "PD:REGT ?"))
    (Loop (bench_asm 1) 0%Q [] [])
  = Crash (OtherError "timeout") (Loop (bench_asm 1) 0%Q [] []).
Proof.
  refine (proj1 (proj1 (C7_control_step_failure_ends_loop (H := bench false)
                          5%Q 5%Q (Loop (bench_asm 1) 0%Q [] [])
                          (VInt 1) (VInt 1) 1%Q
                          eq_refl eq_refl eq_refl eq_refl eq_refl)
                   (OtherError "timeout") (bench_asm 1)
                   (Ok (line "PD:REGT ?")) [] eq_refl)).
Defined.

(** C9. For every carriage-return-terminated line that is a single token
    naming a field whose branch reads the argument (such as [PS:VSET]
    alone), the dispatcher neither returns a value nor an error string:
    it raises the unbound-local error, because the argument variable is
    assigned only when the line splits in exactly two tokens; the
    assembly is left as it was. *)
Theorem C9_single_token_unbound_local `{Collaborators}
    (cmd f : string) (asm0 : assembly) :
  last_char cmd = Some CR ->
  split cmd = [f] ->
  f ∈ argument_fields ->
  process_command cmd asm0 = (Raise UnboundLocalError, asm0).
Proof.
  intros Hl Hs Hf. rewrite (process_command_one cmd f asm0 Hl Hs).
  apply dispatch_unbound, Hf.
Qed.

Lemma C9_single_token_unbound_local_witness :
  process_command (H := bench true) (line "PS:VSET") (bench_asm 0)
  = (Raise UnboundLocalError, bench_asm 0).
Proof.
  apply (C9_single_token_unbound_local (H := bench true)
           (line "PS:VSET") "PS:VSET" (bench_asm 0)).
  - reflexivity.
  - reflexivity.
  - unfold argument_fields, float_fields. cbn [app]. repeat constructor.
Defined.

End ServerFacts.

(** * Further properties of the gaussmeter channel *)

Module GaussmeterFacts.
Import Channel Gaussmeter ChannelFacts.

Section Loops.
Context {T : Type} `{Transport T}.

(** The first loop against a device that never acknowledges: every pass
    is spent and counted. *)
Lemma ack_loop_never (frame : list byte) (len : nat) (Inv : T -> Prop)
    (qry : string) :
  Py.fromhex (Py.str_mul qry 6) = Ok frame ->
  never_answers [x08] frame len Inv ->
  forall (fuel c : nat) (p : T) (lg : list io) (ro : option (list byte))
         (ack : list byte),
    Inv p -> ack <> [x08] ->
    exists p' lg',
      ack_loop fuel qry len ro ack (State c p lg) =
        (OutOfFuel, State (c + fuel) p' (lg ++ lg')) /\
      Inv p' /\ exchanges frame len fuel lg'.
Proof.
  intros Hframe Hdev. induction fuel as [|fuel IH];
    intros c p lg ro ack Hp Hack.
  - exists p, []. cbn [ack_loop]. rewrite decide_False by exact Hack.
    rewrite Nat.add_0_r, app_nil_r.
    split; [reflexivity|]. split; [exact Hp|reflexivity].
  - destruct (Hdev p Hp) as (p1 & r & p2 & a & p3 & Hw & Hr & Ha & Hne & Hp3).
    rewrite (ack_loop_pass _ _ _ _ _ _ _ _ _ _ _ _ _ _ Hack Hframe Hw Hr Ha).
    rewrite decide_False by exact Hne.
    destruct (IH (S c) p3 (lg ++ [Wrote frame; Read len r; Read 1 a])
                (Some r) a Hp3 Hne) as (p' & lg' & Hrun & Hp' & Hex).
    exists p', ([Wrote frame; Read len r; Read 1 a] ++ lg').
    rewrite Hrun, <- app_assoc.
    replace (S c + fuel)%nat with (c + S fuel)%nat by lia.
    split; [reflexivity|]. split; [exact Hp'|].
    cbn [app exchanges]. eauto.
Qed.

(** The second loop against a device that never completes. *)
Lemma continue_loop_never (len : nat) (Inv : T -> Prop) :
  never_answers [x07] (repeat x08 6) len Inv ->
  forall (fuel c : nat) (p : T) (lg : list io) (r0 ack : list byte),
    Inv p -> ack <> [x07] ->
    exists s',
      continue_loop fuel len (Some r0) ack (State c p lg) = (OutOfFuel, s') /\
      error_count s' = c /\ Inv (port s').
Proof.
  intros Hdev. induction fuel as [|fuel IH]; intros c p lg r0 ack Hp Hack.
  - eexists. cbn [continue_loop]. rewrite decide_False by exact Hack.
    split; [reflexivity|]. split; [reflexivity|exact Hp].
  - destruct (Hdev p Hp) as (p1 & r & p2 & a & p3 & Hw & Hr & Ha & Hne & Hp3).
    rewrite (continue_loop_pass _ _ _ _ _ _ _ _ _ _ _ _ Hack Hw Hr Ha).
    apply IH; assumption.
Qed.

End Loops.

Lemma qry_dict_unknown (name : string) :
  name ∉ query_names -> qry_dict !! name = None.
Proof. intros Hn. apply not_elem_of_list_to_map_1. exact Hn. Qed.

Lemma cmd_dict_unknown (name : string) :
  name ∉ command_names -> cmd_dict !! name = None.
Proof. intros Hn. apply not_elem_of_list_to_map_1. exact Hn. Qed.

Lemma cmd_dict_known (name : string) :
  name ∈ command_names -> cmd_dict !! name = Some "FF".
Proof.
  intros Hn. unfold command_names in Hn.
  repeat (apply elem_of_cons in Hn as [->|Hn]; [reflexivity|]).
  apply elem_of_nil in Hn. destruct Hn.
Qed.

(** X1. A name outside the twelve spellings [query] knows, or outside the
    three [command] knows, is rejected with [ValueError] before anything
    is written or read: the stream, the call log and the failure counter
    are untouched, whatever the iteration budget. *)
Theorem X1_unknown_names_rejected {T : Type} `{Transport T}
    (name : string) (s : state T) :
  (name ∉ query_names ->
   forall fuel, query fuel name s = (Raised ValueError, s)) /\
  (name ∉ command_names -> command name s = (Raised ValueError, s)).
Proof.
  split.
  - intros Hn fuel. unfold query. rewrite (qry_dict_unknown name Hn).
    reflexivity.
  - intros Hn. unfold command. rewrite (cmd_dict_unknown name Hn).
    reflexivity.
Qed.

Lemma X1_unknown_names_rejected_witness :
  query 3 "05" (State 2 ([[x01]; [x08]] : script) []) =
    (Raised ValueError, State 2 [[x01]; [x08]] []) /\
  command "KILL" (State 2 ([[x01]; [x08]] : script) []) =
    (Raised ValueError, State 2 [[x01]; [x08]] []).
Proof.
  destruct (X1_unknown_names_rejected (T := script) "05"
              (State 2 [[x01]; [x08]] [])) as [Hq _].
  destruct (X1_unknown_names_rejected (T := script) "KILL"
              (State 2 [[x01]; [x08]] [])) as [_ Hc].
  split.
  - apply Hq. unfold query_names. intros Hin.
    repeat (apply elem_of_cons in Hin as [Hin|Hin]; [discriminate Hin|]).
    apply elem_of_nil in Hin. exact Hin.
  - apply Hc. unfold command_names. intros Hin.
    repeat (apply elem_of_cons in Hin as [Hin|Hin]; [discriminate Hin|]).
    apply elem_of_nil in Hin. exact Hin.
Defined.

(** X2. The acknowledgment retry of [query] is unbounded: against a device
    that never answers 0x08, [query] does not return or raise within any
    number of passes; every pass retransmits the request, reads the reply
    and adds one to the failure counter. *)
Theorem X2_query_never_acknowledged {T : Type} `{Transport T}
    (command qry : string) :
  qry_dict !! command = Some qry ->
  exists (len : nat) (op : byte),
    read_length_dict !! qry = Some len /\
    Py.fromhex qry = Ok [op] /\
    forall (Inv : T -> Prop) (p : T) (fuel c : nat) (lg : list io),
      never_answers [x08] (repeat op 6) len Inv ->
      Inv p ->
      exists p' lg',
        query fuel command (State c p lg) =
          (OutOfFuel, State (c + fuel) p' (lg ++ lg')) /\
        exchanges (repeat op 6) len fuel lg'.
Proof.
  intros Hq.
  destruct (qry_table qry (qry_dict_range _ _ Hq))
    as (len & op & Hlen & Hop & Hframe & _).
  exists len, op. split; [exact Hlen|]. split; [exact Hop|].
  intros Inv p fuel c lg Hdev Hp.
  destruct (ack_loop_never _ _ _ _ Hframe Hdev fuel c p lg None []
              Hp ltac:(discriminate)) as (p' & lg' & Hrun & _ & Hex).
  exists p', lg'. unfold query. rewrite Hq, Hlen.
  unfold mbind, M_bind. rewrite Hrun. auto.
Qed.

Lemma silent_script_never_answers (marker frame : list byte) (len : nat) :
  marker <> [] ->
  never_answers marker frame len (fun p : script => p = []).
Proof.
  intros Hm p ->. exists [], [], [], [], [].
  repeat split; try reflexivity. intros E. apply Hm. symmetry. exact E.
Qed.

Lemma X2_query_never_acknowledged_witness :
  exists p' lg',
    query 4 "STREAM_DATA" (State 0 ([] : script) []) =
      (OutOfFuel, State 4 p' lg') /\
    exchanges (repeat x03 6) 30 4 lg'.
Proof.
  destruct (X2_query_never_acknowledged (T := script) "STREAM_DATA" "03"
              eq_refl) as (len & op & Hlen & Hop & Hrun).
  assert (len = 30%nat) as -> by (vm_compute in Hlen; congruence).
  assert (op = x03) as -> by (vm_compute in Hop; congruence).
  destruct (Hrun (fun p : script => p = []) [] 4%nat 0%nat []
              (silent_script_never_answers [x08] _ _ ltac:(discriminate))
              eq_refl) as (p' & lg' & Hq & Hex).
  exists p', lg'. split; [exact Hq | exact Hex].
Defined.

(** X3. The continuation loop of a multi-frame query (identity, settings)
    is unbounded too, and failures in it are not counted: once the request
    is acknowledged after N failed attempts, against a device that never
    answers 0x07 the call is still looping after any number of passes and
    the failure counter stays at its value plus N. *)
Theorem X3_continuation_never_completes {T : Type} `{Transport T}
    (command qry : string) (len N : nat) (op : byte)
    (p : T) (r : list byte) (p1 : T) (Inv : T -> Prop)
    (fuel c : nat) (lg : list io) :
  qry_dict !! command = Some qry ->
  qry = "01" \/ qry = "02" ->
  read_length_dict !! qry = Some len ->
  Py.fromhex qry = Ok [op] ->
  nacks_then_ack (repeat op 6) len N p r p1 ->
  never_answers [x07] (repeat x08 6) len Inv ->
  Inv p1 ->
  (N < fuel)%nat ->
  exists s',
    query fuel command (State c p lg) = (OutOfFuel, s') /\
    error_count s' = (c + N)%nat.
Proof.
  intros Hq H12 Hlen Hop Hdev Hnever Hp1 Hfuel.
  assert (Hframe : Py.fromhex (Py.str_mul qry 6) = Ok (repeat op 6)).
  { destruct H12 as [-> | ->]; vm_compute in Hop; injection Hop as <-;
      reflexivity. }
  destruct (ack_loop_run _ _ _ _ _ _ Hdev qry fuel c lg None [] Hframe
              ltac:(discriminate) Hfuel) as (lg1 & Hrun & _).
  unfold query. rewrite Hq, Hlen. unfold mbind, M_bind. rewrite Hrun.
  rewrite decide_False
    by (intros [E|E]; destruct H12 as [E'|E']; rewrite E in E';
        discriminate E').
  destruct (continue_loop_never len Inv Hnever fuel (c + N)%nat p1
              (lg ++ lg1) r [x08] Hp1 ltac:(discriminate))
    as (s' & Hrun2 & Hcount & _).
  exists s'. split; [exact Hrun2 | exact Hcount].
Qed.

Lemma X3_continuation_never_completes_witness :
  exists s',
    query 5 "ID_METER_PROP" (State 7 ([[x41]; [x08]] : script) []) =
      (OutOfFuel, s') /\
    error_count s' = 7%nat.
Proof.
  apply (X3_continuation_never_completes (T := script)
           "ID_METER_PROP" "01" 20 0 x01 [[x41]; [x08]] [x41] []
           (fun p : script => p = []) 5 7 []).
  - reflexivity.
  - left. reflexivity.
  - reflexivity.
  - reflexivity.
  - apply (script_ack [x41]).
  - apply silent_script_never_answers. discriminate.
  - reflexivity.
  - lia.
Defined.

Lemma self_write_raise {T : Type} `{Transport T} (data : list byte)
    (e : exn) (c : nat) (p p1 : T) (lg : list io) :
  write data p = (Raise e, p1) ->
  self_write data (State c p lg) = (Raised e, State c p1 (lg ++ [Wrote data])).
Proof. intros Hw. unfold self_write. cbn [port]. rewrite Hw. reflexivity. Qed.

Lemma self_read_raise {T : Type} `{Transport T} (size : nat)
    (e : exn) (c : nat) (p p1 : T) (lg : list io) :
  read size p = (Raise e, p1) ->
  self_read size (State c p lg) =
    (Raised e, State c p1 (lg ++ [Read size []])).
Proof. intros Hr. unfold self_read. cbn [port]. rewrite Hr. reflexivity. Qed.

(** X4. An exception from the stream is not a failed attempt: when the
    write, the data read or the acknowledgment read of the first pass
    raises, [query] raises that same exception at once, makes no further
    call on the stream and leaves the failure counter as it was. *)
Theorem X4_stream_error_not_retried {T : Type} `{Transport T}
    (command qry : string) (len : nat) (op : byte) (e : exn)
    (fuel c : nat) (p : T) (lg : list io) :
  qry_dict !! command = Some qry ->
  read_length_dict !! qry = Some len ->
  Py.fromhex qry = Ok [op] ->
  (forall p1,
      write (repeat op 6) p = (Raise e, p1) ->
      query (S fuel) command (State c p lg) =
        (Raised e, State c p1 (lg ++ [Wrote (repeat op 6)]))) /\
  (forall p1 p2,
      write (repeat op 6) p = (Ok tt, p1) ->
      read len p1 = (Raise e, p2) ->
      query (S fuel) command (State c p lg) =
        (Raised e, State c p2 (lg ++ [Wrote (repeat op 6); Read len []]))) /\
  (forall p1 r p2 p3,
      write (repeat op 6) p = (Ok tt, p1) ->
      read len p1 = (Ok r, p2) ->
      read 1 p2 = (Raise e, p3) ->
      query (S fuel) command (State c p lg) =
        (Raised e,
         State c p3 (lg ++ [Wrote (repeat op 6); Read len r; Read 1 []]))).
Proof.
  intros Hq Hlen Hop.
  assert (Hframe : Py.fromhex (Py.str_mul qry 6) = Ok (repeat op 6)).
  { destruct (qry_dict_range _ _ Hq) as [-> | [-> | [-> | ->]]];
      vm_compute in Hop; injection Hop as <-; reflexivity. }
  assert (Hnil : ([] : list byte) <> [x08]) by discriminate.
  split; [|split].
  - intros p1 Hw. unfold query. rewrite Hq, Hlen. cbn [ack_loop].
    rewrite decide_False by exact Hnil.
    unfold mbind, M_bind. rewrite Hframe. cbn [lift mret M_ret].
    rewrite (self_write_raise _ _ _ _ _ _ Hw). reflexivity.
  - intros p1 p2 Hw Hr. unfold query. rewrite Hq, Hlen. cbn [ack_loop].
    rewrite decide_False by exact Hnil.
    unfold mbind, M_bind. rewrite Hframe. cbn [lift mret M_ret].
    rewrite (self_write_ok _ _ _ _ _ Hw), (self_read_raise _ _ _ _ _ _ Hr).
    rewrite <- app_assoc. reflexivity.
  - intros p1 r p2 p3 Hw Hr Ha. unfold query. rewrite Hq, Hlen.
    cbn [ack_loop]. rewrite decide_False by exact Hnil.
    unfold mbind, M_bind. rewrite Hframe. cbn [lift mret M_ret].
    rewrite (self_write_ok _ _ _ _ _ Hw), (self_read_ok _ _ _ _ _ _ Hr),
      (self_read_raise _ _ _ _ _ _ Ha).
    rewrite <- !app_assoc. reflexivity.
Qed.

Lemma X4_stream_error_not_retried_witness :
  query 9 "STREAM_DATA" (State 3 Dead []) =
    (Raised (OtherError "port closed"),
     State 3 Dead [Wrote (repeat x03 6)]).
Proof.
  refine (proj1 (X4_stream_error_not_retried (T := dead_link)
                   "STREAM_DATA" "03" 30 x03 (OtherError "port closed")
                   8 3 Dead [] eq_refl eq_refl eq_refl) Dead eq_refl).
Defined.

(** X5. [command] with any of its three accepted names writes the kill
    frame, 0xFF six times, exactly once; it reads nothing, does not touch
    the failure counter and waits for no acknowledgment.  If the write
    raises, [command] raises the same exception. *)
Theorem X5_command_writes_kill_frame {T : Type} `{Transport T}
    (name : string) (c : nat) (p : T) (lg : list io) :
  name ∈ command_names ->
  (forall p1,
      write (repeat xff 6) p = (Ok tt, p1) ->
      command name (State c p lg) =
        (Returned tt, State c p1 (lg ++ [Wrote (repeat xff 6)]))) /\
  (forall e p1,
      write (repeat xff 6) p = (Raise e, p1) ->
      command name (State c p lg) =
        (Raised e, State c p1 (lg ++ [Wrote (repeat xff 6)]))).
Proof.
  intros Hn. unfold command. rewrite (cmd_dict_known name Hn).
  replace (Py.fromhex (Py.str_mul "FF" 6)) with
    (Ok (repeat xff 6) : res (list byte)) by reflexivity.
  unfold mbind, M_bind. cbn [lift mret M_ret]. split.
  - intros p1 Hw. rewrite (self_write_ok _ _ _ _ _ Hw). reflexivity.
  - intros e p1 Hw. rewrite (self_write_raise _ _ _ _ _ _ Hw). reflexivity.
Qed.

Lemma X5_command_writes_kill_frame_witness :
  command "KILL_ALL_PROCESS" (State 1 ([[x41]] : script) []) =
    (Returned tt, State 1 [[x41]] [Wrote (repeat xff 6)]).
Proof.
  refine (proj1 (X5_command_writes_kill_frame (T := script)
                   "KILL_ALL_PROCESS" 1 [[x41]] [] _) [[x41]] eq_refl).
  unfold command_names. repeat constructor.
Defined.

(** X6. [get_instantenous_data] end to end: against a device that
    acknowledges the stream request on attempt N + 1 with payload [r], it
    returns one reading per complete 6-byte section of [r], each the value
    sign * digits * 10^(-exponent), having raised the failure counter by
    N; a full 30-byte payload gives exactly 5 readings, and a payload cut
    short by a timeout gives fewer, without any error. *)
Theorem X6_get_instantenous_data_readings {T : Type} `{Transport T}
    (N : nat) (p : T) (r : list byte) (p1 : T) (fuel c : nat)
    (lg : list io) :
  nacks_then_ack (repeat x03 6) 30 N p r p1 ->
  (N < fuel)%nat ->
  exists lg1,
    get_instantenous_data fuel (State c p lg) =
      (Returned (map Decoder.spec_value (Decoder.sections r)),
       State (c + N) p1 (lg ++ lg1)) /\
    length (map Decoder.spec_value (Decoder.sections r)) = (length r / 6)%nat /\
    (length r = 30%nat ->
     length (map Decoder.spec_value (Decoder.sections r)) = 5%nat).
Proof.
  intros Hdev Hfuel.
  destruct (query_run "STREAM_DATA" "03" 30 x03 N p r p1 fuel c lg
              eq_refl eq_refl eq_refl Hdev Hfuel) as [Hs _].
  destruct (Hs (or_introl eq_refl)) as (lg1 & Hrun & _).
  exists lg1. unfold get_instantenous_data, mbind, M_bind. rewrite Hrun.
  rewrite DecoderFacts.decode_sections. cbn [lift mret M_ret].
  split; [reflexivity|].
  assert (Hlen : length (map Decoder.spec_value (Decoder.sections r))
                 = (length r / 6)%nat).
  { rewrite length_map. apply DecoderFacts.sections_from_length. }
  split; [exact Hlen|]. intros H30. rewrite Hlen, H30. reflexivity.
Qed.

Lemma X6_get_instantenous_data_readings_witness :
  exists lg1,
    get_instantenous_data 2
      (State 0 ([[x00; x08; x00; x00; x27; x10; xaa]; [x08]] : script) []) =
      (Returned [inject_Z (-10000)], State 0 [] lg1).
Proof.
  destruct (X6_get_instantenous_data_readings (T := script) 0
              [[x00; x08; x00; x00; x27; x10; xaa]; [x08]]
              [x00; x08; x00; x00; x27; x10; xaa] [] 2 0 []
              (script_ack [x00; x08; x00; x00; x27; x10; xaa] _ 30 [])
              ltac:(lia)) as (lg1 & Hrun & _).
  exists lg1. exact Hrun.
Defined.

(** X7. [get_instantenous_data_t0] asks for 31 bytes (the reply length of
    the reset opcode) and decodes them with the same loop: of a full
    31-byte payload it returns exactly 5 readings, those of the first 30
    bytes; the 31st byte is read from the device and then ignored. *)
Theorem X7_get_instantenous_data_t0_readings {T : Type} `{Transport T}
    (N : nat) (p : T) (r : list byte) (p1 : T) (fuel c : nat)
    (lg : list io) :
  nacks_then_ack (repeat x04 6) 31 N p r p1 ->
  (N < fuel)%nat ->
  length r = 31%nat ->
  exists lg1,
    get_instantenous_data_t0 fuel (State c p lg) =
      (Returned (map Decoder.spec_value (Decoder.sections (take 30 r))),
       State (c + N) p1 (lg ++ lg1)) /\
    length (map Decoder.spec_value (Decoder.sections (take 30 r))) = 5%nat /\
    exchanges (repeat x04 6) 31 (S N) lg1.
Proof.
  intros Hdev Hfuel H31.
  destruct (query_run "RESET_TIME" "04" 31 x04 N p r p1 fuel c lg
              eq_refl eq_refl eq_refl Hdev Hfuel) as [Hs _].
  destruct (Hs (or_intror eq_refl)) as (lg1 & Hrun & Hex).
  exists lg1. unfold get_instantenous_data_t0, mbind, M_bind. rewrite Hrun.
  rewrite DecoderFacts.decode_sections. cbn [lift mret M_ret].
  assert (Hsec : Decoder.sections (take 30 r) = Decoder.sections r).
  { unfold Decoder.sections. rewrite length_take, H31. cbn [Nat.min].
    change (Nat.min 30 31 / 6)%nat with 5%nat.
    change (31 / 6)%nat with 5%nat.
    apply DecoderFacts.sections_from_take. lia. }
  rewrite Hsec. split; [reflexivity|]. split; [|exact Hex].
  rewrite length_map. unfold Decoder.sections.
  rewrite DecoderFacts.sections_from_length, H31. reflexivity.
Qed.

Lemma X7_get_instantenous_data_t0_readings_witness :
  let r := repeat x00 24 ++ [x00; x0b; x00; x00; x04; xd2; xee] in
  exists lg1,
    (get_instantenous_data_t0 1 (State 0 ([r; [x08]] : script) [])).1 =
      Returned (map Decoder.spec_value (Decoder.sections (take 30 r))) /\
    exchanges (repeat x04 6) 31 1 lg1.
Proof.
  cbv zeta.
  destruct (X7_get_instantenous_data_t0_readings (T := script) 0
              [repeat x00 24 ++ [x00; x0b; x00; x00; x04; xd2; xee]; [x08]]
              (repeat x00 24 ++ [x00; x0b; x00; x00; x04; xd2; xee]) []
              1 0 []
              (script_ack
                 (repeat x00 24 ++ [x00; x0b; x00; x00; x04; xd2; xee])
                 _ 31 [])
              ltac:(lia) eq_refl) as (lg1 & Hrun & _ & Hex).
  exists lg1. rewrite Hrun. split; [reflexivity | exact Hex].
Defined.

End GaussmeterFacts.

(** * Further properties of the sample decoder *)

Module DecoderMore.
Import Decoder DecoderFacts.

Lemma sections_from_app (k1 k2 : nat) (a b : list byte) :
  length a = (6 * k1)%nat ->
  sections_from (k1 + k2) (a ++ b) = sections_from k1 a ++ sections_from k2 b.
Proof.
  revert a. induction k1 as [|k1 IH]; intros a Ha.
  - destruct a; [reflexivity | discriminate Ha].
  - cbn [Nat.add sections_from app].
    rewrite take_app_le, drop_app_le by lia.
    rewrite IH by (rewrite length_drop; lia). reflexivity.
Qed.

Lemma sections_app (a b : list byte) :
  (length a mod 6)%nat = 0%nat ->
  sections (a ++ b) = sections a ++ sections b.
Proof.
  intros Ha. pose proof (Nat.div_mod_eq (length a) 6) as Hdm.
  unfold sections. rewrite length_app.
  replace (length a + length b)%nat
    with (length a / 6 * 6 + length b)%nat by lia.
  rewrite Nat.div_add_l by lia.
  apply sections_from_app. lia.
Qed.

(** X8. Decoding composes over whole sections: when the first buffer is a
    whole number of 6-byte sections, the readings of a concatenation are
    the readings of the first buffer followed by those of the second, so a
    reading depends only on its own section. *)
Theorem X8_decode_app (a b : list byte) :
  (length a mod 6)%nat = 0%nat ->
  exists ra rb,
    decode a = Ok ra /\ decode b = Ok rb /\ decode (a ++ b) = Ok (ra ++ rb).
Proof.
  intros Ha. exists (map spec_value (sections a)), (map spec_value (sections b)).
  rewrite !decode_sections, (sections_app a b Ha), map_app. auto.
Qed.

Lemma X8_decode_app_witness :
  decode ([x00; x08; x00; x00; x27; x10] ++ [x00; x03; x00; x00; x04; xd2; xff])
  = Ok ([inject_Z (-10000)] ++ [Qmake 1234 1000]).
Proof.
  destruct (X8_decode_app [x00; x08; x00; x00; x27; x10]
              [x00; x03; x00; x00; x04; xd2; xff] eq_refl)
    as (ra & rb & Hra & Hrb & Hab).
  rewrite Hab. vm_compute in Hra, Hrb.
  injection Hra as <-. injection Hrb as <-. reflexivity.
Defined.

Lemma spec_fields_range (sec : list byte) :
  let '(sign, digits, exponent) := spec_fields sec in
  (sign = 1 \/ sign = -1) /\ 0 <= digits <= 4294967295 /\ 0 <= exponent <= 7.
Proof.
  unfold spec_fields.
  destruct sec as [|b1 [|b2 [|b3 [|b4 [|b5 [|b6 [|b7 t]]]]]]];
    try (split; [left; reflexivity | split; lia]).
  pose proof (byte_Z_range b3). pose proof (byte_Z_range b4).
  pose proof (byte_Z_range b5). pose proof (byte_Z_range b6).
  split; [destruct (Z.testbit (Py.byte_Z b2) 3); auto|].
  split; [lia|]. destruct b2; vm_compute; split; discriminate.
Qed.

Lemma magnitude_value (e : Z) :
  0 <= e <= 7 -> Qpower (inject_Z 10) (- e) = Qmake 1 (Z.to_pos (10 ^ e)).
Proof.
  intros He.
  assert (e = 0 \/ e = 1 \/ e = 2 \/ e = 3 \/ e = 4 \/ e = 5 \/ e = 6 \/ e = 7)
    as Hcases by lia.
  repeat (destruct Hcases as [-> | Hcases]; [reflexivity|]).
  subst e. reflexivity.
Qed.

(** The value of a section as a fraction. *)
Lemma spec_value_fraction (sec : list byte) :
  let '(sign, digits, exponent) := spec_fields sec in
  spec_value sec = Qmake (sign * digits * 1) (1 * Z.to_pos (10 ^ exponent)).
Proof.
  pose proof (spec_fields_range sec) as Hr. unfold spec_value.
  destruct (spec_fields sec) as [[sign digits] exponent].
  destruct Hr as (_ & _ & He). rewrite (magnitude_value exponent He).
  reflexivity.
Qed.

(** X9. Every reading the decoder returns lies between -(2^32 - 1) and
    2^32 - 1: the digits are a 32-bit unsigned number and the exponent only
    scales them down, by at most 10^7. *)
Theorem X9_readings_bounded (buf : list byte) :
  exists out,
    decode buf = Ok out /\
    Forall (fun q => (inject_Z (-4294967295) <= q)%Q /\
                     (q <= inject_Z 4294967295)%Q) out.
Proof.
  exists (map spec_value (sections buf)). split; [apply decode_sections|].
  apply Forall_forall. intros q Hq. apply list_elem_of_fmap in Hq as (sec & -> & _).
  pose proof (spec_fields_range sec) as Hr.
  pose proof (spec_value_fraction sec) as Hv.
  destruct (spec_fields sec) as [[sign digits] exponent].
  destruct Hr as (Hs & Hd & He). rewrite Hv.
  assert (Hpow : 1 <= 10 ^ exponent) by (apply Z.pow_le_mono_r with (b := 0); lia) .
  unfold Qle, inject_Z. cbn [Qnum Qden].
  rewrite !Pos2Z.inj_mul, Z2Pos.id by lia.
  destruct Hs as [-> | ->]; split; nia.
Qed.

(** X10. A reading is zero exactly when the digits are zero, and negative
    exactly when the sign bit (mask 0x08 of byte 2) is set and the digits
    are not zero: a set sign bit over zero digits still reads as zero. *)
Theorem X10_reading_sign (b1 b2 b3 b4 b5 b6 : byte) :
  let digits :=
    Py.byte_Z b3 * 2 ^ 24 + Py.byte_Z b4 * 2 ^ 16 + Py.byte_Z b5 * 2 ^ 8
    + Py.byte_Z b6 in
  exists q,
    decode [b1; b2; b3; b4; b5; b6] = Ok [q] /\
    ((q == 0)%Q <-> digits = 0) /\
    ((q < 0)%Q <-> Z.land (Py.byte_Z b2) 8 <> 0 /\ digits <> 0).
Proof.
  intros digits. exists (spec_value [b1; b2; b3; b4; b5; b6]).
  split; [rewrite decode_sections; reflexivity|].
  pose proof (spec_fields_range [b1; b2; b3; b4; b5; b6]) as Hr.
  pose proof (spec_value_fraction [b1; b2; b3; b4; b5; b6]) as Hv.
  assert (Hsign : Z.land (Py.byte_Z b2) 8 <> 0 <->
                  Z.testbit (Py.byte_Z b2) 3 = true).
  { destruct b2; vm_compute; split; intros; congruence. }
  cbn [spec_fields] in Hr, Hv. fold digits in Hr, Hv.
  destruct Hr as (_ & Hd & He). rewrite Hv. rewrite Hsign.
  unfold Qeq, Qlt. cbn [Qnum Qden].
  destruct (Z.testbit (Py.byte_Z b2) 3); split; split; intros; try nia;
    try (split; [reflexivity | nia]); try (destruct H; congruence || nia).
Qed.

(** X11. The decoder never looks at byte 1 of a section nor at the upper
    four bits of byte 2: two sections that agree on the lower four bits of
    byte 2 and on bytes 3-6 decode to the same reading. *)
Theorem X11_unread_bits (a1 a2 c1 c2 b3 b4 b5 b6 : byte) :
  Z.land (Py.byte_Z a2) 15 = Z.land (Py.byte_Z c2) 15 ->
  decode [a1; a2; b3; b4; b5; b6] = decode [c1; c2; b3; b4; b5; b6].
Proof.
  intros Hlow. rewrite !decode_sections.
  change (sections [a1; a2; b3; b4; b5; b6]) with [[a1; a2; b3; b4; b5; b6]].
  change (sections [c1; c2; b3; b4; b5; b6]) with [[c1; c2; b3; b4; b5; b6]].
  cbn [map]. unfold spec_value, spec_fields.
  assert (Hbit : forall z, Z.testbit z 3 = Z.testbit (Z.land z 15) 3).
  { intros z. rewrite Z.land_spec. change (Z.testbit 15 3) with true.
    rewrite andb_true_r. reflexivity. }
  assert (Hexp : forall z, Z.land z 7 = Z.land (Z.land z 15) 7).
  { intros z. rewrite <- Z.land_assoc. reflexivity. }
  rewrite (Hbit (Py.byte_Z a2)), (Hbit (Py.byte_Z c2)).
  rewrite (Hexp (Py.byte_Z a2)), (Hexp (Py.byte_Z c2)), Hlow.
  reflexivity.
Qed.

Lemma X11_unread_bits_witness :
  decode [xff; xf8; x00; x00; x27; x10] = decode [x00; x08; x00; x00; x27; x10].
Proof. apply X11_unread_bits. reflexivity. Defined.

End DecoderMore.

(** * Further properties of the dispatcher and of the loop *)

Module ServerMore.
Import Server Commands ServerFacts.

Lemma split_go_blank (s : string) :
  blank s = true -> split_go s "" = [].
Proof.
  induction s as [|c s IH]; intros Hb; [reflexivity|].
  cbn [blank] in Hb. apply andb_prop in Hb as [Hc Hs].
  cbn [split_go]. rewrite Hc. cbn [String.eqb]. apply IH, Hs.
Qed.

Section Facts.
Context `{Collaborators}.

(** X12. A line whose last character is not a carriage return is refused
    with [ValueError] before it is split or dispatched: the assembly is
    unchanged, and as the loop catches only [BlockingIOError] the loop
    ends there, nothing having been sent. *)
Theorem X12_unterminated_line (cmd : string) (c : ascii) (st : loop_state) :
  last_char cmd = Some c ->
  c <> CR ->
  process_command cmd (asm st) = (Raise ValueError, asm st) /\
  command_step (Ok cmd) st = Crash ValueError st.
Proof.
  intros Hl Hc.
  assert (Hpc : process_command cmd (asm st) = (Raise ValueError, asm st)).
  { unfold process_command. rewrite Hl.
    destruct (Ascii.eqb c CR) eqn:E; [apply Ascii.eqb_eq in E; contradiction|].
    reflexivity. }
  split; [exact Hpc|].
  unfold command_step. rewrite (last_char_nonempty _ _ Hl), Hpc.
  rewrite with_asm_same. reflexivity.
Qed.

(** X13. A line of blanks only that ends in a carriage return (the bare
    carriage return included) has no first token: the dispatcher raises
    [IndexError], which the loop does not catch either. *)
Theorem X13_blank_line (cmd : string) (st : loop_state) :
  last_char cmd = Some CR ->
  blank cmd = true ->
  process_command cmd (asm st) = (Raise IndexError, asm st) /\
  command_step (Ok cmd) st = Crash IndexError st.
Proof.
  intros Hl Hb.
  assert (Hpc : process_command cmd (asm st) = (Raise IndexError, asm st)).
  { unfold process_command, split. rewrite Hl, (split_go_blank cmd Hb).
    reflexivity. }
  split; [exact Hpc|].
  unfold command_step. rewrite (last_char_nonempty _ _ Hl), Hpc.
  rewrite with_asm_same. reflexivity.
Qed.

Lemma dispatch_plain (cmd f : string) (s s' : option string)
    (asm0 : assembly) :
  f ∈ plain_fields -> dispatch cmd f s asm0 = dispatch cmd f s' asm0.
Proof.
  intros Hf. unfold plain_fields in Hf.
  repeat (apply elem_of_cons in Hf as [->|Hf]; [reflexivity|]).
  apply elem_of_nil in Hf. destruct Hf.
Qed.

(** X14. The argument is bound only when the line has exactly two tokens.
    With three or more, a field that reads its argument raises the
    unbound-local error and changes nothing, while a field that takes no
    argument ignores every token after the first and does what it does on
    the one-token line. *)
Theorem X14_extra_tokens (cmd f a b : string) (more : list string)
    (asm0 : assembly) :
  last_char cmd = Some CR ->
  split cmd = f :: a :: b :: more ->
  (f ∈ argument_fields ->
   process_command cmd asm0 = (Raise UnboundLocalError, asm0)) /\
  (f ∈ plain_fields ->
   process_command cmd asm0 = dispatch cmd f (Some a) asm0).
Proof.
  intros Hl Hs.
  assert (Hpc : process_command cmd asm0 = dispatch cmd f None asm0).
  { unfold process_command. rewrite Hl, Hs. reflexivity. }
  rewrite Hpc. split.
  - apply dispatch_unbound.
  - intros Hf. apply dispatch_plain, Hf.
Qed.




(** X17. A read never changes the assembly: for every field that takes an
    argument, the line [FIELD ?] leaves every attribute as it was, whether
    it returns a value or raises. *)
Theorem X17_read_leaves_assembly (cmd f : string) (asm0 : assembly) :
  last_char cmd = Some CR ->
  split cmd = [f; "?"] ->
  f ∈ argument_fields ->
  (process_command cmd asm0).2 = asm0.
Proof.
  intros Hl Hs Hf. rewrite (process_command_two cmd f "?" _ Hl Hs).
  unfold argument_fields, float_fields, int_fields, str_fields in Hf.
  cbn [app] in Hf.
  repeat (apply elem_of_cons in Hf as [->|Hf];
          [run_branch;
           repeat match goal with
                  | |- context [asm0 !! ?k] => destruct (asm0 !! k)
                  | |- context [py_int_of ?v] => destruct (py_int_of v)
                  end; reflexivity|]).
  apply elem_of_nil in Hf. destruct Hf.
Qed.

(** X18. [PD:REGT 1] configures the power supply before it sets the flag:
    when the configuration raises, the exception leaves the dispatcher and
    the flag is not assigned; when it succeeds the flag becomes 1 in the
    assembly the configuration left. *)
Theorem X18_regulation_on_needs_configuration (cmd a : string)
    (asm0 asm1 : assembly) :
  a <> "?" ->
  py_int a = Some 1 ->
  (forall e,
      configure_power_supply asm0 = (Raise e, asm1) ->
      dispatch cmd "PD:REGT" (Some a) asm0 = (Raise e, asm1)) /\
  (configure_power_supply asm0 = (Ok tt, asm1) ->
   dispatch cmd "PD:REGT" (Some a) asm0 =
     (Ok VNone, <["pid_regulating" := VInt 1]> asm1)).
Proof.
  intros Ha Hp. apply String.eqb_neq in Ha. split.
  - intros e Hc. run_branch. rewrite Ha, Hp. simpl. rewrite Hc. reflexivity.
  - intros Hc. run_branch. rewrite Ha, Hp. simpl. rewrite Hc. reflexivity.
Qed.

Lemma control_step_sent (now now' : Q) (st : loop_state) :
  sent (control_step now now' st).2 = sent st.
Proof.
  unfold control_step, get, mbind, P_bind.
  destruct (asm st !! "pid_regulating") as [flag|]; [|reflexivity].
  destruct (truthy flag); [|reflexivity].
  destruct (asm st !! "sample_time") as [v|]; [|reflexivity].
  destruct (as_number v) as [period|e]; [|reflexivity].
  cbn [of_res mret P_ret].
  destruct (Qle_bool period (now - t0 st)); [|reflexivity].
  destruct (update_supply (asm st)) as [[[]|e] a2]; [|reflexivity].
  destruct (a2 !! "temp"); reflexivity.
Qed.

(** X19. A zero-length read ends the session: the pass that receives it
    leaves the loop through [break] after its control step, the line
    "Disconnected" is printed, nothing is sent, no command is dispatched
    and whatever would have arrived later is never read. *)
Theorem X19_disconnect_ends_loop (now now' : Q)
    (rest : list (Q * Q * res string)) (st st1 : loop_state) :
  control_step now now' st = (Ok tt, st1) ->
  main_loop ((now, now', Ok "") :: rest) st =
    Break (Loop (asm st1) (t0 st1) (sent st)
             (printed st1 ++ [VStr "Disconnected by"])).
Proof.
  intros Hctl. cbn [main_loop]. unfold iteration. rewrite Hctl.
  cbn [command_step String.eqb].
  pose proof (control_step_sent now now' st) as Hs. rewrite Hctl in Hs.
  cbn [snd] in Hs. rewrite Hs. reflexivity.
Qed.

(** X20. No control step before the sample period has elapsed: while
    regulation is on, over any number of passes in which nothing arrives
    and the clock has not reached [t0] plus the period, the controller is
    not called, nothing is printed or sent, and the assembly and the timer
    origin stay exactly as they were. *)
Theorem X20_no_step_before_period (inputs : list (Q * Q * res string))
    (st : loop_state) (flag v : pyval) (period : Q) :
  asm st !! "pid_regulating" = Some flag ->
  truthy flag = true ->
  asm st !! "sample_time" = Some v ->
  as_number v = Ok period ->
  Forall (fun i => i.2 = Raise BlockingIOError /\
                   Qle_bool period (i.1.1 - t0 st) = false) inputs ->
  main_loop inputs st = Continue st.
Proof.
  intros Hflag Htrue Hv Hnum Hall.
  induction Hall as [|[[now now'] rx] rest [Hrx Hearly] _ IH]; [reflexivity|].
  cbn [fst snd] in Hrx, Hearly. subst rx. cbn [main_loop].
  unfold iteration, control_step, get, mbind, P_bind.
  rewrite Hflag, Htrue, Hv. unfold of_res. rewrite Hnum.
  cbn [mret P_ret]. rewrite Hearly. cbn [command_step].
  rewrite with_asm_same. exact IH.
Qed.

Lemma command_step_sent (rx : res string) (st : loop_state) :
  exists extra,
    sent (final (command_step rx st)) = sent st ++ extra /\
    (length extra <= 1)%nat.
Proof.
  unfold command_step.
  destruct rx as [data|e].
  - destruct (String.eqb data "").
    + exists []. cbn. rewrite app_nil_r. split; [reflexivity|lia].
    + destruct (process_command data (asm st)) as [[out|e] a].
      * destruct out;
          first [ exists []; cbn; rewrite app_nil_r; split; [reflexivity|lia]
                | eexists [_]; cbn; split; [reflexivity|lia] ].
      * exists []. destruct e; cbn; rewrite app_nil_r; split;
          reflexivity || lia.
  - exists []. destruct e; cbn; rewrite app_nil_r; split; reflexivity || lia.
Qed.

Lemma iteration_sent (now now' : Q) (rx : res string) (st : loop_state) :
  exists extra,
    sent (final (iteration now now' rx st)) = sent st ++ extra /\
    (length extra <= 1)%nat.
Proof.
  unfold iteration. pose proof (control_step_sent now now' st) as Hs.
  destruct (control_step now now' st) as [[[]|e] st1]; cbn [snd] in Hs.
  - destruct (command_step_sent rx st1) as (extra & He & Hl).
    exists extra. rewrite He, Hs. auto.
  - exists []. cbn [final]. rewrite Hs, app_nil_r.
    split; [reflexivity|cbn; lia].
Qed.

(** X21. At most one reply per pass, and replies are only ever appended:
    however the loop ends, the lines written to the connection are the
    lines written before followed by at most one new line for each pass
    made. *)
Theorem X21_at_most_one_reply_per_pass (inputs : list (Q * Q * res string))
    (st : loop_state) :
  exists extra,
    sent (final (main_loop inputs st)) = sent st ++ extra /\
    (length extra <= length inputs)%nat.
Proof.
  revert st. induction inputs as [|[[now now'] rx] rest IH]; intros st.
  - exists []. cbn. rewrite app_nil_r. split; [reflexivity|lia].
  - cbn [main_loop]. destruct (iteration_sent now now' rx st)
      as (e1 & He1 & Hl1).
    destruct (iteration now now' rx st) as [st'|st'|e st']; cbn [final] in He1.
    + destruct (IH st') as (e2 & He2 & Hl2). exists (e1 ++ e2).
      rewrite He2, He1, app_assoc, length_app. cbn [length].
      split; [reflexivity|lia].
    + exists e1. cbn [final length]. split; [exact He1|lia].
    + exists e1. cbn [final length]. split; [exact He1|lia].
Qed.

(** X22. The handler for [BlockingIOError] covers the dispatch too: when
    the power supply is not ready during [PS:REDY], the exception is
    swallowed; no reply is sent, no error is reported and the loop goes on
    with the assembly as the configuration call left it. *)
Theorem X22_supply_not_ready_is_silent (cmd : string) (more : list string)
    (st : loop_state) (asm1 : assembly) :
  last_char cmd = Some CR ->
  split cmd = "PS:REDY" :: more ->
  configure_power_supply (asm st) = (Raise BlockingIOError, asm1) ->
  command_step (Ok cmd) st = Continue (with_asm st asm1) /\
  sent (with_asm st asm1) = sent st.
Proof.
  intros Hl Hs Hc. split; [|reflexivity].
  assert (Hpc : process_command cmd (asm st) = (Raise BlockingIOError, asm1)).
  { unfold process_command. rewrite Hl, Hs.
    replace (negb (Ascii.eqb CR CR)) with false by reflexivity.
    assert (Hd : forall s, dispatch cmd "PS:REDY" s (asm st) =
                           (Raise BlockingIOError, asm1)).
    { intros s. run_branch. rewrite Hc. reflexivity. }
    destruct more as [|a [|b more]]; apply Hd. }
  unfold command_step. rewrite (last_char_nonempty _ _ Hl), Hpc. reflexivity.
Qed.

End Facts.

Lemma X12_unterminated_line_witness :
  command_step (H := bench true) (Ok "PS:VSET 5")
    (Loop (bench_asm 0) 0%Q [] [])
  = Crash ValueError (Loop (bench_asm 0) 0%Q [] []).
Proof.
  refine (proj2 (X12_unterminated_line (H := bench true) "PS:VSET 5" "5"
                   (Loop (bench_asm 0) 0%Q [] []) eq_refl _)).
  discriminate.
Defined.

Lemma X13_blank_line_witness :
  command_step (H := bench true) (Ok (line ""))
    (Loop (bench_asm 0) 0%Q [] [])
  = Crash IndexError (Loop (bench_asm 0) 0%Q [] []).
Proof.
  exact (proj2 (X13_blank_line (H := bench true) (line "")
                  (Loop (bench_asm 0) 0%Q [] []) eq_refl eq_refl)).
Defined.

Lemma X14_extra_tokens_witness :
  process_command (H := bench true) (line "PD:SETP 25 30") (bench_asm 0)
  = (Raise UnboundLocalError, bench_asm 0).
Proof.
  refine (proj1 (X14_extra_tokens (H := bench true) (line "PD:SETP 25 30")
                   "PD:SETP" "25" "30" [] (bench_asm 0) eq_refl eq_refl) _).
  unfold argument_fields, float_fields. cbn [app]. repeat constructor.
Defined.



Lemma X17_read_leaves_assembly_witness :
  (process_command (H := bench true) (line "PD:KPRO ?") (bench_asm 1)).2
  = bench_asm 1.
Proof.
  refine (X17_read_leaves_assembly (H := bench true) (line "PD:KPRO ?")
            "PD:KPRO" (bench_asm 1) eq_refl eq_refl _).
  unfold argument_fields, float_fields. cbn [app]. repeat constructor.
Defined.

Lemma X18_regulation_on_needs_configuration_witness :
  dispatch (H := bench false) (line "PD:REGT 1") "PD:REGT" (Some "1")
    (bench_asm 0)
  = (Raise (OtherError "timeout"), bench_asm 0).
Proof.
  refine (proj1 (X18_regulation_on_needs_configuration (H := bench false)
                   (line "PD:REGT 1") "1" (bench_asm 0) (bench_asm 0)
                   _ eq_refl) (OtherError "timeout") eq_refl).
  discriminate.
Defined.

Lemma X19_disconnect_ends_loop_witness :
  main_loop (H := bench true)
    [ (5%Q, 5%Q, Ok ""); (6%Q, 6%Q, Ok (line "PS:VSET 9")) ]
    (Loop (bench_asm 0) 0%Q [] [])
  = Break (Loop (<["supply_set_voltage" := VInt 0]> (bench_asm 0)) 0%Q []
             [VStr "Disconnected by"]).
Proof.
  exact (X19_disconnect_ends_loop (H := bench true) 5%Q 5%Q
           [(6%Q, 6%Q, Ok (line "PS:VSET 9"))]
           (Loop (bench_asm 0) 0%Q [] [])
           (Loop (<["supply_set_voltage" := VInt 0]> (bench_asm 0)) 0%Q [] [])
           eq_refl).
Defined.

Lemma X20_no_step_before_period_witness :
  main_loop (H := bench true)
    [ (Qmake 1 4, 0%Q, Raise BlockingIOError);
      (Qmake 1 2, 0%Q, Raise BlockingIOError) ]
    (Loop (bench_asm 1) 0%Q [] [])
  = Continue (Loop (bench_asm 1) 0%Q [] []).
Proof.
  refine (X20_no_step_before_period (H := bench true) _
            (Loop (bench_asm 1) 0%Q [] []) (VInt 1) (VInt 1) 1%Q
            eq_refl eq_refl eq_refl eq_refl _).
  repeat constructor.
Defined.

Lemma X22_supply_not_ready_is_silent_witness :
  command_step (H := busy_bench) (Ok (line "PS:REDY"))
    (Loop (bench_asm 0) 0%Q [] [])
  = Continue (Loop (bench_asm 0) 0%Q [] []).
Proof.
  exact (proj1 (X22_supply_not_ready_is_silent (H := busy_bench)
                  (line "PS:REDY") [] (Loop (bench_asm 0) 0%Q [] [])
                  (bench_asm 0) eq_refl eq_refl eq_refl)).
Defined.

End ServerMore.

(** * Properties of the power supply *)

Module SupplyFacts.
Import Supply.

Lemma py_position_bound {A} (l : list A) (i : Z) (k : nat) :
  py_position l i = Some k -> (k < length l)%nat.
Proof.
  unfold py_position.
  destruct ((0 <=? i) && (i <? Z.of_nat (length l))) eqn:E1.
  - intros [= <-]. apply andb_prop in E1 as [H1 H2]. lia.
  - destruct ((- Z.of_nat (length l) <=? i) && (i <? 0)) eqn:E2;
      [|discriminate].
    intros [= <-]. apply andb_prop in E2 as [H1 H2]. lia.
Qed.

Lemma py_position_channel {A} (l : list A) (channel : Z) :
  1 <= channel <= Z.of_nat (length l) ->
  py_position l (channel - 1) = Some (Z.to_nat (channel - 1)).
Proof.
  intros Hc. unfold py_position.
  replace ((0 <=? channel - 1) && (channel - 1 <? Z.of_nat (length l)))
    with true; [reflexivity|].
  symmetry. apply andb_true_intro. split; lia.
Qed.

(** Writing an element and reading it back, with Python's indices. *)
Lemma py_index_setitem {A} (l l' : list A) (i : Z) (x : A) :
  py_setitem l i x = Ok l' -> py_index l' i = Ok x /\ length l' = length l.
Proof.
  unfold py_setitem, py_index.
  destruct (py_position l i) as [k|] eqn:Hk; [|discriminate].
  intros [= <-]. pose proof (py_position_bound l i k Hk) as Hb.
  assert (Hk' : py_position (<[k:=x]> l) i = Some k).
  { unfold py_position in *. rewrite length_insert. exact Hk. }
  rewrite Hk', list_lookup_insert_eq by exact Hb.
  split; [reflexivity | apply length_insert].
Qed.

Section Facts.
Context {D : Type} `{Instrument D}.

Lemma get_voltage_limit_state (channel : Z) (s : spd D) :
  (get_voltage_limit channel s).2 = s.
Proof.
  unfold get_voltage_limit, mbind, SE_bind, SE_lift, SE_gets.
  destruct (check_channel_syntax channel); [|reflexivity]. cbn.
  destruct (py_index (_channel_voltage_limits s) (channel - 1)); reflexivity.
Qed.

Lemma get_current_limit_state (channel : Z) (s : spd D) :
  (get_current_limit channel s).2 = s.
Proof.
  unfold get_current_limit, mbind, SE_bind, SE_lift, SE_gets.
  destruct (check_channel_syntax channel); [|reflexivity]. cbn.
  destruct (py_index (_channel_current_limits s) (channel - 1)); reflexivity.
Qed.

Lemma get_voltage_limit_value (channel : Z) (s : spd D) (limit : Q) :
  (get_voltage_limit channel s).1 = Ok limit ->
  py_index (_channel_voltage_limits s) (channel - 1) = Ok limit.
Proof.
  unfold get_voltage_limit, mbind, SE_bind, SE_lift, SE_gets.
  destruct (check_channel_syntax channel); [|discriminate]. cbn.
  destruct (py_index (_channel_voltage_limits s) (channel - 1));
    cbn; congruence.
Qed.

Lemma get_current_limit_value (channel : Z) (s : spd D) (limit : Q) :
  (get_current_limit channel s).1 = Ok limit ->
  py_index (_channel_current_limits s) (channel - 1) = Ok limit.
Proof.
  unfold get_current_limit, mbind, SE_bind, SE_lift, SE_gets.
  destruct (check_channel_syntax channel); [|discriminate]. cbn.
  destruct (py_index (_channel_current_limits s) (channel - 1));
    cbn; congruence.
Qed.

(** X23. The software limit holds on everything that reaches the
    instrument: [set_set_voltage] either sends nothing and raises, or
    sends exactly one command [CHn:voltage v] whose value [v], the request
    rounded to three decimals, is at most the limit stored for that
    channel; a rounded request above the limit raises [ValueError] and
    sends nothing.  The stored limits are never changed by it. *)
Theorem X23_set_voltage_within_limit (channel : Z) (volts : Q) (s : spd D) :
  let '(r, s') := set_set_voltage channel volts s in
  _channel_voltage_limits s' = _channel_voltage_limits s /\
  _channel_current_limits s' = _channel_current_limits s /\
  ((sent s' = sent s /\ exists e, r = Raise e) \/
   (exists limit,
       py_index (_channel_voltage_limits s) (channel - 1) = Ok limit /\
       (round3 volts <= limit)%Q /\
       sent s' =
         sent s ++
         [Commanded ("CH" ++ str_int channel ++ ":voltage "
                     ++ str_num (round3 volts))%string])) /\
  (forall limit,
      py_index (_channel_voltage_limits s) (channel - 1) = Ok limit ->
      ~ (round3 volts <= limit)%Q ->
      sent s' = sent s /\ exists e, r = Raise e).
Proof.
  unfold set_set_voltage, mbind, SE_bind.
  destruct (check_channel_syntax channel) as [[]|e] eqn:Hchk; cbn [SE_lift].
  2:{ cbn. split; [reflexivity|]. split; [reflexivity|]. split.
      - left. split; [reflexivity|eauto].
      - intros limit _ _. split; [reflexivity|eauto]. }
  cbn [mret SE_ret].
  pose proof (get_voltage_limit_state channel s) as Hst.
  pose proof (get_voltage_limit_value channel s) as Hval.
  destruct (get_voltage_limit channel s) as [[limit|e] s1]; cbn [fst snd] in *.
  2:{ subst s1. split; [reflexivity|]. split; [reflexivity|]. split.
      - left. split; [reflexivity|eauto].
      - intros limit _ _. split; [reflexivity|eauto]. }
  subst s1. specialize (Hval limit eq_refl).
  destruct (Qle_bool (round3 volts) limit) eqn:Hle.
  - apply Qle_bool_iff in Hle. unfold _command_.
    destruct (_command _ (link s)) as [r d].
    cbn [sent _channel_voltage_limits _channel_current_limits].
    split; [reflexivity|]. split; [reflexivity|]. split.
    + right. exists limit. auto.
    + intros limit' Hl' Hnot. rewrite Hval in Hl'. injection Hl' as <-.
      contradiction.
  - cbn. split; [reflexivity|]. split; [reflexivity|]. split.
    + left. split; [reflexivity|eauto].
    + intros limit' _ _. split; [reflexivity|eauto].
Qed.

(** X24. The same for the current: [set_set_current] either sends nothing
    and raises, or sends exactly one command [CHn:current a] whose value,
    the request rounded to three decimals, is at most the current limit
    stored for that channel; the stored limits are never changed by it. *)
Theorem X24_set_current_within_limit (channel : Z) (amps : Q) (s : spd D) :
  let '(r, s') := set_set_current channel amps s in
  _channel_voltage_limits s' = _channel_voltage_limits s /\
  _channel_current_limits s' = _channel_current_limits s /\
  ((sent s' = sent s /\ exists e, r = Raise e) \/
   (exists limit,
       py_index (_channel_current_limits s) (channel - 1) = Ok limit /\
       (round3 amps <= limit)%Q /\
       sent s' =
         sent s ++
         [Commanded ("CH" ++ str_int channel ++ ":current "
                     ++ str_num (round3 amps))%string])) /\
  (forall limit,
      py_index (_channel_current_limits s) (channel - 1) = Ok limit ->
      ~ (round3 amps <= limit)%Q ->
      sent s' = sent s /\ exists e, r = Raise e).
Proof.
  unfold set_set_current, mbind, SE_bind.
  destruct (check_channel_syntax channel) as [[]|e] eqn:Hchk; cbn [SE_lift].
  2:{ cbn. split; [reflexivity|]. split; [reflexivity|]. split.
      - left. split; [reflexivity|eauto].
      - intros limit _ _. split; [reflexivity|eauto]. }
  cbn [mret SE_ret].
  pose proof (get_current_limit_state channel s) as Hst.
  pose proof (get_current_limit_value channel s) as Hval.
  destruct (get_current_limit channel s) as [[limit|e] s1]; cbn [fst snd] in *.
  2:{ subst s1. split; [reflexivity|]. split; [reflexivity|]. split.
      - left. split; [reflexivity|eauto].
      - intros limit _ _. split; [reflexivity|eauto]. }
  subst s1. specialize (Hval limit eq_refl).
  destruct (Qle_bool (round3 amps) limit) eqn:Hle.
  - apply Qle_bool_iff in Hle. unfold _command_.
    destruct (_command _ (link s)) as [r d].
    cbn [sent _channel_voltage_limits _channel_current_limits].
    split; [reflexivity|]. split; [reflexivity|]. split.
    + right. exists limit. auto.
    + intros limit' Hl' Hnot. rewrite Hval in Hl'. injection Hl' as <-.
      contradiction.
  - cbn. split; [reflexivity|]. split; [reflexivity|]. split.
    + left. split; [reflexivity|eauto].
    + intros limit' _ _. split; [reflexivity|eauto].
Qed.

Lemma get_set_settings (channel : Z) (what : string) (s : spd D) :
  let m : SE (spd D) Q :=
    _ ← SE_lift (check_channel_syntax channel);
    text ← _query_ ("CH" ++ str_int channel ++ what)%string;
    float text in
  same_settings s (m s).2 /\
  (sent (m s).2 = sent s \/
   sent (m s).2 = sent s ++ [Asked ("CH" ++ str_int channel ++ what)%string]) /\
  (forall q, (m s).1 = Ok q ->
     sent (m s).2 = sent s ++ [Asked ("CH" ++ str_int channel ++ what)%string]).
Proof.
  cbv zeta. unfold mbind, SE_bind, same_settings.
  destruct (check_channel_syntax channel) as [[]|e]; cbn [SE_lift].
  2:{ cbn. split; [auto 10|]. split; [auto|]. intros q Hq. discriminate Hq. }
  cbn [mret SE_ret]. unfold _query_.
  destruct (_query _ (link s)) as [[out|e] d].
  - unfold float. destruct (float_of (strip out)); cbn;
      (split; [auto 10|]); (split; [auto|]); intros q' Hq;
      reflexivity || discriminate Hq.
  - cbn. split; [auto 10|]. split; [auto|]. intros q Hq. discriminate Hq.
Qed.

Lemma limit_test (x xmax : Q) :
  negb (Qle_bool x xmax) || Qle_bool x 0 = false ->
  (0 < x)%Q /\ (x <= xmax)%Q.
Proof.
  intros Ht. apply orb_false_elim in Ht as [H1 H2].
  apply negb_false_iff in H1. apply Qle_bool_iff in H1.
  split; [|exact H1]. apply Qnot_le_lt. intros Hle.
  apply Qle_bool_iff in Hle. congruence.
Qed.

Lemma set_channel_voltage_limit_cases (channel : Z) (volts : Q) (s : spd D) :
  let s' := (set_channel_voltage_limit channel volts s).2 in
  _channel_current_limits s' = _channel_current_limits s /\
  _MAX_voltage_limit s' = _MAX_voltage_limit s /\
  _MAX_current_limit s' = _MAX_current_limit s /\
  (sent s' = sent s \/ sent s' = sent s ++ [Asked "CH1:voltage?"]) /\
  (_channel_voltage_limits s' = _channel_voltage_limits s \/
   exists k,
     py_position (_channel_voltage_limits s) (channel - 1) = Some k /\
     _channel_voltage_limits s' = <[k := volts]> (_channel_voltage_limits s) /\
     (0 < volts)%Q /\ (volts <= _MAX_voltage_limit s)%Q /\
     sent s' = sent s ++ [Asked "CH1:voltage?"]).
Proof.
  cbv zeta. unfold set_channel_voltage_limit, mbind, SE_bind.
  destruct (check_channel_syntax channel) as [[]|e]; cbn [SE_lift].
  2:{ cbn. auto 10. }
  cbn [mret SE_ret SE_gets].
  destruct (negb (Qle_bool volts (_MAX_voltage_limit s)) || Qle_bool volts 0)
    eqn:Htest.
  { cbn. auto 10. }
  apply limit_test in Htest as [Hpos Hmax].
  pose proof (get_set_settings 1 ":voltage?" s) as Hq. cbv zeta in Hq.
  change (ch1_set_voltage s) with
    ((_ ← SE_lift (check_channel_syntax 1);
      text ← _query_ ("CH" ++ str_int 1 ++ ":voltage?")%string;
      float text) s).
  destruct ((_ ← SE_lift (check_channel_syntax 1);
             text ← _query_ ("CH" ++ str_int 1 ++ ":voltage?")%string;
             float text) s) as [[present|e] s1].
  2:{ cbn [fst snd] in *.
      destruct Hq as ((Hv & Hc & Hmv & Hmc & _) & Hsent & _).
      change ("CH" ++ str_int 1 ++ ":voltage?")%string
        with "CH1:voltage?" in Hsent. auto 10. }
  cbn [fst snd] in Hq.
  destruct Hq as ((Hv & Hc & Hmv & Hmc & Hcon) & Hsent & Hask).
  specialize (Hask present eq_refl).
  change ("CH" ++ str_int 1 ++ ":voltage?")%string
    with "CH1:voltage?" in Hsent, Hask.
  destruct (negb (Qle_bool present volts)).
  { cbn. auto 10. }
  unfold store_voltage_limit, py_setitem. rewrite Hv.
  destruct (py_position (_channel_voltage_limits s) (channel - 1))
    as [k|] eqn:Hk.
  - cbn [snd _channel_current_limits _MAX_voltage_limit _MAX_current_limit
           sent _channel_voltage_limits].
    split; [exact Hc|]. split; [exact Hmv|]. split; [exact Hmc|].
    split; [exact Hsent|]. right. exists k.
    auto 10.
  - cbn [snd]. auto 10.
Qed.



(** X26. A voltage limit that is accepted is the limit read back: for a
    channel the syntax check admits and that has a stored limit, a value
    that is positive, at most the physical maximum and not below the set
    voltage the instrument reports is stored, [get_voltage_limit] then
    returns it for that channel, and the limits of the other channels are
    as before. *)
Theorem X26_voltage_limit_set_then_get (channel : Z) (volts present : Q)
    (out : string) (d : D) (s : spd D) :
  check_channel_syntax channel = Ok tt ->
  check_channel_syntax 1 = Ok tt ->
  1 <= channel <= Z.of_nat (length (_channel_voltage_limits s)) ->
  (0 < volts)%Q -> (volts <= _MAX_voltage_limit s)%Q ->
  _query "CH1:voltage?" (link s) = (Ok out, d) ->
  float_of (strip out) = Some present ->
  (present <= volts)%Q ->
  exists s',
    set_channel_voltage_limit channel volts s = (Ok tt, s') /\
    get_voltage_limit channel s' = (Ok volts, s') /\
    forall other,
      1 <= other <= Z.of_nat (length (_channel_voltage_limits s)) ->
      other <> channel ->
      (get_voltage_limit other s').1 = (get_voltage_limit other s).1.
Proof.
  intros Hchk Hchk1 Hrange Hpos Hmax Hq Hf Hle.
  assert (Htest : negb (Qle_bool volts (_MAX_voltage_limit s))
                  || Qle_bool volts 0 = false).
  { apply orb_false_intro.
    - apply negb_false_iff, Qle_bool_iff, Hmax.
    - destruct (Qle_bool volts 0) eqn:E; [|reflexivity].
      apply Qle_bool_iff in E. exfalso. apply (Qlt_not_le _ _ Hpos E). }
  assert (Hpres : negb (Qle_bool present volts) = false).
  { apply negb_false_iff, Qle_bool_iff, Hle. }
  pose proof (py_position_channel (_channel_voltage_limits s) channel Hrange)
    as Hk.
  eexists. split.
  - unfold set_channel_voltage_limit, mbind, SE_bind. rewrite Hchk.
    cbn [SE_lift mret SE_ret SE_gets]. rewrite Htest.
    unfold ch1_set_voltage, get_set_voltage, mbind, SE_bind. rewrite Hchk1.
    cbn [SE_lift mret SE_ret]. unfold _query_.
    change ("CH" ++ str_int 1 ++ ":voltage?")%string with "CH1:voltage?".
    rewrite Hq. unfold float. rewrite Hf. cbn [mret SE_ret]. rewrite Hpres.
    unfold store_voltage_limit, py_setitem.
    cbn [_channel_voltage_limits]. rewrite Hk. reflexivity.
  - set (k := Z.to_nat (channel - 1)) in *.
    assert (Hkb : (k < length (_channel_voltage_limits s))%nat) by lia.
    split.
    + unfold get_voltage_limit, mbind, SE_bind. rewrite Hchk.
      cbn [SE_lift mret SE_ret SE_gets _channel_voltage_limits].
      unfold py_index.
      rewrite py_position_channel by (rewrite length_insert; exact Hrange).
      fold k. rewrite list_lookup_insert_eq by exact Hkb. reflexivity.
    + intros other Ho Hne.
      unfold get_voltage_limit, mbind, SE_bind.
      destruct (check_channel_syntax other) as [[]|e]; [|reflexivity].
      cbn [SE_lift mret SE_ret SE_gets _channel_voltage_limits]. unfold py_index.
      rewrite !py_position_channel by (rewrite ?length_insert; exact Ho).
      rewrite list_lookup_insert_ne by (unfold k; lia).
      destruct (_channel_voltage_limits s !! Z.to_nat (other - 1)); reflexivity.
Qed.

(** X27. Whatever the channel, the set voltage a new voltage limit is
    compared with is channel 1's: the only traffic [set_channel_voltage_limit]
    causes is at most one query [CH1:voltage?], and a value below the set
    voltage the instrument reports for channel 1 is refused with a printed
    message, the limit of the channel asked for, channel 2 included, left
    as it was. *)
Theorem X27_limit_checked_against_channel_1 (channel : Z) (volts present : Q)
    (out : string) (d : D) (s : spd D) :
  (sent (set_channel_voltage_limit channel volts s).2 = sent s \/
   sent (set_channel_voltage_limit channel volts s).2
     = sent s ++ [Asked "CH1:voltage?"]) /\
  (check_channel_syntax channel = Ok tt ->
   check_channel_syntax 1 = Ok tt ->
   (0 < volts)%Q -> (volts <= _MAX_voltage_limit s)%Q ->
   _query "CH1:voltage?" (link s) = (Ok out, d) ->
   float_of (strip out) = Some present ->
   (volts < present)%Q ->
   exists s',
     set_channel_voltage_limit channel volts s = (Ok tt, s') /\
     _channel_voltage_limits s' = _channel_voltage_limits s /\
     console s' =
       console s ++
       ["Voltage limit not set. New voltage limit is lower than present channel set voltage."]).
Proof.
  split.
  { destruct (set_channel_voltage_limit_cases channel volts s)
      as (_ & _ & _ & Hsent & _). exact Hsent. }
  intros Hchk Hchk1 Hpos Hmax Hq Hf Hlt.
  assert (Htest : negb (Qle_bool volts (_MAX_voltage_limit s))
                  || Qle_bool volts 0 = false).
  { apply orb_false_intro.
    - apply negb_false_iff, Qle_bool_iff, Hmax.
    - destruct (Qle_bool volts 0) eqn:E; [|reflexivity].
      apply Qle_bool_iff in E. exfalso. apply (Qlt_not_le _ _ Hpos E). }
  assert (Hpres : negb (Qle_bool present volts) = true).
  { apply negb_true_iff. destruct (Qle_bool present volts) eqn:E;
      [|reflexivity].
    apply Qle_bool_iff in E. exfalso. apply (Qlt_not_le _ _ Hlt E). }
  eexists. split; [|split].
  - unfold set_channel_voltage_limit, mbind, SE_bind. rewrite Hchk.
    cbn [SE_lift mret SE_ret SE_gets]. rewrite Htest.
    unfold ch1_set_voltage, get_set_voltage, mbind, SE_bind. rewrite Hchk1.
    cbn [SE_lift mret SE_ret]. unfold _query_.
    change ("CH" ++ str_int 1 ++ ":voltage?")%string with "CH1:voltage?".
    rewrite Hq. unfold float. rewrite Hf. cbn [mret SE_ret]. rewrite Hpres.
    reflexivity.
  - reflexivity.
  - reflexivity.
Qed.

End Facts.



Lemma X26_voltage_limit_set_then_get_witness :
  exists s',
    set_channel_voltage_limit 2 (inject_Z 6) sim_supply = (Ok tt, s') /\
    get_voltage_limit 2 s' = (Ok (inject_Z 6), s').
Proof.
  destruct (X26_voltage_limit_set_then_get (D := sim) 2 (inject_Z 6)
              (inject_Z 5) " 5 " (Sim 5 1) sim_supply)
    as (s' & Hset & Hget & _).
  - reflexivity.
  - reflexivity.
  - cbn. lia.
  - reflexivity.
  - unfold Qle. cbn. lia.
  - reflexivity.
  - reflexivity.
  - unfold Qle. cbn. lia.
  - exists s'. split; [exact Hset | exact Hget].
Defined.

Lemma X27_limit_checked_against_channel_1_witness :
  exists s',
    set_channel_voltage_limit 2 (inject_Z 4) sim_supply = (Ok tt, s') /\
    _channel_voltage_limits s' = [inject_Z 30; inject_Z 10].
Proof.
  destruct (proj2 (X27_limit_checked_against_channel_1 (D := sim) 2
                     (inject_Z 4) (inject_Z 5) " 5 " (Sim 5 1) sim_supply))
    as (s' & Hset & Hlim & _).
  - reflexivity.
  - reflexivity.
  - reflexivity.
  - unfold Qle. cbn. lia.
  - reflexivity.
  - reflexivity.
  - reflexivity.
  - exists s'. split; [exact Hset | exact Hlim].
Defined.

End SupplyFacts.

(** * Properties of the power supply status word *)

Module StatusFacts.
Import Supply Status SupplyFacts.

(** The binary digits of a positive number, least significant first. *)
Lemma reverse_bin_pos (p : positive) (i : nat) :
  (i < length (bin_pos p))%nat ->
  reverse (bin_pos p) !! i = Some (bit_char (Z.testbit (Zpos p) (Z.of_nat i))).
Proof.
  revert i. induction p as [p IH|p IH|]; intros i Hi; cbn [bin_pos] in *.
  - rewrite reverse_app. cbn [reverse app]. rewrite length_app in Hi.
    cbn [length] in Hi. destruct i as [|i]; [reflexivity|].
    cbn [lookup]. change (reverse ["1"%char]) with ["1"%char]. cbn [app].
    rewrite lookup_cons. rewrite IH by lia.
    replace (Z.of_nat (S i)) with (Z.succ (Z.of_nat i)) by lia.
    change (Z.pos p~1) with (2 * Z.pos p + Z.b2z true).
    rewrite (Z.testbit_succ_r (Zpos p) true (Z.of_nat i)) by lia.
    reflexivity.
  - rewrite reverse_app. cbn [reverse app]. rewrite length_app in Hi.
    cbn [length] in Hi. destruct i as [|i]; [reflexivity|].
    change (reverse ["0"%char]) with ["0"%char]. cbn [app].
    rewrite lookup_cons. rewrite IH by lia.
    replace (Z.of_nat (S i)) with (Z.succ (Z.of_nat i)) by lia.
    change (Z.pos p~0) with (2 * Z.pos p + Z.b2z false).
    rewrite (Z.testbit_succ_r (Zpos p) false (Z.of_nat i)) by lia.
    reflexivity.
  - cbn [length] in Hi. destruct i as [|i]; [reflexivity|lia].
Qed.

Lemma bin_pos_high_bits (p : positive) (i : nat) :
  (length (bin_pos p) <= i)%nat -> Z.testbit (Zpos p) (Z.of_nat i) = false.
Proof.
  revert i. induction p as [p IH|p IH|]; intros i Hi; cbn [bin_pos] in Hi;
    rewrite ?length_app in Hi; cbn [length] in Hi;
    (destruct i as [|i]; [lia|]);
    replace (Z.of_nat (S i)) with (Z.succ (Z.of_nat i)) by lia.
  - change (Z.pos p~1) with (2 * Z.pos p + Z.b2z true).
    rewrite Z.testbit_succ_r by lia. apply IH. lia.
  - change (Z.pos p~0) with (2 * Z.pos p + Z.b2z false).
    rewrite Z.testbit_succ_r by lia. apply IH. lia.
  - change (Z.pos 1) with (2 * 0 + Z.b2z true).
    rewrite Z.testbit_succ_r by lia. apply Z.testbit_0_l.
Qed.

(** Counted from the right, the characters of the formatted status are
    the bits of the number. *)
Lemma format_bits (n : Z) (i : nat) :
  0 <= n ->
  (i < length (list_ascii_of_string (format_0_10b n)))%nat ->
  reverse (list_ascii_of_string (format_0_10b n)) !! i
  = Some (bit_char (Z.testbit n (Z.of_nat i))).
Proof.
  intros Hn. unfold format_0_10b.
  rewrite list_ascii_of_string_of_list_ascii.
  rewrite reverse_app, reverse_replicate, length_app, length_replicate.
  intros Hi.
  destruct (decide (i < length (bin n))%nat) as [Hlt|Hge].
  - rewrite lookup_app_l by (rewrite length_reverse; exact Hlt).
    destruct n as [|p|p]; [|apply reverse_bin_pos, Hlt|lia].
    cbn [bin length] in Hlt. destruct i as [|i]; [reflexivity|lia].
  - rewrite lookup_app_r by (rewrite length_reverse; lia).
    rewrite length_reverse.
    rewrite lookup_replicate_2 by lia.
    destruct n as [|p|p]; [rewrite Z.testbit_0_l; reflexivity| |lia].
    rewrite bin_pos_high_bits by (cbn [bin] in Hge; lia). reflexivity.
Qed.

Lemma format_length (n : Z) :
  (10 <= length (list_ascii_of_string (format_0_10b n)))%nat.
Proof.
  unfold format_0_10b. rewrite list_ascii_of_string_of_list_ascii.
  rewrite length_app, length_replicate. lia.
Qed.

(** The character [k] places from the right end. *)
Lemma str_index_from_right (text : string) (k : nat) :
  (1 <= k <= length (list_ascii_of_string text))%nat ->
  str_index text (- Z.of_nat k) =
    match reverse (list_ascii_of_string text) !! (k - 1)%nat with
    | Some c => Ok c
    | None => Raise IndexError
    end.
Proof.
  intros Hk. unfold str_index, py_index, py_position.
  set (l := list_ascii_of_string text) in *.
  replace ((0 <=? - Z.of_nat k) && (- Z.of_nat k <? Z.of_nat (length l)))
    with false by (symmetry; apply andb_false_intro1; lia).
  replace ((- Z.of_nat (length l) <=? - Z.of_nat k) && (- Z.of_nat k <? 0))
    with true by (symmetry; apply andb_true_intro; split; lia).
  rewrite reverse_lookup by lia.
  replace (Z.to_nat (Z.of_nat (length l) + - Z.of_nat k))
    with (length l - S (k - 1))%nat by lia.
  reflexivity.
Qed.

Section Facts.
Context {D : Type} `{Instrument D}.

(** X28. [get_channel_state] reads one bit of the status word: when the
    instrument's reply to [system:status?] parses as the hexadecimal number
    [n >= 0], the state returned for channel 1 is bit 4 of [n] (the fifth
    binary digit from the right) and in general, for channels 1 to 6, bit
    [channel + 3]; the only traffic is that one query. *)
Theorem X28_channel_state_is_status_bit (channel n : Z) (out : string)
    (d : D) (s : spd D) :
  check_channel_syntax channel = Ok tt ->
  1 <= channel <= 6 ->
  _query "system:status?" (link s) = (Ok out, d) ->
  int16_text (strip out) = Ok n ->
  0 <= n ->
  exists s',
    get_channel_state channel s = (Ok (Z.testbit n (channel + 3)), s') /\
    sent s' = sent s ++ [Asked "system:status?"] /\
    same_settings s s'.
Proof.
  intros Hchk Hch Hq Hn Hpos.
  unfold get_channel_state, system_status, mbind, SE_bind.
  rewrite Hchk. cbn [SE_lift mret SE_ret]. unfold _query_. rewrite Hq, Hn.
  cbn [SE_lift mret SE_ret].
  pose proof (format_length n) as Hlen.
  replace (-4 - channel) with (- Z.of_nat (Z.to_nat (channel + 4))) by lia.
  rewrite str_index_from_right by lia.
  rewrite format_bits by lia.
  replace (Z.of_nat (Z.to_nat (channel + 4) - 1)) with (channel + 3) by lia.
  assert (Hint : forall b, int_char (bit_char b) = Ok (if b then 1 else 0)).
  { intros []; reflexivity. }
  cbn [SE_lift mret SE_ret]. rewrite Hint. cbn [SE_lift mret SE_ret].
  eexists. split.
  - destruct (Z.testbit n (channel + 3)); reflexivity.
  - split; [reflexivity|]. unfold same_settings. cbn. auto.
Qed.

End Facts.

Lemma X28_channel_state_is_status_bit_witness :
  exists s',
    get_channel_state 2 (echo_supply "0x0224 ") = (Ok true, s').
Proof.
  destruct (X28_channel_state_is_status_bit (D := echo) 2 548 "0x0224 "
              (Echo "0x0224 ") (echo_supply "0x0224 "))
    as (s' & Hget & _).
  - reflexivity.
  - lia.
  - reflexivity.
  - reflexivity.
  - lia.
  - exists s'. exact Hget.
Defined.

End StatusFacts.

(** * Properties of the picomotor controller *)

Module PicomotorFacts.
Import Picomotor.

(** X29. [Model8742._query_] and [_command_] call themselves with the
    encoded bytes instead of the socket methods of the base class, so no
    call ever reaches the controller: whatever the text or bytes passed,
    with room for one nested call the result is [TypeError], raised when
    the nested call appends the carriage-return string to the bytes; [idn]
    therefore always raises it. *)
Theorem X29_picomotor_calls_always_raise (depth : nat) (arg : text_or_bytes) :
  _query_ (S depth) arg = Some (Raise TypeError) /\
  _command_ (S depth) arg = Some (Raise TypeError) /\
  idn (S depth) = Some (Raise TypeError).
Proof.
  assert (Hq : forall a, _query_ (S depth) a = Some (Raise TypeError)).
  { intros [text|data]; [|reflexivity]. cbn [_query_ add_cr].
    destruct depth; reflexivity. }
  split; [apply Hq|]. split; [|apply Hq].
  destruct arg as [text|data]; [|reflexivity]. cbn [_command_ add_cr].
  destruct depth; reflexivity.
Qed.

End PicomotorFacts.
